(** * Submission lifecycle of the member contact helpdesk

    A shallow embedding of [contact_helpdesk.py] and [google_rag_query.py]:
    the [contact_queue] table, the Streamlit callbacks that drive a
    submission from intake to closure, the payload merge, and the prompt
    builder.  Python values are kept dynamically typed ([pyval]), the
    table is a finite map keyed by [Contact_ID], and every callback is a
    computation in a small state-and-exception monad over the [world]
    (database, sent mail, telemetry, messages shown on screen).  The
    corpus script [create_google_rag.py] is embedded beside them, as
    computations that record what the script does to the cloud. *)

From Stdlib Require Import ZArith QArith String Ascii List Bool Lia.
From stdpp Require Import gmap strings pretty list fin_maps.

Set Warnings "-register-all".

Local Open Scope Z_scope.
Local Open Scope string_scope.

(** ** Python values *)

(** What the MySQL driver hands back for a column, and what the callbacks
    pass to [update_submission]: [None], a [str] or an [int]. *)
Inductive pyval :=
| PNone
| PStr (s : string)
| PInt (z : Z).

#[global] Instance pyval_eq_dec : EqDecision pyval.
Proof. solve_decision. Defined.

(** Python truthiness: [None], the empty string and [0] are falsy. *)
Definition truthy (v : pyval) : bool :=
  match v with
  | PNone => false
  | PStr s => negb (String.eqb s EmptyString)
  | PInt z => negb (Z.eqb z 0)
  end.

(** [str(v)], as an f-string placeholder formats it. *)
Definition py_str (v : pyval) : string :=
  match v with
  | PNone => "None"
  | PStr s => s
  | PInt z => pretty z
  end.

(** Values produced by [json.loads].  Numbers are integers here; the
    callbacks never look at one. *)
Inductive json :=
| JNull
| JBool (b : bool)
| JNum (z : Z)
| JStr (s : string)
| JArr (l : list json)
| JObj (d : list (string * json)).

(** ** Python dicts: insertion ordered, one entry per key *)

Section Dict.
Context {V : Type}.

Fixpoint dict_get (k : string) (d : list (string * V)) : option V :=
  match d with
  | [] => None
  | (k', v) :: d' => if String.eqb k k' then Some v else dict_get k d'
  end.

(** [d[k] = v]: overwrite in place, or append a new entry. *)
Fixpoint dict_set (k : string) (v : V) (d : list (string * V)) : list (string * V) :=
  match d with
  | [] => [(k, v)]
  | (k', v') :: d' =>
      if String.eqb k k' then (k', v) :: d' else (k', v') :: dict_set k v d'
  end.

Definition dict_mem (k : string) (d : list (string * V)) : bool :=
  match dict_get k d with Some _ => true | None => false end.

End Dict.

(** ** The [contact_queue] table *)

(** One row; the field names are the column names listed in
    [fetch_submission_details]. *)
Record row := mkRow {
  Contact_ID : Z;
  Contact_Type : pyval;
  Contact_Fname : pyval;
  Contact_Lname : pyval;
  Contact_Email : pyval;
  Contact_DOB : pyval;
  Contact_Question : pyval;
  Contact_Response : pyval;
  Final_Prompt : pyval;
  Final_Response : pyval;
  Evaluation : pyval;
  Creation_Date : pyval;
  Processed_Date : pyval;
  Status : pyval;
  Payload : pyval
}.

#[global] Instance row_eq_dec : EqDecision row.
Proof. solve_decision. Defined.

(** [SET field_name = input_value] on one row.  The column is named by a
    string, as in the interpolated UPDATE statement; a name that is not a
    column of the table makes the statement fail ([None]).  The key
    column is not rewritten by any caller and is left out. *)
Definition set_column (field_name : string) (v : pyval) (r : row) : option row :=
  let 'mkRow id ty fn ln em dob q resp fp fr ev cd pd st pl := r in
  if String.eqb field_name "Contact_Type" then Some (mkRow id v fn ln em dob q resp fp fr ev cd pd st pl)
  else if String.eqb field_name "Contact_Fname" then Some (mkRow id ty v ln em dob q resp fp fr ev cd pd st pl)
  else if String.eqb field_name "Contact_Lname" then Some (mkRow id ty fn v em dob q resp fp fr ev cd pd st pl)
  else if String.eqb field_name "Contact_Email" then Some (mkRow id ty fn ln v dob q resp fp fr ev cd pd st pl)
  else if String.eqb field_name "Contact_DOB" then Some (mkRow id ty fn ln em v q resp fp fr ev cd pd st pl)
  else if String.eqb field_name "Contact_Question" then Some (mkRow id ty fn ln em dob v resp fp fr ev cd pd st pl)
  else if String.eqb field_name "Contact_Response" then Some (mkRow id ty fn ln em dob q v fp fr ev cd pd st pl)
  else if String.eqb field_name "Final_Prompt" then Some (mkRow id ty fn ln em dob q resp v fr ev cd pd st pl)
  else if String.eqb field_name "Final_Response" then Some (mkRow id ty fn ln em dob q resp fp v ev cd pd st pl)
  else if String.eqb field_name "Evaluation" then Some (mkRow id ty fn ln em dob q resp fp fr v cd pd st pl)
  else if String.eqb field_name "Creation_Date" then Some (mkRow id ty fn ln em dob q resp fp fr ev v pd st pl)
  else if String.eqb field_name "Processed_Date" then Some (mkRow id ty fn ln em dob q resp fp fr ev cd v st pl)
  else if String.eqb field_name "Status" then Some (mkRow id ty fn ln em dob q resp fp fr ev cd pd v pl)
  else if String.eqb field_name "Payload" then Some (mkRow id ty fn ln em dob q resp fp fr ev cd pd st v)
  else None.

(** ** The world the callbacks act on *)

(** A message handed to [send_email_via_sendgrid]. *)
Record email := mkEmail {
  mail_from : string;
  mail_to : string;
  mail_subject : string;
  mail_body : string
}.

(** The two shapes of evaluation telemetry. *)
Inductive telemetry_event :=
| BaserunTag (evaluation : pyval) (payload : json)
| GenericBaserunMessage (model_name : string) (prompt : pyval) (response : pyval)
                        (evaluation : pyval).

(** What Streamlit shows: [st.success] and [st.warning]. *)
Inductive ui_message :=
| StSuccess (msg : string)
| StWarning (msg : string).

(** The reference table [Member_Data]: its column names and its rows. *)
Record table := mkTable {
  field_names : list string;
  records : list (list pyval)
}.

Record world := mkWorld {
  contact_queue : gmap Z row;
  Member_Data : table;
  session_state : gmap string pyval;
  outbox : list email;
  telemetry : list telemetry_event;
  screen : list ui_message
}.

Definition with_queue (q : gmap Z row) (w : world) : world :=
  mkWorld q (Member_Data w) (session_state w) (outbox w) (telemetry w) (screen w).
Definition with_session (s : gmap string pyval) (w : world) : world :=
  mkWorld (contact_queue w) (Member_Data w) s (outbox w) (telemetry w) (screen w).

(** ** Exceptions and the callback monad *)

Inductive exn :=
| KeyError (key : string)
| ValueError (msg : string)
| TypeError
| AttributeError
| JSONDecodeError
| DatabaseError
| ServiceError (service : string).

Inductive result (A : Type) :=
| Ok (a : A)
| Raise (e : exn).
Arguments Ok {A} a.
Arguments Raise {A} e.

Definition M (A : Type) : Type := world -> result A * world.

Definition ret {A} (a : A) : M A := fun w => (Ok a, w).
Definition raise {A} (e : exn) : M A := fun w => (Raise e, w).
Definition bind {A B} (c : M A) (k : A -> M B) : M B :=
  fun w => match c w with
           | (Ok a, w') => k a w'
           | (Raise e, w') => (Raise e, w')
           end.
(** [try: c except JSONDecodeError: h] *)
Definition try_json {A} (c : M A) (h : M A) : M A :=
  fun w => match c w with
           | (Raise JSONDecodeError, w') => h w'
           | r => r
           end.

Notation "x <~ c ;; k" := (bind c (fun x => k))
  (at level 100, c at next level, right associativity).
Notation "c ;;; k" := (bind c (fun _ => k))
  (at level 100, right associativity).

Definition get_world : M world := fun w => (Ok w, w).
Definition put_queue (q : gmap Z row) : M unit := fun w => (Ok tt, with_queue q w).
Definition st_success (msg : string) : M unit :=
  fun w => (Ok tt, mkWorld (contact_queue w) (Member_Data w) (session_state w) (outbox w)
                           (telemetry w) (screen w ++ [StSuccess msg])).
Definition st_warning (msg : string) : M unit :=
  fun w => (Ok tt, mkWorld (contact_queue w) (Member_Data w) (session_state w) (outbox w)
                           (telemetry w) (screen w ++ [StWarning msg])).
Definition emit_telemetry (e : telemetry_event) : M unit :=
  fun w => (Ok tt, mkWorld (contact_queue w) (Member_Data w) (session_state w) (outbox w)
                           (telemetry w ++ [e]) (screen w)).
Definition record_mail (m : email) : M unit :=
  fun w => (Ok tt, mkWorld (contact_queue w) (Member_Data w) (session_state w)
                           (outbox w ++ [m]) (telemetry w) (screen w)).
Definition of_option {A} (e : exn) (o : option A) : M A :=
  match o with Some a => ret a | None => raise e end.
Definition lift {A} (r : result A) : M A := fun w => (r, w).

(** ** Python operators on dynamically typed values *)

(** [a + b] on strings; anything else is a [TypeError]. *)
Definition py_add (a b : pyval) : result pyval :=
  match a, b with
  | PStr x, PStr y => Ok (PStr (x ++ y))
  | _, _ => Raise TypeError
  end.

(** [d[k]] on a dict read from the database. *)
Definition py_item (k : string) (d : list (string * pyval)) : result pyval :=
  match dict_get k d with
  | Some v => Ok v
  | None => Raise (KeyError k)
  end.

Definition is_substring (s1 s2 : string) : bool :=
  match String.index 0 s1 s2 with Some _ => true | None => false end.

Definition json_is_str (s : string) (v : json) : bool :=
  match v with JStr t => String.eqb t s | _ => false end.

(** [k in payload] for whatever [json.loads] returned. *)
Definition py_contains (k : string) (payload : json) : result bool :=
  match payload with
  | JObj d => Ok (dict_mem k d)
  | JArr l => Ok (existsb (json_is_str k) l)
  | JStr s => Ok (is_substring k s)
  | JNull | JBool _ | JNum _ => Raise TypeError
  end.

(** [payload[k]] with a string subscript. *)
Definition py_getitem (k : string) (payload : json) : result json :=
  match payload with
  | JObj d => match dict_get k d with Some v => Ok v | None => Raise (KeyError k) end
  | _ => Raise TypeError
  end.

(** [payload[k] = v] with a string subscript. *)
Definition py_setitem (k : string) (v : json) (payload : json) : result json :=
  match payload with
  | JObj d => Ok (JObj (dict_set k v d))
  | _ => Raise TypeError
  end.

Definition nl : string := String (ascii_of_nat 10) EmptyString.

(** ** What lies outside the two scripts *)

(** The application configuration read from [config.json]. *)
Record config := mkConfig {
  sendgrid_key : string
}.

(** One retrieved passage of the corpus service's answer. *)
Record context := mkContext {
  text : string;
  score : Q
}.

(** What a call of the mail helper may come to. *)
Inductive send_outcome :=
| Delivered
| Undelivered
| SendRaised.

(** The collaborators the scripts call: the [json] module, [str()] of a
    dict, the file system, Vertex AI, the helpers imported from
    [contact_utils], and the database server for the one statement whose
    text is made by interpolation.  [None] (or [false]) stands for a raised
    exception. *)
Record externals := mkExternals {
  (* json.loads(s); None: JSONDecodeError *)
  json_loads : string -> option json;
  (* json.dumps(payload) *)
  json_dumps : json -> string;
  (* str(known_info), as the f-string formats the dict *)
  format_dict : list (string * pyval) -> string;
  (* json.load(open(path)) *)
  read_json_file : string -> option (list (string * pyval));
  (* vertexai.init(project, location), with the credentials path exported *)
  vertexai_init : pyval -> pyval -> string -> bool;
  (* rag.retrieval_query(rag_corpus, text, similarity_top_k,
     vector_distance_threshold), then response.contexts.contexts *)
  rag_retrieval_query : pyval -> pyval -> Z -> Q -> option (list context);
  (* send_baserun_openai_query(config, prompt) = (response, trace_id) *)
  send_baserun_openai_query : config -> string -> option (string * string);
  (* initialize_baserun(config) *)
  initialize_baserun : config -> bool;
  (* whether send_baserun_tag or send_generic_baserun_message returns *)
  baserun_accepts : telemetry_event -> bool;
  (* send_email_via_sendgrid(key, from, to, subject, body) *)
  send_email_via_sendgrid : string -> email -> send_outcome;
  (* cursor.execute(statement) on the member database, then the cursor's
     column names and fetchone(); None: one of them raises *)
  mysql_execute : string -> table -> option (list string * option (list pyval))
}.

(** [json.loads(v)]: a [str] is parsed, anything else is a [TypeError]. *)
Definition py_json_loads (E : externals) (v : pyval) : result json :=
  match v with
  | PStr s => match json_loads E s with Some j => Ok j | None => Raise JSONDecodeError end
  | _ => Raise TypeError
  end.

(** ** google_rag_query.py *)

Module google_rag_query.
Section Externals.
Variable E : externals.

(** Column names and values of a [contact_queue] row, as the cursor
    reports them. *)
Definition queue_field_names : list string :=
  ["Contact_ID"; "Contact_Type"; "Contact_Fname"; "Contact_Lname"; "Contact_Email";
   "Contact_DOB"; "Contact_Question"; "Contact_Response"; "Final_Prompt";
   "Final_Response"; "Evaluation"; "Creation_Date"; "Processed_Date"; "Status";
   "Payload"].

Definition queue_record (r : row) : list pyval :=
  [PInt (Contact_ID r); Contact_Type r; Contact_Fname r; Contact_Lname r;
   Contact_Email r; Contact_DOB r; Contact_Question r; Contact_Response r;
   Final_Prompt r; Final_Response r; Evaluation r; Creation_Date r;
   Processed_Date r; Status r; Payload r].

(** The [for i, value in enumerate(record)] loop of [process_record];
    [None] is the [IndexError] of [field_names[i]]. *)
Fixpoint process_values (i : nat) (record : list pyval) (names : list string)
         (processed_record : list (string * pyval)) : option (list (string * pyval)) :=
  match record with
  | [] => Some processed_record
  | value :: rest =>
      match nth_error names i with
      | Some name => process_values (S i) rest names (dict_set name value processed_record)
      | None => None
      end
  end.

Definition process_record (record : option (list pyval)) (names : list string)
  : option (list (string * pyval)) :=
  match record with
  | None => Some []
  | Some values => process_values 0 values names []
  end.

(** The bare [except] turns every failure into the empty dict. *)
Definition fetch_submission_details (contact_id : Z) : M (list (string * pyval)) :=
  w <~ get_world ;;
  let record := option_map queue_record (contact_queue w !! contact_id) in
  match process_record record queue_field_names with
  | Some submission_info => ret submission_info
  | None => ret []
  end.

Fixpoint column_index (name : string) (names : list string) : option nat :=
  match names with
  | [] => None
  | n :: rest =>
      if String.eqb n name then Some 0%nat
      else option_map S (column_index name rest)
  end.

Definition column_value (name : string) (names : list string) (record : list pyval)
  : option pyval :=
  match column_index name names with
  | Some i => nth_error record i
  | None => None
  end.

(** The statement of [get_member_data]: email and name are interpolated
    into its text as they are, between single quotes. *)
Definition member_statement (email name : pyval) : string :=
  "SELECT * FROM Member_Data WHERE `Email_Address` = '" ++ py_str email
  ++ "' OR `Member_Name` = '" ++ py_str name ++ "'".

Definition get_member_data (record_dict : list (string * pyval))
  : M (list (string * pyval)) :=
  email <~ lift (py_item "Contact_Email" record_dict) ;;
  fname <~ lift (py_item "Contact_Fname" record_dict) ;;
  fname_sp <~ lift (py_add fname (PStr " ")) ;;
  lname <~ lift (py_item "Contact_Lname" record_dict) ;;
  name <~ lift (py_add fname_sp lname) ;;
  dob <~ lift (py_item "Contact_DOB" record_dict) ;;
  w <~ get_world ;;
  (* the bare except turns every failure into the empty dict *)
  match mysql_execute E (member_statement email name) (Member_Data w) with
  | Some (field_names, record) =>
      match process_record record field_names with
      | Some known_info => ret known_info
      | None => ret []
      end
  | None => ret []
  end.

Definition initialize_vertex_ai (project_id location : pyval) (credentials_path : string)
  : M unit :=
  if vertexai_init E project_id location credentials_path then ret tt
  else raise (ServiceError "vertexai.init").

Definition load_json_config (config_path : string) : M (list (string * pyval)) :=
  of_option (ServiceError "open") (read_json_file E config_path).

Definition similarity_top_k : Z := 3.
Definition vector_distance_threshold : Q := 1 # 2.

Definition query_corpus (corpus_config : list (string * pyval)) (credentials_path : string)
           (query_text : pyval) : M (list context) :=
  rag_name <~ lift (py_item "corpus_name" corpus_config) ;;
  of_option (ServiceError "rag.retrieval_query")
    (rag_retrieval_query E rag_name query_text similarity_top_k vector_distance_threshold).

Definition system_list : list string :=
  ["You are an expert assistance extracting information from context provided.";
   "Answer the question based on the context. Be concise and do not hallucinate.";
   "Respond with the information you have in polite and professional manner.";
   "If you do not have the information just say so and start the reply with [NONE].";
   "Any query for Member ID or Member Number should use Brand_Member_ID as context but refer to it as Member ID.";
   "Responsed in markdown format to make it easy to read."].

(** The f-string of [get_rag_prompt] with the joined system list in
    front: [' '.join(system_list) + prompt]. *)
Definition full_prompt (system : list string) (rag_reply : string)
           (known_info : list (string * pyval)) (myquestion : pyval) : string :=
  String.concat " " system
  ++ nl ++ "        Context: " ++ rag_reply ++ " with Additional data "
  ++ format_dict E known_info
  ++ nl ++ "        Question:  "
  ++ nl ++ "        " ++ py_str myquestion
  ++ nl ++ "        Answer: '"
  ++ nl ++ "    ".

(** [contexts_list[0].text] when the list is not empty. *)
Definition first_context_text (contexts_list : list context) : string :=
  match contexts_list with
  | c :: _ => text c
  | [] => EmptyString
  end.

Definition get_rag_prompt (corpus_config_path credentials_path : string) (cfg : config)
           (contact_id : Z) : M string :=
  corpus_config <~ load_json_config corpus_config_path ;;
  project_id <~ lift (py_item "project_id" corpus_config) ;;
  location <~ lift (py_item "location" corpus_config) ;;
  initialize_vertex_ai project_id location credentials_path ;;;
  submission_info <~ fetch_submission_details contact_id ;;
  myquestion <~ lift (py_item "Contact_Question" submission_info) ;;
  known_info <~ get_member_data submission_info ;;
  query_text <~ lift (py_item "Contact_Question" submission_info) ;;
  answer <~ query_corpus corpus_config credentials_path query_text ;;
  let rag_reply := first_context_text answer in
  ret (full_prompt system_list rag_reply known_info myquestion).
End Externals.

(** *** The generative model with the retrieval tool *)

(** One candidate of the model's answer: the role of its content and
    the text of each of its parts. *)
Record candidate := mkCandidate {
  candidate_role : string;
  candidate_parts : list string
}.

Section Generation.
Variable E : externals.

(** [GenerativeModel(model_name, tools, system_instruction)
    .generate_content(content)] with the retrieval tool over one corpus
    ([rag_corpus], [similarity_top_k], [vector_distance_threshold]), then
    [response.candidates].  [None]: the call raises. *)
Variable generate_content :
  string -> pyval -> Z -> Q -> list string -> list string -> option (list candidate).

(** The f-string of [enhanced_query_corpus]: member data and question,
    no retrieved passage. *)
Definition enhanced_prompt (known_info : list (string * pyval)) (myquestion : pyval)
  : string :=
  nl ++ "        Context:  Additional data " ++ format_dict E known_info
  ++ nl ++ "        Question:  "
  ++ nl ++ "        " ++ py_str myquestion
  ++ nl ++ "        Answer: '"
  ++ nl ++ "    ".

Definition enhanced_query_corpus (corpus_config : list (string * pyval))
           (credentials_path : string) (known_info : list (string * pyval))
           (myquestion : pyval) : M (string * list candidate) :=
  rag_corpus <~ lift (py_item "corpus_name" corpus_config) ;;
  let prompt := enhanced_prompt known_info myquestion in
  let content := [prompt] in
  let full_prompt := String.concat " " system_list ++ prompt in
  response <~ of_option (ServiceError "generate_content")
                (generate_content "gemini-1.5-pro-001" rag_corpus similarity_top_k
                                  vector_distance_threshold system_list content) ;;
  ret (full_prompt, response).

(** The loop [for candidate in answer.candidates], whose body ends in
    [break]: one round at most.  The inner loop assigns every part's text
    to [reply] in turn. *)
Definition candidates_loop (candidates : list candidate) (reply : string) : string :=
  match candidates with
  | [] => reply
  | candidate :: _ =>
      if String.eqb (candidate_role candidate) "model"
      then fold_left (fun _ part => part) (candidate_parts candidate) reply
      else reply
  end.

Definition get_rag_response (corpus_config_path credentials_path : string) (cfg : config)
           (contact_id : Z) : M (string * string) :=
  corpus_config <~ load_json_config E corpus_config_path ;;
  project_id <~ lift (py_item "project_id" corpus_config) ;;
  location <~ lift (py_item "location" corpus_config) ;;
  initialize_vertex_ai E project_id location credentials_path ;;;
  submission_info <~ fetch_submission_details contact_id ;;
  known_info <~ get_member_data E submission_info ;;
  myquestion <~ lift (py_item "Contact_Question" submission_info) ;;
  pa <~ enhanced_query_corpus corpus_config credentials_path known_info myquestion ;;
  let '(prompt, answer) := pa in
  ret (prompt, candidates_loop answer EmptyString).
End Generation.
End google_rag_query.

(** ** contact_helpdesk.py *)

Module contact_helpdesk.
Section Externals.
Variable E : externals.

Definition corpus_config_path : string := "corpus_config.json".
Definition credentials_path : string := "key.json".
Definition config_path : string := "config.json".

Definition email_from : string := "user@example.com".
Definition email_to : string := "user@example.com".
Definition subject : string := "Response to your inquiry".

Definition blank_row : row :=
  mkRow 0 PNone PNone PNone PNone PNone PNone PNone PNone PNone PNone PNone PNone PNone
        PNone.

(** Whether [SET field_name = ...] names a column of the table. *)
Definition is_column (field_name : string) : bool :=
  match set_column field_name PNone blank_row with
  | Some _ => true
  | None => false
  end.

(** [UPDATE contact_queue SET field_name = input_value WHERE Contact_ID =
    submission_id], committed at once.  No matching row is not an error. *)
Definition update_submission (cfg : config) (submission_id : Z) (field_name : string)
           (input_value : pyval) : M unit :=
  if is_column field_name then
    w <~ get_world ;;
    match contact_queue w !! submission_id with
    | Some r =>
        match set_column field_name input_value r with
        | Some r' => put_queue (<[submission_id := r']> (contact_queue w))
        | None => raise DatabaseError
        end
    | None => ret tt
    end
  else raise DatabaseError.

(** Read, modify and write back the JSON text in [Payload]. *)
Definition update_submission_payload (cfg : config) (submission_id : Z) (key : string)
           (value : json) : M unit :=
  w <~ get_world ;;
  match contact_queue w !! submission_id with
  | Some r =>
      payload <~ (if truthy (Payload r) then lift (py_json_loads E (Payload r))
                  else ret (JObj [])) ;;
      payload <~ lift (py_setitem key value payload) ;;
      let payload_json := json_dumps E payload in
      match set_column "Payload" (PStr payload_json) r with
      | Some r' => put_queue (<[submission_id := r']> (contact_queue w))
      | None => raise DatabaseError
      end
  | None => raise (ValueError ("No submission found with ID: " ++ pretty submission_id))
  end.

Definition fetch_submission_details (cfg : config) (submission_id : Z) : M (option row) :=
  w <~ get_world ;;
  ret (contact_queue w !! submission_id).

(** [Status <> 'Closed']; a NULL status compares to NULL and is not
    selected, a number is compared with the literal read as 0. *)
Definition status_not_closed (st : pyval) : bool :=
  match st with
  | PNone => false
  | PStr s => negb (String.eqb s "Closed")
  | PInt z => negb (Z.eqb z 0)
  end.

Definition fetch_waiting_submissions (cfg : config) : M (list row) :=
  w <~ get_world ;;
  ret (filter (fun r => status_not_closed (Status r) = true)
              (map snd (map_to_list (contact_queue w)))).

(** The key AUTO_INCREMENT gives the next row. *)
Definition next_contact_id (q : gmap Z row) : Z :=
  Z.succ (map_fold (fun k _ acc => Z.max k acc) 0 q).

(** Modelled from the spec: the table definition, and with it the
    defaults of the columns the INSERT of [insert_submission] leaves out,
    is not part of the scripts.  The row written takes for them the
    values the data model gives a new submission: status New, no
    response, no prompt, no evaluation, no processing date, no payload. *)
Definition new_submission (id : Z) (contact_type fname lname email dob comment date : pyval)
  : row :=
  mkRow id contact_type fname lname email dob comment PNone PNone PNone PNone date PNone
        (PStr "New") PNone.

Definition insert_submission (cfg : config)
           (contact_type fname lname email dob comment date : pyval) : M unit :=
  w <~ get_world ;;
  let id := next_contact_id (contact_queue w) in
  put_queue (<[id := new_submission id contact_type fname lname email dob comment date]>
               (contact_queue w)).

Definition return_template (submission_details : row) (response : pyval) : result string :=
  match py_add (Contact_Fname submission_details) (PStr " ") with
  | Raise e => Raise e
  | Ok fname_sp =>
      match py_add fname_sp (Contact_Lname submission_details) with
      | Raise e => Raise e
      | Ok user_name =>
          let question := Contact_Question submission_details in
          Ok ("Dear " ++ py_str user_name ++ "," ++ nl
              ++ nl
              ++ "Thank you for your inquiry." ++ nl
              ++ nl
              ++ "You asked our helpdesk the following question:" ++ nl
              ++ py_str question ++ nl
              ++ nl
              ++ py_str response ++ nl
              ++ nl
              ++ "If you have any further questions, please feel free to contact us." ++ nl
              ++ nl
              ++ "Best regards," ++ nl
              ++ "Your Helpdesk Team")
      end
  end.

(** The call of the mail helper.  What it was handed is kept in [outbox];
    the helper delivers, fails quietly, or raises. *)
Definition send_email (key : string) (from to subj body : string) : M unit :=
  let m := mkEmail from to subj body in
  record_mail m ;;;
  match send_email_via_sendgrid E key m with
  | Delivered => ret tt
  | Undelivered => ret tt
  | SendRaised => raise (ServiceError "send_email_via_sendgrid")
  end.

Definition clicked_close_submission (cfg : config) (submission_id : Z)
           (submission_details : row) : M unit :=
  update_submission cfg submission_id "Status" (PStr "Closed") ;;;
  let response := Final_Response submission_details in
  email_body <~ lift (return_template submission_details response) ;;
  send_email (sendgrid_key cfg) email_from email_to subject email_body ;;;
  st_success "Submission closed, Email Sent.".

Definition openai_query (cfg : config) (prompt : string) : M (string * string) :=
  of_option (ServiceError "send_baserun_openai_query")
            (send_baserun_openai_query E cfg prompt).

Definition clicked_get_openai (cfg : config) (corpus_config_path credentials_path : string)
           (submission_id : Z) (submission_details : row) : M unit :=
  let contact_id := Contact_ID submission_details in
  prompt <~ google_rag_query.get_rag_prompt E corpus_config_path credentials_path cfg
              contact_id ;;
  rt <~ openai_query cfg prompt ;;
  let '(response, trace_id) := rt in
  update_submission cfg submission_id "Contact_Response" (PStr response) ;;;
  update_submission cfg submission_id "Final_Prompt" (PStr prompt) ;;;
  update_submission cfg submission_id "Status" (PStr "Processed") ;;;
  update_submission_payload cfg submission_id "llm" (JStr "openai") ;;;
  update_submission_payload cfg submission_id "trace_id" (JStr trace_id) ;;;
  st_success "OpenAI response fetched and submission updated.".

(** [st.session_state[key]]. *)
Definition session_get (key : string) : M pyval :=
  w <~ get_world ;;
  of_option (KeyError key) (session_state w !! key).

Definition session_set (key : string) (v : pyval) : M unit :=
  fun w => (Ok tt, with_session (<[key := v]> (session_state w)) w).

Definition send_telemetry (ev : telemetry_event) : M unit :=
  emit_telemetry ev ;;;
  if baserun_accepts E ev then ret tt else raise (ServiceError "baserun").

Definition model_name : string := "gemini-1.5-pro-001".

(** The [try] block that opens [clicked_submit_response]: decode the
    payload of the captured details, fall back to the empty dict with a
    warning when the text is not JSON. *)
Definition decode_payload (submission_details : row) : M json :=
  try_json
    (if truthy (Payload submission_details)
     then lift (py_json_loads E (Payload submission_details))
     else ret (JObj []))
    (st_warning "Invalid JSON payload. Unable to parse." ;;; ret (JObj [])).

Definition clicked_submit_response (cfg : config) (submission_id : Z)
           (submission_details : row) (prompt : pyval) : M unit :=
  payload <~ decode_payload submission_details ;;
  response <~ session_get ("final_" ++ pretty submission_id) ;;
  update_submission cfg submission_id "Final_Response" response ;;;
  evaluation <~ session_get ("slider_" ++ pretty submission_id) ;;
  update_submission cfg submission_id "Evaluation" evaluation ;;;
  (if initialize_baserun E cfg then ret tt else raise (ServiceError "initialize_baserun")) ;;;
  has_llm <~ lift (py_contains "llm" payload) ;;
  is_openai <~ (if has_llm
                then llm <~ lift (py_getitem "llm" payload) ;; ret (json_is_str "openai" llm)
                else ret false) ;;
  (if is_openai
   then send_telemetry (BaserunTag evaluation payload)
   else send_telemetry (GenericBaserunMessage model_name prompt response evaluation)) ;;;
  st_success "Response updated and email prepared.".

(** *** The submission page *)

Inductive button :=
| SendEmailCloseSubmission
| GetRagLlmResponse
| SubmitResponse.

#[global] Instance button_eq_dec : EqDecision button.
Proof. solve_decision. Defined.

(** What [load_submission_details] leaves on screen: the form of one
    submission, the details its callbacks captured, and its buttons. *)
Record form := mkForm {
  form_submission_id : Z;
  form_details : row;
  form_prompt : pyval;
  form_slider : bool;
  form_buttons : list button
}.

(** [s.replace("$", "\$")] *)
Fixpoint escape_dollar (s : string) : string :=
  match s with
  | EmptyString => EmptyString
  | String c rest =>
      if Ascii.eqb c "$"%char then String "092"%char (String c (escape_dollar rest))
      else String c (escape_dollar rest)
  end.

(** The form of one submission.  Of the widgets only what the callbacks
    read later is kept: the buttons, and the session entries written while
    drawing ([st.form_submit_button] returns [False] in the run that draws
    it, stored as 0).  The handle [st.markdown] returns for the prompt
    stands for the text it shows. *)
Definition load_submission_details (cfg : config) (submission_id : Z) : M (option form) :=
  submission_details <~ fetch_submission_details cfg submission_id ;;
  let submitted_key := "submitted_" ++ pretty submission_id in
  let response_key := "response_" ++ pretty submission_id in
  match submission_details with
  | Some d =>
      if truthy (Final_Response d) then
        (* display_email_details *)
        email_body <~ lift (return_template d (Final_Response d)) ;;
        ret (Some (mkForm submission_id d PNone false [SendEmailCloseSubmission]))
      else
        prompt <~ (if truthy (Final_Prompt d)
                   then match Final_Prompt d with
                        | PStr s => ret (PStr (escape_dollar s))
                        | _ => raise AttributeError
                        end
                   else ret (Final_Prompt d)) ;;
        session_set response_key (Contact_Response d) ;;;
        shown <~ session_get response_key ;;
        let get_button := if negb (truthy shown) then [GetRagLlmResponse] else [] in
        let slider := truthy shown in
        submit_button <~ (if negb (truthy (Final_Response d))
                          then session_set submitted_key (PInt 0) ;;; ret [SubmitResponse]
                          else ret []) ;;
        ret (Some (mkForm submission_id d prompt slider (get_button ++ submit_button)))
  | None => ret None
  end.

(** The callback a form button was given, with the arguments captured
    when the form was drawn. *)
Definition on_click (cfg : config) (f : form) (b : button) : M unit :=
  match b with
  | SendEmailCloseSubmission =>
      clicked_close_submission cfg (form_submission_id f) (form_details f)
  | GetRagLlmResponse =>
      clicked_get_openai cfg corpus_config_path credentials_path (form_submission_id f)
                         (form_details f)
  | SubmitResponse =>
      clicked_submit_response cfg (form_submission_id f) (form_details f) (form_prompt f)
  end.

(** The widgets of the form hand their values to the session state when
    the form is submitted: the text area always, the slider when drawn. *)
Definition submit_widgets (f : form) (final_text : string) (slider : Z) : M unit :=
  session_set ("final_" ++ pretty (form_submission_id f)) (PStr final_text) ;;;
  if form_slider f
  then session_set ("slider_" ++ pretty (form_submission_id f)) (PInt slider)
  else ret tt.
End Externals.

(** *** One operator session *)

(** The page and the database behind it. *)
Record ui := mkUi {
  ui_world : world;
  ui_form : option form
}.

(** What the operator does: submit the contact form, click the button
    of the waiting list labelled with a [Contact_ID], or fill in the form
    on screen (the text area, and the slider, which offers 1 to 5) and
    click one of its buttons. *)
Inductive event :=
| SubmitContactForm (contact_type fname lname email dob comment date : pyval)
| OpenSubmission (contact_id : Z)
| ClickButton (b : button) (final_text : string) (slider : Z).

(** One rerun of the script.  A form is only on screen in the run that
    drew it; an exception ends the run and leaves what was committed.
    [None]: the event is not available on the page. *)
Definition run_event (E : externals) (cfg : config) (ev : event) (s : ui) : option ui :=
  match ev with
  | SubmitContactForm contact_type fname lname email dob comment date =>
      if truthy contact_type && truthy fname && truthy lname && truthy email
         && truthy comment
      then Some (mkUi (snd (insert_submission cfg contact_type fname lname email dob
                                              comment date (ui_world s))) None)
      else Some (mkUi (ui_world s) None)
  | OpenSubmission contact_id =>
      match fetch_waiting_submissions cfg (ui_world s) with
      | (Ok waiting, w) =>
          match find (fun r => Z.eqb (Contact_ID r) contact_id) waiting with
          | Some r =>
              match load_submission_details cfg (Contact_ID r) w with
              | (Ok f, w') => Some (mkUi w' f)
              | (Raise _, w') => Some (mkUi w' None)
              end
          | None => None
          end
      | (Raise _, w) => Some (mkUi w None)
      end
  | ClickButton b final_text slider =>
      match ui_form s with
      | Some f =>
          if decide (b ∈ form_buttons f) then
            if decide (1 <= slider <= 5) then
              Some (mkUi (snd ((submit_widgets f final_text slider ;;; on_click E cfg f b)
                                 (ui_world s))) None)
            else None
          else None
      | None => None
      end
  end.

(** A session: the events of an operator, one after the other. *)
Fixpoint run_events (E : externals) (cfg : config) (evs : list event) (s : ui)
  : option ui :=
  match evs with
  | [] => Some s
  | ev :: rest =>
      match run_event E cfg ev s with
      | Some s' => run_events E cfg rest s'
      | None => None
      end
  end.

Inductive step (s s' : ui) : Prop :=
| step_event (E : externals) (cfg : config) (ev : event) :
    run_event E cfg ev s = Some s' -> step s s'.

Inductive reachable (s0 : ui) : ui -> Prop :=
| reachable_start : reachable s0 s0
| reachable_step s s' : reachable s0 s -> step s s' -> reachable s0 s'.

(** *** The callback of the Gemini backend *)

Section RagCallback.
Variable E : externals.
Variable generate_content :
  string -> pyval -> Z -> Q -> list string -> list string
  -> option (list google_rag_query.candidate).

(** The text [clicked_get_rag] binds to the [Payload] column: passed as a
    statement parameter, it is stored as it stands. *)
Definition json_insert_text : string :=
  "JSON_INSERT(@`Payload`, '$.llm', 'gemini-1.5-pro-001')".

Definition clicked_get_rag (cfg : config) (corpus_config_path credentials_path : string)
           (submission_id : Z) : M unit :=
  pr <~ google_rag_query.get_rag_response E generate_content corpus_config_path
          credentials_path cfg submission_id ;;
  let '(rag_prompt, rag_response) := pr in
  update_submission cfg submission_id "Contact_Response" (PStr rag_response) ;;;
  update_submission cfg submission_id "Final_Prompt" (PStr rag_prompt) ;;;
  update_submission cfg submission_id "Status" (PStr "Processed") ;;;
  update_submission cfg submission_id "Payload" (PStr json_insert_text) ;;;
  st_success "RAG/LLM response fetched and submission updated.".
End RagCallback.
End contact_helpdesk.

(** ** create_google_rag.py *)

Module create_google_rag.

Definition DEFAULT_LOCATION : string := "us-central1".

(** What the script does to the outside, in the order it does it. *)
Inductive action :=
| SetCredentials (credentials_path : string)
| VertexInit (project_id location : string)
| UploadBlob (bucket_name blob_name local_path : string)
| CreateCorpus (display_name publisher_model : string)
| ImportFiles (corpus_name : string) (paths : list string)
              (chunk_size chunk_overlap max_embedding_requests_per_min : Z)
| WriteJson (path : string) (content : list (string * pyval)).

Inductive script_exn :=
| NameError (name : string)
| IndexError
| CloudError (service : string).

Inductive outcome (A : Type) :=
| Done (a : A)
| Failed (e : script_exn).
Arguments Done {A} a.
Arguments Failed {A} e.

(** The script's computations: an outcome, and the actions so far. *)
Definition script (A : Type) : Type := list action -> outcome A * list action.

Definition done {A} (a : A) : script A := fun tr => (Done a, tr).
Definition fail {A} (e : script_exn) : script A := fun tr => (Failed e, tr).
Definition perform (a : action) : script unit := fun tr => (Done tt, (tr ++ [a])%list).
Definition then_ {A B} (c : script A) (k : A -> script B) : script B :=
  fun tr => match c tr with
            | (Done a, tr') => k a tr'
            | (Failed e, tr') => (Failed e, tr')
            end.
Definition guard (service : string) (b : bool) : script unit :=
  if b then done tt else fail (CloudError service).
Definition expect {A} (e : script_exn) (o : option A) : script A :=
  match o with Some a => done a | None => fail e end.

(** The names bound at the top level of the script when [main] runs:
    its imports, its constant, its functions and the variables of the
    [__main__] block. *)
Definition module_globals : list string :=
  ["argparse"; "os"; "time"; "json"; "rag"; "vertexai"; "DEFAULT_LOCATION";
   "initialize_vertex_ai"; "create_corpus_and_import_files"; "upload_files_to_gcs";
   "create_corpus_config"; "main"; "parser"; "args"; "project_id"; "display_name";
   "gcs_source_uri"; "location"; "credentials_path"; "source_dir"].

(** Looking up a global name. *)
Definition global_name (name : string) : script unit :=
  if existsb (String.eqb name) module_globals then done tt else fail (NameError name).

(** [s.split(sep)] for a non-empty separator: cut at each occurrence of
    [sep], from the left.  [skip] counts the characters of a separator
    still to pass over, [cur] is the piece being read. *)
Fixpoint split_from (sep : string) (skip : nat) (cur : string) (s : string) : list string :=
  match s with
  | EmptyString => [cur]
  | String c rest =>
      match skip with
      | S k => split_from sep k cur rest
      | O =>
          if String.prefix sep s
          then cur :: split_from sep (String.length sep - 1)%nat EmptyString rest
          else split_from sep O (cur ++ String c EmptyString) rest
      end
  end.

Definition split (sep s : string) : list string := split_from sep 0 EmptyString s.

Fixpoint ends_with_slash (s : string) : bool :=
  match s with
  | EmptyString => false
  | String c EmptyString => Ascii.eqb c "/"%char
  | String _ rest => ends_with_slash rest
  end.

(** [os.path.join(a, b)] for a file name [b] of a directory listing. *)
Definition path_join (a b : string) : string :=
  if String.eqb a EmptyString then b
  else if ends_with_slash a then a ++ b
  else a ++ "/" ++ b.

Section Cloud.
(* vertexai.init(project, location) returns *)
Variable vertexai_init : string -> string -> bool.
(* os.listdir(source_dir); None: it raises *)
Variable listdir : string -> option (list string).
(* os.path.isfile(local_path) *)
Variable isfile : string -> bool.
(* blob.upload_from_filename(local_path) returns *)
Variable upload_from_filename : string -> string -> string -> bool.
(* rag.create_corpus(display_name, embedding_model_config).name *)
Variable create_corpus : string -> string -> option string.
(* rag.import_files(corpus_name, paths, ...) returns *)
Variable import_files : string -> list string -> Z -> Z -> Z -> bool.
(* open(path, "w") and json.dump return *)
Variable can_write : string -> bool.

Definition initialize_vertex_ai (project_id location credentials_path : string)
  : script unit :=
  then_ (if negb (String.eqb credentials_path EmptyString)
         then perform (SetCredentials credentials_path)
         else done tt) (fun _ =>
  then_ (guard "vertexai.init" (vertexai_init project_id location)) (fun _ =>
  perform (VertexInit project_id location))).

Definition create_corpus_and_import_files (project_id display_name : string)
           (paths : list string) (embedding_model : string) : script string :=
  let publisher_model := "publishers/google/models/" ++ embedding_model in
  then_ (expect (CloudError "rag.create_corpus")
                (create_corpus display_name publisher_model)) (fun rag_corpus =>
  then_ (perform (CreateCorpus display_name publisher_model)) (fun _ =>
  then_ (guard "rag.import_files" (import_files rag_corpus paths 512 100 900)) (fun _ =>
  then_ (perform (ImportFiles rag_corpus paths 512 100 900)) (fun _ =>
  done rag_corpus)))).

(** The loop over the directory listing. *)
Fixpoint upload_loop (bucket_name display_name source_dir : string)
         (filenames uploaded_files : list string) : script (list string) :=
  match filenames with
  | [] => done uploaded_files
  | filename :: rest =>
      let local_path := path_join source_dir filename in
      if isfile local_path then
        let blob := display_name ++ "/" ++ filename in
        then_ (guard "upload_from_filename"
                     (upload_from_filename bucket_name blob local_path)) (fun _ =>
        then_ (perform (UploadBlob bucket_name blob local_path)) (fun _ =>
        upload_loop bucket_name display_name source_dir rest
                    (uploaded_files ++ [filename])%list))
      else upload_loop bucket_name display_name source_dir rest uploaded_files
  end.

(** [service_account] and [storage] are looked up as globals. *)
Definition upload_files_to_gcs (bucket_name display_name source_dir credentials_path : string)
  : script (list string) :=
  then_ (global_name "service_account") (fun _ =>
  then_ (global_name "storage") (fun _ =>
  then_ (expect (CloudError "os.listdir") (listdir source_dir)) (fun filenames =>
  upload_loop bucket_name display_name source_dir filenames []))).

Definition corpus_config (corpus_name project_id location : string)
  : list (string * pyval) :=
  [("corpus_name", PStr corpus_name); ("project_id", PStr project_id);
   ("location", PStr location)].

Definition create_corpus_config (corpus_name project_id location : string) : script unit :=
  let config := corpus_config corpus_name project_id location in
  let path := project_id ++ "_corpus_config.json" in
  then_ (guard "open" (can_write path)) (fun _ =>
  perform (WriteJson path config)).

Definition main (project_id display_name gcs_source_uri location credentials_path
                 source_dir embedding_model : string) : script unit :=
  then_ (expect IndexError (nth_error (split "//" gcs_source_uri) 1)) (fun after =>
  then_ (expect IndexError (nth_error (split "/" after) 0)) (fun bucket_name =>
  let paths := [gcs_source_uri] in
  then_ (initialize_vertex_ai project_id location credentials_path) (fun _ =>
  then_ (upload_files_to_gcs bucket_name display_name source_dir credentials_path)
        (fun file_list =>
  then_ (create_corpus_and_import_files project_id display_name paths embedding_model)
        (fun rag_corpus =>
  create_corpus_config rag_corpus project_id location))))).
End Cloud.
End create_google_rag.


(** ** A concrete JSON codec and concrete collaborators

    The statements below hold for every [externals].  To run the
    callbacks on concrete worlds, this is a small reader and writer for
    the JSON the payload column holds (objects, arrays, strings, integers,
    [true], [false], [null]) in the layout of [json.dumps], and a set of
    collaborators built on it. *)

Module mini_json.

Definition dquote : ascii := "034"%char.
Definition backslash : ascii := "092"%char.

Fixpoint escape (s : string) : string :=
  match s with
  | EmptyString => EmptyString
  | String c rest =>
      if Ascii.eqb c dquote || Ascii.eqb c backslash
      then String backslash (String c (escape rest))
      else String c (escape rest)
  end.

Definition quote (s : string) : string :=
  String dquote (escape s ++ String dquote EmptyString).

Fixpoint dumps (j : json) : string :=
  match j with
  | JNull => "null"
  | JBool true => "true"
  | JBool false => "false"
  | JNum z => pretty z
  | JStr s => quote s
  | JArr l => "[" ++ String.concat ", " (map dumps l) ++ "]"
  | JObj d =>
      "{" ++ String.concat ", " (map (fun kv => quote (fst kv) ++ ": " ++ dumps (snd kv)) d)
      ++ "}"
  end.

Definition is_ws (c : ascii) : bool :=
  Ascii.eqb c " "%char || Ascii.eqb c "010"%char || Ascii.eqb c "013"%char
  || Ascii.eqb c "009"%char.

Fixpoint skip_ws (s : string) : string :=
  match s with
  | String c rest => if is_ws c then skip_ws rest else s
  | EmptyString => s
  end.

(** The characters of a string literal after its opening quote. *)
Fixpoint read_string (s : string) : option (string * string) :=
  match s with
  | EmptyString => None
  | String c rest =>
      if Ascii.eqb c dquote then Some (EmptyString, rest)
      else if Ascii.eqb c backslash then
        match rest with
        | String c2 rest2 =>
            if Ascii.eqb c2 dquote || Ascii.eqb c2 backslash || Ascii.eqb c2 "/"%char then
              match read_string rest2 with
              | Some (body, after) => Some (String c2 body, after)
              | None => None
              end
            else None
        | EmptyString => None
        end
      else
        match read_string rest with
        | Some (body, after) => Some (String c body, after)
        | None => None
        end
  end.

Definition digit_value (c : ascii) : option Z :=
  let n := Z.of_nat (nat_of_ascii c) in
  if (48 <=? n)%Z && (n <=? 57)%Z then Some (n - 48)%Z else None.

Fixpoint read_digits (acc : Z) (s : string) : Z * string :=
  match s with
  | String c rest =>
      match digit_value c with
      | Some d => read_digits (10 * acc + d) rest
      | None => (acc, s)
      end
  | EmptyString => (acc, s)
  end.

Definition read_number (s : string) : option (Z * string) :=
  match s with
  | String c rest =>
      if Ascii.eqb c "-"%char then
        match rest with
        | String c2 _ =>
            match digit_value c2 with
            | Some _ => let '(n, after) := read_digits 0 rest in Some ((- n)%Z, after)
            | None => None
            end
        | EmptyString => None
        end
      else
        match digit_value c with
        | Some _ => Some (read_digits 0 s)
        | None => None
        end
  | EmptyString => None
  end.

Definition strip_prefix (p s : string) : option string :=
  if String.prefix p s then Some (String.substring (String.length p)
                                    (String.length s - String.length p) s)
  else None.

Fixpoint read_value (fuel : nat) (s : string) : option (json * string) :=
  match fuel with
  | O => None
  | S fuel' =>
      match skip_ws s with
      | EmptyString => None
      | String c rest =>
          if Ascii.eqb c dquote then
            match read_string rest with
            | Some (body, after) => Some (JStr body, after)
            | None => None
            end
          else if Ascii.eqb c "{"%char then
            match skip_ws rest with
            | String c2 rest2 =>
                if Ascii.eqb c2 "}"%char then Some (JObj [], rest2)
                else read_members fuel' [] rest
            | EmptyString => None
            end
          else if Ascii.eqb c "["%char then
            match skip_ws rest with
            | String c2 rest2 =>
                if Ascii.eqb c2 "]"%char then Some (JArr [], rest2)
                else read_elements fuel' [] rest
            | EmptyString => None
            end
          else
            match strip_prefix "null" (String c rest) with
            | Some after => Some (JNull, after)
            | None =>
            match strip_prefix "true" (String c rest) with
            | Some after => Some (JBool true, after)
            | None =>
            match strip_prefix "false" (String c rest) with
            | Some after => Some (JBool false, after)
            | None =>
            match read_number (String c rest) with
            | Some (n, after) => Some (JNum n, after)
            | None => None
            end end end end
      end
  end
with read_members (fuel : nat) (acc : list (string * json)) (s : string)
  : option (json * string) :=
  match fuel with
  | O => None
  | S fuel' =>
      match skip_ws s with
      | String c rest =>
          if Ascii.eqb c dquote then
            match read_string rest with
            | Some (key, after) =>
                match skip_ws after with
                | String c2 rest2 =>
                    if Ascii.eqb c2 ":"%char then
                      match read_value fuel' rest2 with
                      | Some (v, after2) =>
                          match skip_ws after2 with
                          | String c3 rest3 =>
                              if Ascii.eqb c3 ","%char
                              then read_members fuel' (dict_set key v acc) rest3
                              else if Ascii.eqb c3 "}"%char
                                   then Some (JObj (dict_set key v acc), rest3)
                                   else None
                          | EmptyString => None
                          end
                      | None => None
                      end
                    else None
                | EmptyString => None
                end
            | None => None
            end
          else None
      | EmptyString => None
      end
  end
with read_elements (fuel : nat) (acc : list json) (s : string) : option (json * string) :=
  match fuel with
  | O => None
  | S fuel' =>
      match read_value fuel' s with
      | Some (v, after) =>
          match skip_ws after with
          | String c rest =>
              if Ascii.eqb c ","%char then read_elements fuel' (acc ++ [v]) rest
              else if Ascii.eqb c "]"%char then Some (JArr (acc ++ [v]), rest)
                   else None
          | EmptyString => None
          end
      | None => None
      end
  end.

Definition loads (s : string) : option json :=
  match read_value (S (String.length s)) s with
  | Some (j, after) =>
      match skip_ws after with
      | EmptyString => Some j
      | String _ _ => None
      end
  | None => None
  end.

(** [repr] of a value inside [str(dict)]; strings are shown in single
    quotes as they are (no character of the examples needs escaping). *)
Definition repr (v : pyval) : string :=
  match v with
  | PNone => "None"
  | PStr s => "'" ++ s ++ "'"
  | PInt z => pretty z
  end.

Definition str_dict (d : list (string * pyval)) : string :=
  "{" ++ String.concat ", " (map (fun kv => "'" ++ fst kv ++ "': " ++ repr (snd kv)) d)
  ++ "}".

End mini_json.

(** ** A concrete member database

    The statements below hold for whatever the database server does with
    the statement it is sent.  The examples run on this small server: it
    accepts the member statement when both interpolated values stay
    inside their quotes (no quote, no backslash), compares text exactly,
    and scans the table in its order; any other statement text fails. *)

Module mini_sql.

(** The text up to the closing quote, and what follows it. *)
Fixpoint read_literal (s : string) : option (string * string) :=
  match s with
  | EmptyString => None
  | String c rest =>
      if Ascii.eqb c "'"%char then Some (EmptyString, rest)
      else if Ascii.eqb c "092"%char then None
      else match read_literal rest with
           | Some (lit, after) => Some (String c lit, after)
           | None => None
           end
  end.

(** Email and name of a member statement. *)
Definition parse_member_statement (statement : string) : option (string * string) :=
  match mini_json.strip_prefix "SELECT * FROM Member_Data WHERE `Email_Address` = '"
                               statement with
  | Some rest =>
      match read_literal rest with
      | Some (email, rest) =>
          match mini_json.strip_prefix " OR `Member_Name` = '" rest with
          | Some rest =>
              match read_literal rest with
              | Some (name, EmptyString) => Some (email, name)
              | _ => None
              end
          | None => None
          end
      | None => None
      end
  | None => None
  end.

Definition text_eq (v : pyval) (s : string) : bool :=
  match v with
  | PStr t => String.eqb t s
  | _ => false
  end.

(** The first record whose email or name is the one asked for; the outer
    [None] is a table without these columns. *)
Fixpoint select_member (names : list string) (rows : list (list pyval))
         (email name : string) : option (option (list pyval)) :=
  match rows with
  | [] => Some None
  | record :: rest =>
      match google_rag_query.column_value "Email_Address" names record,
            google_rag_query.column_value "Member_Name" names record with
      | Some e, Some n =>
          if text_eq e email || text_eq n name then Some (Some record)
          else select_member names rest email name
      | _, _ => None
      end
  end.

Definition execute (statement : string) (tbl : table)
  : option (list string * option (list pyval)) :=
  match parse_member_statement statement with
  | Some (email, name) =>
      match select_member (field_names tbl) (records tbl) email name with
      | Some record => Some (field_names tbl, record)
      | None => None
      end
  | None => None
  end.

End mini_sql.

(** The collaborators used in the examples: the codec and the member
    database above, a corpus
    file that exists, a corpus service that answers with the first
    [similarity_top_k] of the given passages, a generation answer and a
    mail outcome chosen by the example. *)
Definition concrete_externals (contexts : option (list context))
           (generation : option (string * string)) (mail : send_outcome) : externals :=
  mkExternals
    mini_json.loads
    mini_json.dumps
    mini_json.str_dict
    (fun path => if String.eqb path "corpus_config.json"
                 then Some [("corpus_name", PStr "projects/demo/ragCorpora/1");
                            ("project_id", PStr "demo");
                            ("location", PStr "us-central1")]
                 else None)
    (fun _ _ _ => true)
    (fun _ _ k _ => option_map (take (Z.to_nat k)) contexts)
    (fun _ _ => generation)
    (fun _ => true)
    (fun _ => true)
    (fun _ _ => mail)
    mini_sql.execute.

Definition demo_config : config := mkConfig "SG.key".

(** Nothing stored, nothing sent. *)
Definition empty_world : world :=
  mkWorld ∅ (mkTable ["Email_Address"; "Member_Name"; "Brand_Member_ID"] []) ∅ [] [] [].

(** A submission as the contact form stores it. *)
Definition demo_new : row :=
  contact_helpdesk.new_submission 1 (PStr "Benefits") (PStr "Ada") (PStr "Lovelace")
    (PStr "ada@example.org") (PStr "1815-12-10") (PStr "What is my deductible?")
    (PStr "2024-07-17 10:00:00").

(** A world with the given table and one member on record. *)
Definition world_of (q : gmap Z row) : world :=
  mkWorld q (mkTable ["Email_Address"; "Member_Name"; "Brand_Member_ID"]
                     [[PStr "ada@example.org"; PStr "Ada Lovelace"; PStr "M-17"]])
          ∅ [] [] [].

Import contact_helpdesk.

(** * Vocabulary of the statements *)

(** A computation that leaves the whole world as it found it, whatever
    it returns or raises. *)
Definition readonly {A} (c : M A) : Prop := forall w, snd (c w) = w.

(** A computation that leaves the table as it found it. *)
Definition keeps_queue {A} (c : M A) : Prop :=
  forall w, contact_queue (snd (c w)) = contact_queue w.

(** A computation that keeps a property of the table, at every point
    where it may stop. *)
Definition preserves {A} (P : gmap Z row -> Prop) (c : M A) : Prop :=
  forall w, P (contact_queue w) -> P (contact_queue (snd (c w))).

(** A row with one column rewritten. *)
Definition with_Contact_Response (v : pyval) (r : row) : row :=
  mkRow (Contact_ID r) (Contact_Type r) (Contact_Fname r) (Contact_Lname r)
        (Contact_Email r) (Contact_DOB r) (Contact_Question r) v (Final_Prompt r)
        (Final_Response r) (Evaluation r) (Creation_Date r) (Processed_Date r) (Status r)
        (Payload r).
Definition with_Final_Prompt (v : pyval) (r : row) : row :=
  mkRow (Contact_ID r) (Contact_Type r) (Contact_Fname r) (Contact_Lname r)
        (Contact_Email r) (Contact_DOB r) (Contact_Question r) (Contact_Response r) v
        (Final_Response r) (Evaluation r) (Creation_Date r) (Processed_Date r) (Status r)
        (Payload r).
Definition with_Final_Response (v : pyval) (r : row) : row :=
  mkRow (Contact_ID r) (Contact_Type r) (Contact_Fname r) (Contact_Lname r)
        (Contact_Email r) (Contact_DOB r) (Contact_Question r) (Contact_Response r)
        (Final_Prompt r) v (Evaluation r) (Creation_Date r) (Processed_Date r) (Status r)
        (Payload r).
Definition with_Evaluation (v : pyval) (r : row) : row :=
  mkRow (Contact_ID r) (Contact_Type r) (Contact_Fname r) (Contact_Lname r)
        (Contact_Email r) (Contact_DOB r) (Contact_Question r) (Contact_Response r)
        (Final_Prompt r) (Final_Response r) v (Creation_Date r) (Processed_Date r) (Status r)
        (Payload r).
Definition with_Status (v : pyval) (r : row) : row :=
  mkRow (Contact_ID r) (Contact_Type r) (Contact_Fname r) (Contact_Lname r)
        (Contact_Email r) (Contact_DOB r) (Contact_Question r) (Contact_Response r)
        (Final_Prompt r) (Final_Response r) (Evaluation r) (Creation_Date r)
        (Processed_Date r) v (Payload r).
Definition with_Payload (v : pyval) (r : row) : row :=
  mkRow (Contact_ID r) (Contact_Type r) (Contact_Fname r) (Contact_Lname r)
        (Contact_Email r) (Contact_DOB r) (Contact_Question r) (Contact_Response r)
        (Final_Prompt r) (Final_Response r) (Evaluation r) (Creation_Date r)
        (Processed_Date r) (Status r) v.

(** The payload the merge starts from: the empty dict when the column is
    empty, the parsed object otherwise.  [None]: the merge cannot go
    through (unreadable text, or JSON that is not an object). *)
Definition stored_payload (E : externals) (r : row) : option (list (string * json)) :=
  if truthy (Payload r) then
    match py_json_loads E (Payload r) with
    | Ok (JObj d) => Some d
    | _ => None
    end
  else Some [].

(** The codec reads back the text it wrote for [j], and that text is not
    empty (an empty column is taken for a missing payload). *)
Definition codec_reads_back (E : externals) (j : json) : Prop :=
  json_dumps E j <> EmptyString /\ json_loads E (json_dumps E j) = Some j.

(** The row [clicked_get_openai] leaves behind when every step succeeds. *)
Definition answered (E : externals) (prompt response trace_id : string)
           (d : list (string * json)) (r : row) : row :=
  with_Payload
    (PStr (json_dumps E (JObj (dict_set "trace_id" (JStr trace_id)
                                        (dict_set "llm" (JStr "openai") d)))))
    (with_Status (PStr "Processed")
       (with_Final_Prompt (PStr prompt) (with_Contact_Response (PStr response) r))).

(** The buttons [load_submission_details] draws for a row. *)
Definition offered_buttons (r : row) : list button :=
  if truthy (Final_Response r) then [SendEmailCloseSubmission]
  else (if negb (truthy (Contact_Response r)) then [GetRagLlmResponse] else [])
       ++ (if negb (truthy (Final_Response r)) then [SubmitResponse] else []).

(** The invariant of C1 on one row, and on the table, where every row is
    also stored under its own [Contact_ID]. *)
Definition closed_ok (r : row) : Prop :=
  Status r = PStr "Closed" -> truthy (Final_Response r) = true.

Definition queue_inv (q : gmap Z row) : Prop :=
  forall id r, q !! id = Some r -> Contact_ID r = id /\ closed_ok r.

(** The form on screen shows a row as the table has it, taken from the
    waiting list, with the buttons drawn for it. *)
Definition form_inv (q : gmap Z row) (f : form) : Prop :=
  q !! form_submission_id f = Some (form_details f)
  /\ status_not_closed (Status (form_details f)) = true
  /\ form_buttons f = offered_buttons (form_details f).

Definition ui_inv (s : ui) : Prop :=
  queue_inv (contact_queue (ui_world s))
  /\ forall f, ui_form s = Some f -> form_inv (contact_queue (ui_world s)) f.

(** While a submission is open, and while it has a final response. *)
Definition open_at (id : Z) (q : gmap Z row) : Prop :=
  queue_inv q /\ forall r, q !! id = Some r -> Status r <> PStr "Closed".
Definition answered_at (id : Z) (q : gmap Z row) : Prop :=
  queue_inv q /\ forall r, q !! id = Some r -> truthy (Final_Response r) = true.

(** The corpus service does not answer. *)
Definition retrieval_down : externals :=
  concrete_externals None (Some ("Your deductible is $500", "trace-1")) Delivered.

(** Every collaborator answers. *)
Definition services_up : externals :=
  concrete_externals (Some [mkContext "Deductible: $500 per year." (9 # 10)])
                     (Some ("Your deductible is $500", "trace-1")) Delivered.

(** Intake, answer, review and closure of one submission. *)
Definition demo_session : list event :=
  [SubmitContactForm (PStr "Benefits") (PStr "Ada") (PStr "Lovelace")
     (PStr "ada@example.org") (PStr "1815-12-10") (PStr "What is my deductible?")
     (PStr "2024-07-17 10:00:00");
   OpenSubmission 1;
   ClickButton GetRagLlmResponse EmptyString 1;
   OpenSubmission 1;
   ClickButton SubmitResponse "Your deductible is $500." 4;
   OpenSubmission 1;
   ClickButton SendEmailCloseSubmission EmptyString 1].

(** The state that session ends in. *)
Definition demo_closed : ui :=
  match run_events services_up demo_config demo_session (mkUi empty_world None) with
  | Some s => s
  | None => mkUi empty_world None
  end.

(** A submission that has been answered and reviewed. *)
Definition demo_reviewed : row :=
  mkRow 1 (PStr "Benefits") (PStr "Ada") (PStr "Lovelace") (PStr "ada@example.org")
        (PStr "1815-12-10") (PStr "What is my deductible?")
        (PStr "Your deductible is $500") (PStr "prompt") (PStr "Your deductible is $500.")
        (PInt 4) (PStr "2024-07-17 10:00:00") PNone (PStr "Processed") PNone.

(** The mail helper raises. *)
Definition mail_down : externals :=
  concrete_externals (Some [mkContext "Deductible: $500 per year." (9 # 10)])
                     (Some ("Your deductible is $500", "trace-1")) SendRaised.

Definition with_Contact_Email (v : pyval) (r : row) : row :=
  mkRow (Contact_ID r) (Contact_Type r) (Contact_Fname r) (Contact_Lname r) v
        (Contact_DOB r) (Contact_Question r) (Contact_Response r) (Final_Prompt r)
        (Final_Response r) (Evaluation r) (Creation_Date r) (Processed_Date r) (Status r)
        (Payload r).

(** The status column of a submission, when the row exists. *)
Definition status_at (id : Z) (w : world) : option pyval :=
  option_map Status (contact_queue w !! id).

(** The mail helper was called and did not deliver. *)
Definition dispatch_failed (E : externals) (cfg : config) (details : row) : Prop :=
  exists body,
    return_template details (Final_Response details) = Ok body /\
    send_email_via_sendgrid E (sendgrid_key cfg) (mkEmail email_from email_to subject body)
    <> Delivered.

(** C3 as the specification words it: a failed dispatch leaves the
    status where it was. *)
Definition close_waits_for_dispatch (E : externals) (cfg : config) (id : Z) (details : row)
           (w : world) : Prop :=
  dispatch_failed E cfg details ->
  status_at id (snd (clicked_close_submission E cfg id details w)) = status_at id w.

(** What [clicked_close_submission] hands to the mail helper. *)
Definition closure_mail (details : row) : list email :=
  match return_template details (Final_Response details) with
  | Ok body => [mkEmail "user@example.com" "user@example.com" "Response to your inquiry" body]
  | Raise _ => []
  end.

(** C5 as the specification words it: the merge goes through on the
    empty dict, a warning is shown, nothing is raised. *)
Definition merge_recovers (E : externals) (cfg : config) (id : Z) (key : string)
           (value : json) (w : world) : Prop :=
  exists w',
    update_submission_payload E cfg id key value w = (Ok tt, w')
    /\ option_map Payload (contact_queue w' !! id)
       = Some (PStr (json_dumps E (JObj [(key, value)])))
    /\ exists msg, StWarning msg ∈ screen w'.

(** A submission whose payload column holds text that is not JSON. *)
Definition demo_unreadable : row := with_Payload (PStr "{not json") demo_new.

(** The payload [clicked_submit_response] works with: the parsed object,
    the empty dict when the column is empty or its text is not JSON.
    [None]: JSON that is not an object, or a column that is not text. *)
Definition review_payload (E : externals) (details : row) : option (list (string * json)) :=
  if truthy (Payload details) then
    match py_json_loads E (Payload details) with
    | Ok (JObj d) => Some d
    | Raise JSONDecodeError => Some []
    | _ => None
    end
  else Some [].

(** [payload['llm'] == 'openai'] on a dict. *)
Definition tagged_backend (d : list (string * json)) : bool :=
  match dict_get "llm" d with
  | Some v => json_is_str "openai" v
  | None => false
  end.

(** A submission answered by the tagged backend, and the session of the
    operator who reviews it. *)
Definition demo_answered : row :=
  mkRow 1 (PStr "Benefits") (PStr "Ada") (PStr "Lovelace") (PStr "ada@example.org")
        (PStr "1815-12-10") (PStr "What is my deductible?")
        (PStr "Your deductible is $500") (PStr "prompt") PNone PNone
        (PStr "2024-07-17 10:00:00") PNone (PStr "Processed")
        (PStr (mini_json.dumps (JObj [("llm", JStr "openai"); ("trace_id", JStr "trace-1")]))).

Definition demo_review_world : world :=
  with_session (<["final_1" := PStr "Your deductible is $500."]>
                  (<["slider_1" := PInt 4]> ∅))
               (world_of {[1 := demo_answered]}).

(** C2 as the specification words it: the five results of a fetch are
    in the record together, or the record is as it was. *)
Definition results_persisted (E : externals) (r : row) : Prop :=
  truthy (Contact_Response r) = true
  /\ truthy (Final_Prompt r) = true
  /\ (exists d, stored_payload E r = Some d
                /\ dict_mem "llm" d = true /\ dict_mem "trace_id" d = true)
  /\ Status r = PStr "Processed"
  /\ truthy (Processed_Date r) = true.

Definition fetch_answer_all_or_nothing (E : externals) (cfg : config) (cp cred : string)
           (id : Z) (details : row) (w : world) : Prop :=
  forall r r',
    contact_queue w !! id = Some r ->
    contact_queue (snd (clicked_get_openai E cfg cp cred id details w)) !! id = Some r' ->
    r' = r \/ results_persisted E r'.

(** C6 as the specification words it: the call is refused and the record
    is left as it was. *)
Definition fetch_answer_refused (E : externals) (cfg : config) (cp cred : string) (id : Z)
           (details : row) (w : world) : Prop :=
  (exists e, fst (clicked_get_openai E cfg cp cred id details w) = Raise e)
  /\ contact_queue (snd (clicked_get_openai E cfg cp cred id details w)) !! id
     = contact_queue w !! id.

(** A processed submission that already has an answer. *)
Definition demo_processed : row :=
  with_Status (PStr "Processed") (with_Contact_Response (PStr "An earlier answer") demo_new).

(** The member record of the submitter, and the prompt built for the
    question with one retrieved passage. *)
Definition demo_member : list (string * pyval) :=
  [("Email_Address", PStr "ada@example.org"); ("Member_Name", PStr "Ada Lovelace");
   ("Brand_Member_ID", PStr "M-17")].

Definition demo_prompt : string :=
  google_rag_query.full_prompt services_up google_rag_query.system_list
    "Deductible: $500 per year." demo_member (PStr "What is my deductible?").

(** The dict [fetch_submission_details] of the retrieval script builds
    from a row. *)
Definition submission_info (r : row) : list (string * pyval) :=
  [("Contact_ID", PInt (Contact_ID r)); ("Contact_Type", Contact_Type r);
   ("Contact_Fname", Contact_Fname r); ("Contact_Lname", Contact_Lname r);
   ("Contact_Email", Contact_Email r); ("Contact_DOB", Contact_DOB r);
   ("Contact_Question", Contact_Question r); ("Contact_Response", Contact_Response r);
   ("Final_Prompt", Final_Prompt r); ("Final_Response", Final_Response r);
   ("Evaluation", Evaluation r); ("Creation_Date", Creation_Date r);
   ("Processed_Date", Processed_Date r); ("Status", Status r); ("Payload", Payload r)].

(** Passages in descending order of score. *)
Definition ranked (l : list context) : Prop :=
  forall (i j : nat) ci cj,
    (i <= j)%nat -> l !! i = Some ci -> l !! j = Some cj -> (score cj <= score ci)%Q.

(** C7 as the specification words it: what the retrieval step returns
    has at most [similarity_top_k] passages, best first. *)
Definition retrieval_capped_and_ranked (E : externals) : Prop :=
  forall cc cred q w contexts w',
    google_rag_query.query_corpus E cc cred q w = (Ok contexts, w') ->
    (length contexts <= Z.to_nat google_rag_query.similarity_top_k)%nat /\ ranked contexts.

(** A corpus service that answers every query with five passages,
    weakest first; the other collaborators are those of [services_up]. *)
Definition five_passages : list context :=
  [mkContext "Copay: $20 per visit." (1 # 10);
   mkContext "Network: nationwide." (2 # 10);
   mkContext "Claims are paid within 30 days." (3 # 10);
   mkContext "ID cards are mailed on request." (4 # 10);
   mkContext "Deductible: $500 per year." (9 # 10)].

Definition unruly_corpus : externals :=
  mkExternals (json_loads services_up) (json_dumps services_up) (format_dict services_up)
              (read_json_file services_up) (vertexai_init services_up)
              (fun _ _ _ _ => Some five_passages)
              (send_baserun_openai_query services_up) (initialize_baserun services_up)
              (baserun_accepts services_up) (send_email_via_sendgrid services_up)
              (mysql_execute services_up).

(** Everything [get_rag_prompt] needs before it queries the corpus: the
    corpus file and its three keys, Vertex AI, the submission, and the
    member lookup with its result [info]. *)
Definition retrieval_ready (E : externals) (cp cred : string) (id : Z) (w : world)
           (r : row) (info : list (string * pyval)) (name : pyval) : Prop :=
  exists corpus_config project_id location,
    read_json_file E cp = Some corpus_config
    /\ py_item "project_id" corpus_config = Ok project_id
    /\ py_item "location" corpus_config = Ok location
    /\ py_item "corpus_name" corpus_config = Ok name
    /\ vertexai_init E project_id location cred = true
    /\ contact_queue w !! id = Some r
    /\ fst (google_rag_query.get_member_data E (submission_info r) w) = Ok info.

(** The steps of [get_rag_prompt] up to the f-string: what they hand to
    it (retrieved context, member context, question). *)
Definition prompt_inputs (E : externals) (corpus_config_path credentials_path : string)
           (cfg : config) (contact_id : Z) : M (string * list (string * pyval) * pyval) :=
  corpus_config <~ google_rag_query.load_json_config E corpus_config_path ;;
  project_id <~ lift (py_item "project_id" corpus_config) ;;
  location <~ lift (py_item "location" corpus_config) ;;
  google_rag_query.initialize_vertex_ai E project_id location credentials_path ;;;
  submission_info <~ google_rag_query.fetch_submission_details contact_id ;;
  myquestion <~ lift (py_item "Contact_Question" submission_info) ;;
  known_info <~ google_rag_query.get_member_data E submission_info ;;
  query_text <~ lift (py_item "Contact_Question" submission_info) ;;
  answer <~ google_rag_query.query_corpus E corpus_config credentials_path query_text ;;
  ret (google_rag_query.first_context_text answer, known_info, myquestion).

(** A corpus with nothing on the question. *)
Definition retrieval_empty : externals :=
  concrete_externals (Some []) (Some ("I do not know.", "trace-2")) Delivered.

(** A second operator's setting: another configuration, a corpus that
    returns two passages, a mail service that is down, and the same
    question asked under another contact id. *)
Definition other_services : externals :=
  concrete_externals (Some [mkContext "Deductible: $500 per year." (8 # 10);
                            mkContext "Copay: $20 per visit." (6 # 10)])
                     (Some ("It is $500.", "trace-9")) SendRaised.

Definition other_submission : row :=
  new_submission 7 (PStr "Claim") (PStr "A.") (PStr "Byron") (PStr "ada@example.org")
    (PStr "1815-12-10") (PStr "What is my deductible?") (PStr "2024-08-01 09:30:00").

(** * Vocabulary of the further properties *)

(** A submission dict with the keys [get_member_data] reads, and names
    that are strings. *)
Definition identifies (record_dict : list (string * pyval)) (email : pyval)
           (fname lname : string) : Prop :=
  py_item "Contact_Email" record_dict = Ok email
  /\ py_item "Contact_Fname" record_dict = Ok (PStr fname)
  /\ py_item "Contact_Lname" record_dict = Ok (PStr lname)
  /\ exists dob, py_item "Contact_DOB" record_dict = Ok dob.

(** The dict of a record, empty when [process_record] fails. *)
Definition record_dict_of (record : list pyval) (names : list string)
  : list (string * pyval) :=
  match google_rag_query.process_record (Some record) names with
  | Some d => d
  | None => []
  end.

(** The corpus file is read and Vertex AI is up. *)
Definition corpus_ready (E : externals) (cp cred : string) : Prop :=
  exists corpus_config project_id location,
    read_json_file E cp = Some corpus_config
    /\ py_item "project_id" corpus_config = Ok project_id
    /\ py_item "location" corpus_config = Ok location
    /\ vertexai_init E project_id location cred = true.

(** The Gemini model of the examples: it answers with the given
    candidates. *)
Definition demo_model (answer : option (list google_rag_query.candidate))
  : string -> pyval -> Z -> Q -> list string -> list string
    -> option (list google_rag_query.candidate) :=
  fun _ _ _ _ _ _ => answer.

Definition demo_candidates : list google_rag_query.candidate :=
  [google_rag_query.mkCandidate "model" ["Your deductible"; "is $500."];
   google_rag_query.mkCandidate "model" ["It is $750."]].

(** A column that is NULL, empty or text: what [json.loads] is not
    handed, or can be handed without a [TypeError]. *)
Definition text_or_empty (v : pyval) : Prop :=
  truthy v = false \/ exists s, v = PStr s.

(** The row after the three column writes of [clicked_get_openai]. *)
Definition processed (prompt response : string) (r : row) : row :=
  with_Status (PStr "Processed")
    (with_Final_Prompt (PStr prompt) (with_Contact_Response (PStr response) r)).

(** A reviewed submission whose first name was never stored. *)
Definition demo_nameless : row :=
  mkRow 1 (PStr "Benefits") PNone (PStr "Lovelace") (PStr "ada@example.org")
        (PStr "1815-12-10") (PStr "What is my deductible?")
        (PStr "Your deductible is $500") (PStr "prompt") (PStr "Your deductible is $500.")
        (PInt 4) (PStr "2024-07-17 10:00:00") PNone (PStr "Processed") PNone.

(** Every row is stored under its own [Contact_ID]. *)
Definition keyed_by_id (q : gmap Z row) : Prop :=
  forall id r, q !! id = Some r -> Contact_ID r = id.

(** The session state after [load_submission_details] has drawn the
    review form of row [r]. *)
Definition review_session (id : Z) (r : row) (w : world) : world :=
  with_session (<["submitted_" ++ pretty id := PInt 0]>
                  (<["response_" ++ pretty id := Contact_Response r]> (session_state w))) w.

(** One write of a callback of the page: one of the six columns they
    name, rewritten. *)
Inductive rewritten (r : row) : row -> Prop :=
| rewritten_Contact_Response v : rewritten r (with_Contact_Response v r)
| rewritten_Final_Prompt v : rewritten r (with_Final_Prompt v r)
| rewritten_Final_Response v : rewritten r (with_Final_Response v r)
| rewritten_Evaluation v : rewritten r (with_Evaluation v r)
| rewritten_Status v : rewritten r (with_Status v r)
| rewritten_Payload v : rewritten r (with_Payload v r).

(** A property of the table that such writes to row [id] keep. *)
Definition stable_under_rewrites (id : Z) (P : gmap Z row -> Prop) : Prop :=
  forall q r r', P q -> q !! id = Some r -> rewritten r r' -> P (<[id := r']> q).

(** The same submission, possibly further along: who asked, what was
    asked and when, and the processing date. *)
Definition same_submission (r r' : row) : Prop :=
  Contact_ID r' = Contact_ID r
  /\ Contact_Type r' = Contact_Type r
  /\ Contact_Fname r' = Contact_Fname r
  /\ Contact_Lname r' = Contact_Lname r
  /\ Contact_Email r' = Contact_Email r
  /\ Contact_DOB r' = Contact_DOB r
  /\ Contact_Question r' = Contact_Question r
  /\ Creation_Date r' = Creation_Date r
  /\ Processed_Date r' = Processed_Date r.

(** A computation that leaves one component of the world as it found it. *)
Definition keeps {A B} (proj : world -> B) (c : M A) : Prop :=
  forall w, proj (snd (c w)) = proj w.

(** A component that writes to the table, the session state and the
    screen do not reach. *)
Definition framed {B} (proj : world -> B) : Prop :=
  (forall q w, proj (with_queue q w) = proj w)
  /\ (forall ss w, proj (with_session ss w) = proj w)
  /\ (forall msgs w, proj (mkWorld (contact_queue w) (Member_Data w) (session_state w)
                                   (outbox w) (telemetry w) msgs) = proj w).

(** The page after intake of the submission of the examples, with its
    form open. *)
Definition demo_opened : ui :=
  match run_events services_up demo_config (firstn 2 demo_session) (mkUi empty_world None) with
  | Some s => s
  | None => mkUi empty_world None
  end.

(** The actions of the corpus script that prepare the session with
    Vertex AI and touch neither bucket, corpus nor file. *)
Definition setup_action (a : create_google_rag.action) : bool :=
  match a with
  | create_google_rag.SetCredentials _ | create_google_rag.VertexInit _ _ => true
  | _ => false
  end.

(** * Facts about dicts *)

Section DictFacts.
Context {V : Type}.

Lemma dict_get_set_eq k (v : V) (d : list (string * V)) : dict_get k (dict_set k v d) = Some v.
Proof.
  induction d as [|[k' v'] d IH]; simpl.
  - now rewrite String.eqb_refl.
  - destruct (String.eqb k k') eqn:E; simpl; rewrite E; auto.
Qed.

Lemma dict_get_set_ne k k' (v : V) (d : list (string * V)) :
  k <> k' -> dict_get k' (dict_set k v d) = dict_get k' d.
Proof.
  intros Hne. induction d as [|[k0 v0] d IH]; simpl.
  - destruct (String.eqb k' k) eqn:E; auto.
    apply String.eqb_eq in E. congruence.
  - destruct (String.eqb k k0) eqn:E; simpl.
    + apply String.eqb_eq in E. subst k0.
      destruct (String.eqb k' k) eqn:E'; auto.
      apply String.eqb_eq in E'. congruence.
    + now rewrite IH.
Qed.

Lemma dict_mem_set_mono k k' (v : V) (d : list (string * V)) :
  dict_mem k' d = true -> dict_mem k' (dict_set k v d) = true.
Proof.
  unfold dict_mem. intros H.
  destruct (String.eqb k k') eqn:E.
  - apply String.eqb_eq in E. subst. now rewrite dict_get_set_eq.
  - apply String.eqb_neq in E. now rewrite dict_get_set_ne.
Qed.

End DictFacts.

(** * Reasoning about callbacks *)

Lemma readonly_ret {A} (a : A) : readonly (ret a).
Proof. now intros w. Qed.

Lemma readonly_raise {A} e : readonly (@raise A e).
Proof. now intros w. Qed.

Lemma readonly_lift {A} (r : result A) : readonly (lift r).
Proof. now intros w. Qed.

Lemma readonly_of_option {A} e (o : option A) : readonly (of_option e o).
Proof. destruct o; [apply readonly_ret | apply readonly_raise]. Qed.

Lemma readonly_bind {A B} (c : M A) (k : A -> M B) :
  readonly c -> (forall a, readonly (k a)) -> readonly (bind c k).
Proof.
  intros Hc Hk w. unfold bind. specialize (Hc w).
  destruct (c w) as [[a|e] w1]; simpl in *; subst; auto. apply Hk.
Qed.

Lemma readonly_get : readonly get_world.
Proof. now intros w. Qed.

Lemma readonly_get_world {B} (k : world -> M B) :
  (forall w, readonly (k w)) -> readonly (bind get_world k).
Proof. intros Hk w. unfold bind, get_world. apply Hk. Qed.

Lemma readonly_keeps_queue {A} (c : M A) : readonly c -> keeps_queue c.
Proof. intros H w. now rewrite H. Qed.

Lemma keeps_queue_preserves {A} P (c : M A) : keeps_queue c -> preserves P c.
Proof. intros H w HP. now rewrite H. Qed.

Lemma keeps_queue_bind {A B} (c : M A) (k : A -> M B) :
  keeps_queue c -> (forall a, keeps_queue (k a)) -> keeps_queue (bind c k).
Proof.
  intros Hc Hk w. unfold bind. specialize (Hc w).
  destruct (c w) as [[a|e] w1]; simpl in *; auto. now rewrite Hk.
Qed.

Lemma preserves_bind {A B} P (c : M A) (k : A -> M B) :
  preserves P c -> (forall a, preserves P (k a)) -> preserves P (bind c k).
Proof.
  intros Hc Hk w HP. unfold bind. specialize (Hc w HP).
  destruct (c w) as [[a|e] w1]; simpl in *; auto. now apply Hk.
Qed.

Lemma preserves_get_world {B} P (k : world -> M B) :
  (forall w, preserves P (k w)) -> preserves P (bind get_world k).
Proof. intros Hk w. unfold bind, get_world. apply Hk. Qed.

Lemma keeps_queue_st_success msg : keeps_queue (st_success msg).
Proof. now intros w. Qed.

Lemma keeps_queue_st_warning msg : keeps_queue (st_warning msg).
Proof. now intros w. Qed.

Lemma keeps_queue_emit_telemetry ev : keeps_queue (emit_telemetry ev).
Proof. now intros w. Qed.

Lemma keeps_queue_record_mail m : keeps_queue (record_mail m).
Proof. now intros w. Qed.

Lemma keeps_queue_session_set k v : keeps_queue (contact_helpdesk.session_set k v).
Proof. now intros w. Qed.

Lemma keeps_queue_session_get k : keeps_queue (contact_helpdesk.session_get k).
Proof.
  apply readonly_keeps_queue. unfold contact_helpdesk.session_get.
  apply readonly_get_world. intros w. apply readonly_of_option.
Qed.

Create HintDb callbacks.
#[export] Hint Resolve readonly_get readonly_ret readonly_raise readonly_lift readonly_of_option
  keeps_queue_st_success keeps_queue_st_warning keeps_queue_emit_telemetry
  keeps_queue_record_mail keeps_queue_session_set keeps_queue_session_get
  readonly_keeps_queue keeps_queue_preserves : callbacks.

(** ** The retrieval script only reads *)

Section ReadOnly.
Variable E : externals.

Lemma readonly_rag_fetch contact_id :
  readonly (google_rag_query.fetch_submission_details contact_id).
Proof.
  unfold google_rag_query.fetch_submission_details.
  apply readonly_get_world. intros w.
  destruct (google_rag_query.process_record _ _); auto with callbacks.
Qed.

Lemma readonly_get_member_data record_dict :
  readonly (google_rag_query.get_member_data E record_dict).
Proof.
  unfold google_rag_query.get_member_data.
  repeat (apply readonly_bind; [solve [auto with callbacks] | intros ?]).
  destruct (mysql_execute E _ _) as [[names record]|]; auto with callbacks.
  destruct (google_rag_query.process_record _ _); auto with callbacks.
Qed.

Lemma readonly_query_corpus corpus_config credentials query_text :
  readonly (google_rag_query.query_corpus E corpus_config credentials query_text).
Proof.
  unfold google_rag_query.query_corpus.
  apply readonly_bind; [auto with callbacks | intros ?]. auto with callbacks.
Qed.

Lemma readonly_get_rag_prompt corpus_path credentials cfg contact_id :
  readonly (google_rag_query.get_rag_prompt E corpus_path credentials cfg contact_id).
Proof.
  unfold google_rag_query.get_rag_prompt, google_rag_query.load_json_config,
    google_rag_query.initialize_vertex_ai.
  apply readonly_bind; [auto with callbacks | intros ?].
  apply readonly_bind; [auto with callbacks | intros ?].
  apply readonly_bind; [auto with callbacks | intros ?].
  apply readonly_bind; [destruct (vertexai_init _ _ _ _); auto with callbacks | intros ?].
  apply readonly_bind; [apply readonly_rag_fetch | intros ?].
  apply readonly_bind; [auto with callbacks | intros ?].
  apply readonly_bind; [apply readonly_get_member_data | intros ?].
  apply readonly_bind; [auto with callbacks | intros ?].
  apply readonly_bind; [apply readonly_query_corpus | intros ?].
  auto with callbacks.
Qed.

Lemma readonly_openai_query cfg prompt :
  readonly (contact_helpdesk.openai_query E cfg prompt).
Proof. unfold contact_helpdesk.openai_query. auto with callbacks. Qed.

End ReadOnly.

(** ** Running the database writes *)

Lemma set_column_Contact_Response v r :
  set_column "Contact_Response" v r = Some (with_Contact_Response v r).
Proof. now destruct r. Qed.
Lemma set_column_Final_Prompt v r :
  set_column "Final_Prompt" v r = Some (with_Final_Prompt v r).
Proof. now destruct r. Qed.
Lemma set_column_Final_Response v r :
  set_column "Final_Response" v r = Some (with_Final_Response v r).
Proof. now destruct r. Qed.
Lemma set_column_Evaluation v r :
  set_column "Evaluation" v r = Some (with_Evaluation v r).
Proof. now destruct r. Qed.
Lemma set_column_Status v r : set_column "Status" v r = Some (with_Status v r).
Proof. now destruct r. Qed.
Lemma set_column_Payload v r : set_column "Payload" v r = Some (with_Payload v r).
Proof. now destruct r. Qed.

Lemma bind_ok {A B} (c : M A) (k : A -> M B) w a w' :
  c w = (Ok a, w') -> bind c k w = k a w'.
Proof. unfold bind. now intros ->. Qed.

Lemma bind_raise {A B} (c : M A) (k : A -> M B) w e w' :
  c w = (Raise e, w') -> bind c k w = (Raise e, w').
Proof. unfold bind. now intros ->. Qed.

Lemma is_column_of_set f v r r' :
  set_column f v r = Some r' -> contact_helpdesk.is_column f = true.
Proof.
  unfold contact_helpdesk.is_column, contact_helpdesk.blank_row.
  destruct r. unfold set_column.
  repeat match goal with
         | |- context [String.eqb f ?c] => destruct (String.eqb f c)
         end; auto; discriminate.
Qed.

Lemma update_submission_run cfg id f v w r r' :
  contact_queue w !! id = Some r ->
  set_column f v r = Some r' ->
  contact_helpdesk.update_submission cfg id f v w
  = (Ok tt, with_queue (<[id := r']> (contact_queue w)) w).
Proof.
  intros Hr Hs. unfold contact_helpdesk.update_submission.
  rewrite (is_column_of_set _ _ _ _ Hs).
  unfold bind, get_world. now rewrite Hr, Hs.
Qed.

(** A write through [update_submission] keeps a property of the table as
    soon as rewriting the one row keeps it. *)
Lemma update_submission_preserves (P : gmap Z row -> Prop) cfg id f v :
  (forall q r r', P q -> q !! id = Some r -> set_column f v r = Some r' ->
                  P (<[id := r']> q)) ->
  preserves P (contact_helpdesk.update_submission cfg id f v).
Proof.
  intros H w HP. unfold contact_helpdesk.update_submission.
  destruct (contact_helpdesk.is_column f); [|exact HP].
  unfold bind, get_world.
  destruct (contact_queue w !! id) as [r|] eqn:Hr; [|exact HP].
  destruct (set_column f v r) as [r'|] eqn:Hs; [|exact HP].
  simpl. eauto.
Qed.

Lemma update_submission_payload_run E cfg id key value w r d :
  contact_queue w !! id = Some r ->
  stored_payload E r = Some d ->
  contact_helpdesk.update_submission_payload E cfg id key value w
  = (Ok tt, with_queue (<[id := with_Payload
                                  (PStr (json_dumps E (JObj (dict_set key value d)))) r]>
                          (contact_queue w)) w).
Proof.
  intros Hr Hd. unfold contact_helpdesk.update_submission_payload, stored_payload in *.
  unfold bind at 1. unfold get_world. rewrite Hr.
  destruct (truthy (Payload r)).
  - destruct (py_json_loads E (Payload r)) as [[| | | | |d']|] eqn:Hl; try discriminate.
    injection Hd as ->. unfold bind, lift. simpl. now rewrite set_column_Payload.
  - injection Hd as <-. unfold bind, ret, lift. simpl. now rewrite set_column_Payload.
Qed.

Lemma update_submission_payload_preserves (P : gmap Z row -> Prop) E cfg id key value :
  (forall q r v, P q -> q !! id = Some r -> P (<[id := with_Payload v r]> q)) ->
  preserves P (contact_helpdesk.update_submission_payload E cfg id key value).
Proof.
  intros H w HP. unfold contact_helpdesk.update_submission_payload.
  unfold bind at 1. unfold get_world.
  destruct (contact_queue w !! id) as [r|] eqn:Hr; [|exact HP].
  unfold bind, lift, ret.
  destruct (truthy (Payload r)).
  - destruct (py_json_loads E (Payload r)) as [j|]; [|exact HP].
    destruct (py_setitem key value j); [|exact HP].
    rewrite set_column_Payload. simpl. eauto.
  - simpl. rewrite set_column_Payload. simpl. eauto.
Qed.

Lemma truthy_PStr s : s <> EmptyString -> truthy (PStr s) = true.
Proof.
  intros H. simpl. destruct (String.eqb s EmptyString) eqn:Heq; [|reflexivity].
  apply String.eqb_eq in Heq. contradiction.
Qed.

Lemma stored_payload_written E d v r :
  codec_reads_back E (JObj d) ->
  v = PStr (json_dumps E (JObj d)) ->
  stored_payload E (with_Payload v r) = Some d.
Proof.
  intros [Hne Hrb] ->. unfold stored_payload. simpl Payload.
  rewrite (truthy_PStr _ Hne). simpl. now rewrite Hrb.
Qed.

Lemma with_queue_twice q q' w : with_queue q' (with_queue q w) = with_queue q' w.
Proof. reflexivity. Qed.

Lemma contact_queue_with_queue q w : contact_queue (with_queue q w) = q.
Proof. reflexivity. Qed.

Lemma readonly_run {A} (c : M A) w a :
  readonly c -> fst (c w) = a -> c w = (a, w).
Proof. intros H <-. rewrite <- (H w) at 3. now destruct (c w). Qed.

Lemma clicked_get_openai_run E cfg cp cred id details w r d prompt response trace_id :
  fst (google_rag_query.get_rag_prompt E cp cred cfg (Contact_ID details) w) = Ok prompt ->
  send_baserun_openai_query E cfg prompt = Some (response, trace_id) ->
  contact_queue w !! id = Some r ->
  stored_payload E r = Some d ->
  codec_reads_back E (JObj (dict_set "llm" (JStr "openai") d)) ->
  contact_helpdesk.clicked_get_openai E cfg cp cred id details w
  = st_success "OpenAI response fetched and submission updated."
      (with_queue (<[id := answered E prompt response trace_id d r]> (contact_queue w)) w).
Proof.
  intros Hp Hg Hr Hd Hc. unfold contact_helpdesk.clicked_get_openai.
  rewrite (bind_ok _ _ _ _ _ (readonly_run _ _ _ (readonly_get_rag_prompt E _ _ _ _) Hp)).
  assert (Hq : contact_helpdesk.openai_query E cfg prompt w = (Ok (response, trace_id), w)).
  { unfold contact_helpdesk.openai_query. now rewrite Hg. }
  rewrite (bind_ok _ _ _ _ _ Hq).
  erewrite bind_ok;
    [| eapply update_submission_run; [exact Hr | apply set_column_Contact_Response]].
  erewrite bind_ok;
    [| eapply update_submission_run;
       [rewrite contact_queue_with_queue; apply lookup_insert_eq
       | apply set_column_Final_Prompt]].
  rewrite with_queue_twice, contact_queue_with_queue, insert_insert_eq.
  erewrite bind_ok;
    [| eapply update_submission_run;
       [rewrite contact_queue_with_queue; apply lookup_insert_eq
       | apply set_column_Status]].
  rewrite with_queue_twice, contact_queue_with_queue, insert_insert_eq.
  erewrite bind_ok;
    [| eapply update_submission_payload_run;
       [rewrite contact_queue_with_queue; apply lookup_insert_eq | exact Hd]].
  rewrite with_queue_twice, contact_queue_with_queue, insert_insert_eq.
  erewrite bind_ok;
    [| eapply update_submission_payload_run;
       [rewrite contact_queue_with_queue; apply lookup_insert_eq
       | eapply stored_payload_written; [exact Hc | reflexivity]]].
  rewrite with_queue_twice, contact_queue_with_queue, insert_insert_eq.
  reflexivity.
Qed.

Lemma raises_bind {A B} (c : M A) (k : A -> M B) w :
  (forall a w', c w = (Ok a, w') -> exists e, fst (k a w') = Raise e) ->
  exists e, fst (bind c k w) = Raise e.
Proof.
  intros H. unfold bind. destruct (c w) as [[a|e] w'] eqn:Hc; eauto.
Qed.

(** When the corpus service does not answer, the prompt is not built. *)
Lemma get_rag_prompt_needs_retrieval E cp cred cfg contact_id w :
  (forall corpus q k t, rag_retrieval_query E corpus q k t = None) ->
  exists e, fst (google_rag_query.get_rag_prompt E cp cred cfg contact_id w) = Raise e.
Proof.
  intros Hdown. unfold google_rag_query.get_rag_prompt.
  do 8 (apply raises_bind; intros ? ? _).
  apply raises_bind. intros ans wq Hq. exfalso.
  unfold google_rag_query.query_corpus, bind, lift in Hq.
  destruct (py_item "corpus_name" _) as [name|e]; [|discriminate].
  rewrite Hdown in Hq. discriminate.
Qed.

(** * The claims *)

(** ** C1: a closed submission has a final response *)

Lemma fetch_submission_details_run cfg id w :
  fetch_submission_details cfg id w = (Ok (contact_queue w !! id), w).
Proof. reflexivity. Qed.

Lemma load_submission_details_form cfg id w f w' :
  load_submission_details cfg id w = (Ok (Some f), w') ->
  contact_queue w !! id = Some (form_details f) /\
  form_submission_id f = id /\
  form_buttons f = offered_buttons (form_details f).
Proof.
  unfold load_submission_details, offered_buttons.
  rewrite (bind_ok _ _ _ _ _ (fetch_submission_details_run cfg id w)).
  destruct (contact_queue w !! id) as [r|] eqn:Hr; [|discriminate].
  destruct (truthy (Final_Response r)) eqn:Hfr.
  - unfold bind, lift, ret. destruct (return_template r (Final_Response r)); [|discriminate].
    intros [= <- <-]. simpl. now rewrite Hfr.
  - unfold bind, lift, ret, session_set, session_get, get_world, of_option, raise.
    destruct (truthy (Final_Prompt r)).
    + destruct (Final_Prompt r); try discriminate.
      simpl. unfold bind. simpl. rewrite lookup_insert_eq. unfold ret.
      intros [= <- <-]. simpl. now rewrite Hfr.
    + simpl. unfold bind. simpl. rewrite lookup_insert_eq. unfold ret.
      intros [= <- <-]. simpl. now rewrite Hfr.
Qed.

Lemma keeps_queue_lift {A} (r : result A) : keeps_queue (lift r).
Proof. auto with callbacks. Qed.

Lemma keeps_queue_load_submission_details cfg id :
  keeps_queue (load_submission_details cfg id).
Proof.
  unfold load_submission_details.
  apply keeps_queue_bind; [now intros w|]. intros [d|]; [|auto with callbacks].
  destruct (truthy (Final_Response d)).
  - apply keeps_queue_bind; [auto with callbacks|]. intros ?. auto with callbacks.
  - apply keeps_queue_bind.
    { destruct (truthy (Final_Prompt d)); [destruct (Final_Prompt d)|]; auto with callbacks. }
    intros ?. apply keeps_queue_bind; [auto with callbacks|]. intros ?.
    apply keeps_queue_bind; [auto with callbacks|]. intros ?.
    apply keeps_queue_bind; [|intros ?; auto with callbacks].
    simpl. apply keeps_queue_bind; [auto with callbacks|]. intros ?. auto with callbacks.
Qed.

Lemma keeps_queue_submit_widgets f final_text slider :
  keeps_queue (submit_widgets f final_text slider).
Proof.
  unfold submit_widgets. apply keeps_queue_bind; [auto with callbacks|]. intros ?.
  destruct (form_slider f); auto with callbacks.
Qed.

Lemma keeps_queue_send_email E key from to subj body :
  keeps_queue (send_email E key from to subj body).
Proof.
  unfold send_email. apply keeps_queue_bind; [auto with callbacks|]. intros ?.
  destruct (send_email_via_sendgrid _ _ _); auto with callbacks.
Qed.

Lemma keeps_queue_send_telemetry E ev : keeps_queue (send_telemetry E ev).
Proof.
  unfold send_telemetry. apply keeps_queue_bind; [auto with callbacks|]. intros ?.
  destruct (baserun_accepts _ _); auto with callbacks.
Qed.

Lemma keeps_queue_decode_payload E d : keeps_queue (decode_payload E d).
Proof.
  intros w. unfold decode_payload, try_json.
  destruct (truthy (Payload d)); [|reflexivity].
  unfold lift. destruct (py_json_loads E (Payload d)) as [j|[]]; reflexivity.
Qed.

Lemma queue_inv_insert q id r r' :
  queue_inv q -> q !! id = Some r -> Contact_ID r' = Contact_ID r -> closed_ok r' ->
  queue_inv (<[id := r']> q).
Proof.
  intros Hq Hr Hid Hc k x. rewrite lookup_insert. case_decide as Hk.
  - subst k. intros [= <-]. split; [|exact Hc]. rewrite Hid. now apply Hq.
  - apply Hq.
Qed.

Lemma open_at_insert q id r r' :
  open_at id q -> q !! id = Some r -> Contact_ID r' = Contact_ID r ->
  Status r' <> PStr "Closed" ->
  open_at id (<[id := r']> q).
Proof.
  intros [Hq Ho] Hr Hid Hs. split.
  - eapply queue_inv_insert; eauto. intros Hc. contradiction.
  - intros x. rewrite lookup_insert_eq. now intros [= <-].
Qed.

Lemma open_at_update cfg id f v :
  (f = "Status" -> v <> PStr "Closed") ->
  preserves (open_at id) (update_submission cfg id f v).
Proof.
  intros Hv. apply update_submission_preserves. intros q r r' HP Hr Hs.
  assert (Hopen : Status r <> PStr "Closed") by (destruct HP as [_ Ho]; now apply Ho).
  eapply open_at_insert; eauto.
  - destruct r. unfold set_column in Hs.
    repeat match type of Hs with
           | context [String.eqb f ?c] => destruct (String.eqb f c)
           end; inversion Hs; subst; reflexivity.
  - destruct r. unfold set_column in Hs. simpl in Hopen.
    repeat match type of Hs with
           | context [String.eqb f ?c] => destruct (String.eqb f c) eqn:?
           end; inversion Hs; subst; simpl; auto.
    apply Hv. now apply String.eqb_eq.
Qed.

Lemma open_at_update_payload E cfg id key value :
  preserves (open_at id) (update_submission_payload E cfg id key value).
Proof.
  apply update_submission_payload_preserves. intros q r v HP Hr.
  eapply open_at_insert; [exact HP | exact Hr | reflexivity |].
  simpl. destruct HP as [_ Ho]. now apply Ho.
Qed.

Lemma open_at_clicked_get_openai E cfg cp cred id details :
  preserves (open_at id) (clicked_get_openai E cfg cp cred id details).
Proof.
  unfold clicked_get_openai.
  apply preserves_bind.
  { apply keeps_queue_preserves, readonly_keeps_queue, readonly_get_rag_prompt. }
  intros prompt. apply preserves_bind.
  { apply keeps_queue_preserves, readonly_keeps_queue, readonly_openai_query. }
  intros [response trace_id].
  repeat (apply preserves_bind;
          [first [ apply open_at_update; intros; discriminate
                 | apply open_at_update_payload ] | intros ?]).
  auto with callbacks.
Qed.

Lemma open_at_clicked_submit_response E cfg id details prompt :
  preserves (open_at id) (clicked_submit_response E cfg id details prompt).
Proof.
  unfold clicked_submit_response.
  apply preserves_bind; [apply keeps_queue_preserves, keeps_queue_decode_payload|].
  intros payload.
  apply preserves_bind; [auto with callbacks|]. intros response.
  apply preserves_bind; [apply open_at_update; intros; discriminate|]. intros _.
  apply preserves_bind; [auto with callbacks|]. intros evaluation.
  apply preserves_bind; [apply open_at_update; intros; discriminate|]. intros _.
  apply preserves_bind.
  { destruct (initialize_baserun E cfg); auto with callbacks. }
  intros _.
  apply preserves_bind; [auto with callbacks|]. intros has_llm.
  apply preserves_bind.
  { destruct has_llm; [|auto with callbacks].
    apply preserves_bind; [auto with callbacks|]. intros ?. auto with callbacks. }
  intros is_openai.
  apply preserves_bind.
  { apply keeps_queue_preserves. destruct is_openai; apply keeps_queue_send_telemetry. }
  intros _. auto with callbacks.
Qed.

Lemma answered_at_clicked_close_submission E cfg id details :
  preserves (answered_at id) (clicked_close_submission E cfg id details).
Proof.
  unfold clicked_close_submission.
  apply preserves_bind.
  { apply update_submission_preserves. intros q r r' [Hq Ha] Hr Hs.
    rewrite set_column_Status in Hs. injection Hs as <-.
    split.
    - eapply queue_inv_insert; eauto. intros _. simpl. now apply Ha.
    - intros x. rewrite lookup_insert_eq. intros [= <-]. simpl. now apply Ha. }
  intros _.
  apply preserves_bind; [auto with callbacks|]. intros body.
  apply preserves_bind; [apply keeps_queue_preserves, keeps_queue_send_email|].
  intros _. auto with callbacks.
Qed.

Lemma queue_inv_insert_new q id ct fn ln em dob c d :
  queue_inv q ->
  queue_inv (<[id := new_submission id ct fn ln em dob c d]> q).
Proof.
  intros Hq k x. rewrite lookup_insert. case_decide as Hk.
  - subst k. intros [= <-]. split; [reflexivity|]. intros Hc. discriminate.
  - apply Hq.
Qed.

Lemma status_not_closed_open st :
  status_not_closed st = true -> st <> PStr "Closed".
Proof. intros H ->. discriminate. Qed.

Lemma offered_close r :
  SendEmailCloseSubmission ∈ offered_buttons r -> truthy (Final_Response r) = true.
Proof.
  unfold offered_buttons. destruct (truthy (Final_Response r)); [reflexivity|].
  destruct (negb (truthy (Contact_Response r))); simpl; intros H;
    repeat (apply elem_of_cons in H as [H|H]; [discriminate|]);
    now apply elem_of_nil in H.
Qed.

Lemma waiting_submission cfg w waiting w' id r :
  fetch_waiting_submissions cfg w = (Ok waiting, w') ->
  find (fun r => Z.eqb (Contact_ID r) id) waiting = Some r ->
  w' = w /\ (exists k, contact_queue w !! k = Some r)
  /\ status_not_closed (Status r) = true.
Proof.
  unfold fetch_waiting_submissions, bind, get_world, ret. intros [= <- <-] Hf.
  apply find_some in Hf as [Hin _].
  apply list_elem_of_In, list_elem_of_filter in Hin as [Hst Hin].
  split; [reflexivity|]. split; [|exact Hst].
  apply list_elem_of_In, in_map_iff in Hin as [[k x] [<- Hin]].
  apply list_elem_of_In, elem_of_map_to_list in Hin. eauto.
Qed.

Lemma step_keeps_inv s s' : ui_inv s -> step s s' -> ui_inv s'.
Proof.
  intros [Hq Hf] [E cfg ev Hrun]. destruct ev as [ct fn ln em dob c d|id|b final slider];
    unfold run_event in Hrun.
  - (* the contact form *)
    destruct (truthy ct && truthy fn && truthy ln && truthy em && truthy c);
      injection Hrun as <-; split; simpl; try discriminate; auto.
    now apply queue_inv_insert_new.
  - (* a submission of the waiting list is opened *)
    destruct (fetch_waiting_submissions cfg (ui_world s)) as [[waiting|e] w] eqn:Hw.
    2: { unfold fetch_waiting_submissions, bind, get_world, ret in Hw. discriminate. }
    destruct (find _ waiting) as [r|] eqn:Hfind; [|discriminate].
    destruct (waiting_submission _ _ _ _ _ _ Hw Hfind) as (-> & [k Hk] & Hst).
    pose proof (keeps_queue_load_submission_details cfg (Contact_ID r) (ui_world s)) as Hk'.
    destruct (load_submission_details cfg (Contact_ID r) (ui_world s)) as [[f|e] w'] eqn:Hl;
      simpl in Hk'; injection Hrun as <-;
      (split; cbn [ui_world ui_form]; [rewrite Hk'; exact Hq|]); [|discriminate].
    rewrite Hk'. intros f' ->.
    apply load_submission_details_form in Hl as (Hd & Hid & Hb).
    destruct (Hq _ _ Hk) as [Hkey _]. rewrite Hkey, Hk in Hd. injection Hd as Hd.
    unfold form_inv. rewrite Hid, <- Hd, Hkey. rewrite <- Hd in Hb. auto.
  - (* a button of the form on screen *)
    destruct (ui_form s) as [f|] eqn:Hform; [|discriminate].
    destruct (decide (b ∈ form_buttons f)) as [Hb|]; [|discriminate].
    destruct (decide (1 <= slider <= 5)); [|discriminate].
    injection Hrun as <-. split; [|discriminate]. simpl.
    destruct (Hf f eq_refl) as (Hd & Hst & Hbs).
    unfold bind.
    pose proof (keeps_queue_submit_widgets f final slider (ui_world s)) as Hk.
    destruct (submit_widgets f final slider (ui_world s)) as [[[]|e] w1]; simpl in Hk;
      [|simpl; now rewrite Hk].
    rewrite <- Hk in Hq, Hd.
    destruct b; simpl.
    + apply (answered_at_clicked_close_submission E cfg _ (form_details f) w1).
      split; [exact Hq|]. intros r. rewrite Hd. intros [= <-].
      apply offered_close. now rewrite <- Hbs.
    + apply (open_at_clicked_get_openai E cfg _ _ _ (form_details f) w1).
      split; [exact Hq|]. intros r. rewrite Hd. intros [= <-].
      now apply status_not_closed_open.
    + apply (open_at_clicked_submit_response E cfg _ (form_details f) (form_prompt f) w1).
      split; [exact Hq|]. intros r. rewrite Hd. intros [= <-].
      now apply status_not_closed_open.
Qed.

(** C1.  Start from a table in which every row is stored under its
    [Contact_ID] and every Closed submission has a non-empty final
    response (the empty table, for one).  In every state
    an operator session reaches from it, a submission whose status is
    Closed has a non-empty final response.  The close callback writes
    the status without looking at the row; the guard is the page, which
    draws the close button only for a row whose [Final_Response] is
    truthy, and the other callbacks are drawn only for rows that are not
    Closed. *)
Theorem closed_has_final_response w0 s :
  queue_inv (contact_queue w0) ->
  reachable (mkUi w0 None) s ->
  forall id r,
    contact_queue (ui_world s) !! id = Some r ->
    Status r = PStr "Closed" ->
    truthy (Final_Response r) = true.
Proof.
  intros H0 Hreach.
  assert (Hinv : ui_inv s).
  { induction Hreach as [|s s' _ IH Hstep].
    - split; [exact H0 | discriminate].
    - eapply step_keeps_inv; eauto. }
  intros id r Hr Hc. destruct Hinv as [Hq _]. now apply (Hq id r Hr).
Qed.

Lemma run_events_reachable E cfg evs : forall s0 s s',
  reachable s0 s -> run_events E cfg evs s = Some s' -> reachable s0 s'.
Proof.
  induction evs as [|ev evs IH]; simpl; intros s0 s s' Hr Hrun.
  - now injection Hrun as <-.
  - destruct (run_event E cfg ev s) as [s1|] eqn:Hev; [|discriminate].
    eapply IH; [|exact Hrun]. eapply reachable_step; [exact Hr|].
    econstructor. exact Hev.
Qed.

(** The session of the specification's scenarios: intake, answer,
    review, closure.  It ends with submission 1 Closed. *)
Lemma closed_has_final_response_witness :
  queue_inv (contact_queue empty_world)
  /\ reachable (mkUi empty_world None) demo_closed
  /\ exists r, contact_queue (ui_world demo_closed) !! 1 = Some r
               /\ Status r = PStr "Closed"
               /\ truthy (Final_Response r) = true.
Proof.
  assert (H0 : queue_inv (contact_queue empty_world)).
  { intros id r Hr. simpl in Hr. now rewrite lookup_empty in Hr. }
  assert (Hreach : reachable (mkUi empty_world None) demo_closed).
  { eapply (run_events_reachable services_up demo_config demo_session);
      [apply reachable_start|]. vm_compute. reflexivity. }
  split; [exact H0|]. split; [exact Hreach|].
  destruct (contact_queue (ui_world demo_closed) !! 1) as [r|] eqn:Hr;
    [|vm_compute in Hr; discriminate].
  exists r. split; [reflexivity|].
  assert (Hc : Status r = PStr "Closed").
  { vm_compute in Hr. injection Hr as <-. reflexivity. }
  split; [exact Hc|].
  exact (closed_has_final_response empty_world demo_closed H0 Hreach 1 r Hr Hc).
Defined.

(** ** C2: a failed retrieval or generation leaves the record alone *)

(** C2 as stated fails: on a new submission with every collaborator
    answering, the fetch stores response, prompt, status and payload, and
    no processing date. *)
Lemma fetch_answer_does_not_stamp_processed_time :
  Status demo_new = PStr "New"
  /\ ~ fetch_answer_all_or_nothing services_up demo_config "corpus_config.json" "key.json"
        1 demo_new (world_of {[1 := demo_new]}).
Proof.
  split; [reflexivity|]. intros H.
  destruct (contact_queue
              (snd (clicked_get_openai services_up demo_config "corpus_config.json"
                      "key.json" 1 demo_new (world_of {[1 := demo_new]}))) !! 1)
    as [r'|] eqn:Hr'; [|vm_compute in Hr'; discriminate].
  assert (Hr : contact_queue (world_of {[1 := demo_new]}) !! 1 = Some demo_new)
    by reflexivity.
  specialize (H demo_new r' Hr Hr'). vm_compute in Hr'. injection Hr' as <-.
  destruct H as [H | (_ & _ & _ & _ & H)]; [vm_compute in H|]; discriminate H.
Qed.

(** C2, amended.  If building the prompt fails (configuration, lookup or
    retrieval), or the generation service fails on the prompt that was
    built, then [clicked_get_openai] raises and the world it returns is
    the world it was given: no column of the submission is written, and
    its status is what it was (New, for a new submission).  All writes of
    the callback come after both calls.  When both succeed on a
    submission whose payload is empty or a JSON object, the response, the
    prompt, the status Processed and the two payload keys are all stored;
    [Processed_Date] is not among the columns the callback writes and
    keeps its value. *)
Theorem fetch_answer_failure_leaves_record E cfg cp cred id details w :
  ((exists e, fst (google_rag_query.get_rag_prompt E cp cred cfg (Contact_ID details) w)
              = Raise e)
   \/ (forall prompt,
         fst (google_rag_query.get_rag_prompt E cp cred cfg (Contact_ID details) w)
         = Ok prompt ->
         send_baserun_openai_query E cfg prompt = None) ->
   exists e, clicked_get_openai E cfg cp cred id details w = (Raise e, w))
  /\ (forall r d prompt response trace_id,
        contact_queue w !! id = Some r ->
        stored_payload E r = Some d ->
        fst (google_rag_query.get_rag_prompt E cp cred cfg (Contact_ID details) w)
        = Ok prompt ->
        send_baserun_openai_query E cfg prompt = Some (response, trace_id) ->
        codec_reads_back E (JObj (dict_set "llm" (JStr "openai") d)) ->
        exists w',
          clicked_get_openai E cfg cp cred id details w = (Ok tt, w')
          /\ contact_queue w' !! id = Some (answered E prompt response trace_id d r)
          /\ Processed_Date (answered E prompt response trace_id d r) = Processed_Date r).
Proof.
  split.
  - intros H. unfold clicked_get_openai.
    pose proof (readonly_get_rag_prompt E cp cred cfg (Contact_ID details)) as Hro.
    destruct (fst (google_rag_query.get_rag_prompt E cp cred cfg (Contact_ID details) w))
      as [prompt|e] eqn:Hp.
    + destruct H as [[e He]|Hgen]; [discriminate|].
      rewrite (bind_ok _ _ _ _ _ (readonly_run _ _ _ Hro Hp)).
      exists (ServiceError "send_baserun_openai_query").
      apply bind_raise. unfold openai_query.
      now rewrite (Hgen prompt eq_refl).
    + exists e. apply bind_raise. now apply readonly_run.
  - intros r d prompt response trace_id Hr Hd Hp Hg Hc.
    rewrite (clicked_get_openai_run E cfg cp cred id details w r d prompt response
               trace_id Hp Hg Hr Hd Hc).
    eexists. split; [reflexivity|]. split; [apply lookup_insert_eq | reflexivity].
Qed.

(** A new submission with the corpus service down, and the same
    submission with every collaborator answering. *)
Lemma fetch_answer_failure_leaves_record_witness :
  (exists e, fst (google_rag_query.get_rag_prompt retrieval_down "corpus_config.json"
                    "key.json" demo_config (Contact_ID demo_new)
                    (world_of {[1 := demo_new]})) = Raise e)
  /\ (exists e, clicked_get_openai retrieval_down demo_config "corpus_config.json" "key.json"
                  1 demo_new (world_of {[1 := demo_new]})
                = (Raise e, world_of {[1 := demo_new]}))
  /\ (exists w',
        clicked_get_openai services_up demo_config "corpus_config.json" "key.json"
          1 demo_new (world_of {[1 := demo_new]}) = (Ok tt, w')
        /\ contact_queue w' !! 1
           = Some (answered services_up demo_prompt "Your deductible is $500" "trace-1" []
                            demo_new)
        /\ Processed_Date (answered services_up demo_prompt "Your deductible is $500"
                                    "trace-1" [] demo_new) = Processed_Date demo_new).
Proof.
  assert (H : exists e,
             fst (google_rag_query.get_rag_prompt retrieval_down "corpus_config.json"
                    "key.json" demo_config (Contact_ID demo_new)
                    (world_of {[1 := demo_new]})) = Raise e).
  { apply get_rag_prompt_needs_retrieval. reflexivity. }
  split; [exact H|]. split.
  - exact (proj1 (fetch_answer_failure_leaves_record retrieval_down demo_config
                    "corpus_config.json" "key.json" 1 demo_new
                    (world_of {[1 := demo_new]})) (or_introl H)).
  - apply (proj2 (fetch_answer_failure_leaves_record services_up demo_config
                    "corpus_config.json" "key.json" 1 demo_new
                    (world_of {[1 := demo_new]})) demo_new [] demo_prompt
                 "Your deductible is $500" "trace-1").
    + reflexivity.
    + reflexivity.
    + vm_compute. reflexivity.
    + reflexivity.
    + split; [vm_compute; discriminate | vm_compute; reflexivity].
Defined.

(** ** C3 and C10: closing a submission *)

Lemma keeps_queue_after_close E cfg details :
  keeps_queue (email_body <~ lift (return_template details (Final_Response details)) ;;
               send_email E (sendgrid_key cfg) email_from email_to subject email_body ;;;
               st_success "Submission closed, Email Sent.").
Proof.
  apply keeps_queue_bind; [auto with callbacks|]. intros body.
  apply keeps_queue_bind; [apply keeps_queue_send_email|]. intros _.
  auto with callbacks.
Qed.

Lemma clicked_close_submission_queue E cfg id details w r :
  contact_queue w !! id = Some r ->
  contact_queue (snd (clicked_close_submission E cfg id details w))
  = <[id := with_Status (PStr "Closed") r]> (contact_queue w).
Proof.
  intros Hr. unfold clicked_close_submission.
  erewrite bind_ok; [|eapply update_submission_run; [exact Hr | apply set_column_Status]].
  now rewrite keeps_queue_after_close.
Qed.

Lemma clicked_close_submission_outbox E cfg id details w :
  outbox (snd (clicked_close_submission E cfg id details w))
  = (outbox w ++ closure_mail details)%list.
Proof.
  unfold clicked_close_submission, closure_mail, update_submission.
  change (is_column "Status") with true. cbv iota.
  unfold bind at 1. unfold bind at 1. unfold get_world.
  destruct (contact_queue w !! id) as [r|]; [rewrite set_column_Status|];
    unfold put_queue, ret, bind, lift, send_email, record_mail;
    (destruct (return_template details (Final_Response details)) as [body|e];
     [|simpl; now rewrite app_nil_r]);
    simpl; destruct (send_email_via_sendgrid E _ _); reflexivity.
Qed.

Lemma clicked_close_submission_raises E cfg id details w body :
  return_template details (Final_Response details) = Ok body ->
  send_email_via_sendgrid E (sendgrid_key cfg) (mkEmail email_from email_to subject body)
  = SendRaised ->
  fst (clicked_close_submission E cfg id details w)
  = Raise (ServiceError "send_email_via_sendgrid").
Proof.
  intros Hb Hs. unfold clicked_close_submission, update_submission.
  change (is_column "Status") with true. cbv iota.
  unfold bind at 1. unfold bind at 1. unfold get_world.
  destruct (contact_queue w !! id) as [r|]; [rewrite set_column_Status|];
    unfold put_queue, ret, bind, lift, send_email, record_mail;
    rewrite Hb; simpl; now rewrite Hs.
Qed.

(** C3, amended.  [clicked_close_submission] writes status Closed first
    and calls the mail helper afterwards, at most once (once when the
    body renders).  Whatever the helper then
    does, the status of the submission is Closed when the callback ends;
    when the helper raises, the callback raises with the status already
    Closed, and a Closed submission is not selected for the waiting list
    again. *)
Theorem close_persists_then_dispatches E cfg id details w r :
  contact_queue w !! id = Some r ->
  status_at id (snd (clicked_close_submission E cfg id details w)) = Some (PStr "Closed")
  /\ outbox (snd (clicked_close_submission E cfg id details w))
     = (outbox w ++ closure_mail details)%list
  /\ (forall body,
        return_template details (Final_Response details) = Ok body ->
        send_email_via_sendgrid E (sendgrid_key cfg)
                                (mkEmail email_from email_to subject body) = SendRaised ->
        fst (clicked_close_submission E cfg id details w)
        = Raise (ServiceError "send_email_via_sendgrid"))
  /\ status_not_closed (PStr "Closed") = false.
Proof.
  intros Hr. split; [|split; [apply clicked_close_submission_outbox|split]].
  - unfold status_at. rewrite (clicked_close_submission_queue _ _ _ _ _ _ Hr).
    now rewrite lookup_insert_eq.
  - intros body. apply clicked_close_submission_raises.
  - reflexivity.
Qed.

(** C3 as stated fails: a reviewed submission, a mail helper that raises,
    and the status is Closed after the call. *)
Lemma close_does_not_wait_for_dispatch :
  Status demo_reviewed = PStr "Processed"
  /\ truthy (Final_Response demo_reviewed) = true
  /\ ~ close_waits_for_dispatch mail_down demo_config 1 demo_reviewed
         (world_of {[1 := demo_reviewed]}).
Proof.
  split; [reflexivity|]. split; [reflexivity|].
  intros H. assert (Hf : dispatch_failed mail_down demo_config demo_reviewed).
  { eexists. split; [reflexivity|]. vm_compute. discriminate. }
  specialize (H Hf). vm_compute in H. discriminate.
Qed.

(** The same reviewed submission with the mail helper down. *)
Lemma close_persists_then_dispatches_witness :
  contact_queue (world_of {[1 := demo_reviewed]}) !! 1 = Some demo_reviewed
  /\ status_at 1 (snd (clicked_close_submission mail_down demo_config 1 demo_reviewed
                         (world_of {[1 := demo_reviewed]}))) = Some (PStr "Closed").
Proof.
  assert (H : contact_queue (world_of {[1 := demo_reviewed]}) !! 1 = Some demo_reviewed)
    by reflexivity.
  split; [exact H|].
  exact (proj1 (close_persists_then_dispatches mail_down demo_config 1 demo_reviewed
                  (world_of {[1 := demo_reviewed]}) demo_reviewed H)).
Defined.

(** C10.  The one message [clicked_close_submission] hands to the mail
    helper goes from ["user@example.com"] to ["user@example.com"] with the
    subject ["Response to your inquiry"], the module's constants.  The
    submitter's [Contact_Email] plays no role: replacing it in the
    captured details changes neither the message nor anything else the
    callback does. *)
Theorem closure_mail_goes_to_fixed_address E cfg id details w e :
  outbox (snd (clicked_close_submission E cfg id details w))
  = (outbox w ++ closure_mail details)%list
  /\ closure_mail (with_Contact_Email e details) = closure_mail details
  /\ clicked_close_submission E cfg id (with_Contact_Email e details) w
     = clicked_close_submission E cfg id details w.
Proof.
  split; [apply clicked_close_submission_outbox|]. split; reflexivity.
Qed.

(** ** C4 and C5: merging into the payload *)

(** C4.  For an existing submission whose payload column is empty or
    holds a JSON object [d], and distinct keys [a] and [b]: merging
    [a := v1] and then [b := v2] both succeed, and the text left in the
    column is the serialization of a dict that maps [a] to [v1] and [b]
    to [v2], agrees with [d] on every other key, and has every key [d]
    had.  (The codec has to read back what the first merge wrote.) *)
Theorem merge_payload_keeps_both_keys E cfg id a b v1 v2 w r d :
  a <> b ->
  contact_queue w !! id = Some r ->
  stored_payload E r = Some d ->
  codec_reads_back E (JObj (dict_set a v1 d)) ->
  exists w1 w2 r2 d2,
    update_submission_payload E cfg id a v1 w = (Ok tt, w1)
    /\ update_submission_payload E cfg id b v2 w1 = (Ok tt, w2)
    /\ contact_queue w2 !! id = Some r2
    /\ Payload r2 = PStr (json_dumps E (JObj d2))
    /\ dict_get a d2 = Some v1
    /\ dict_get b d2 = Some v2
    /\ (forall k, k <> a -> k <> b -> dict_get k d2 = dict_get k d)
    /\ (forall k, dict_mem k d = true -> dict_mem k d2 = true).
Proof.
  intros Hab Hr Hd Hc.
  pose proof (update_submission_payload_run E cfg id a v1 w r d Hr Hd) as H1.
  set (r1 := with_Payload (PStr (json_dumps E (JObj (dict_set a v1 d)))) r) in *.
  set (w1 := with_queue (<[id := r1]> (contact_queue w)) w) in *.
  assert (Hr1 : contact_queue w1 !! id = Some r1) by apply lookup_insert_eq.
  assert (Hd1 : stored_payload E r1 = Some (dict_set a v1 d)).
  { eapply stored_payload_written; [exact Hc | reflexivity]. }
  pose proof (update_submission_payload_run E cfg id b v2 w1 r1 _ Hr1 Hd1) as H2.
  eexists w1, _, _, (dict_set b v2 (dict_set a v1 d)).
  split; [exact H1|]. split; [exact H2|].
  split; [apply lookup_insert_eq|]. split; [reflexivity|].
  split; [|split; [|split]].
  - rewrite dict_get_set_ne by congruence. apply dict_get_set_eq.
  - apply dict_get_set_eq.
  - intros k Ha Hb. rewrite !dict_get_set_ne by congruence. reflexivity.
  - intros k Hk. now do 2 apply dict_mem_set_mono.
Qed.

(** The specification's example: ["a" := 1] then ["b" := 2] on a new
    submission. *)
Lemma merge_payload_keeps_both_keys_witness :
  "a" <> "b"
  /\ contact_queue (world_of {[1 := demo_new]}) !! 1 = Some demo_new
  /\ stored_payload services_up demo_new = Some []
  /\ codec_reads_back services_up (JObj (dict_set "a" (JNum 1) []))
  /\ exists w1 w2 r2 d2,
      update_submission_payload services_up demo_config 1 "a" (JNum 1)
        (world_of {[1 := demo_new]}) = (Ok tt, w1)
      /\ update_submission_payload services_up demo_config 1 "b" (JNum 2) w1 = (Ok tt, w2)
      /\ contact_queue w2 !! 1 = Some r2
      /\ Payload r2 = PStr (json_dumps services_up (JObj d2))
      /\ dict_get "a" d2 = Some (JNum 1)
      /\ dict_get "b" d2 = Some (JNum 2)
      /\ (forall k, k <> "a" -> k <> "b" -> dict_get k d2 = dict_get k [])
      /\ (forall k, dict_mem k (@nil (string * json)) = true -> dict_mem k d2 = true).
Proof.
  assert (Hab : "a" <> "b") by discriminate.
  assert (Hr : contact_queue (world_of {[1 := demo_new]}) !! 1 = Some demo_new)
    by reflexivity.
  assert (Hd : stored_payload services_up demo_new = Some []) by reflexivity.
  assert (Hc : codec_reads_back services_up (JObj (dict_set "a" (JNum 1) []))).
  { split; [vm_compute; discriminate | vm_compute; reflexivity]. }
  repeat (split; [assumption|]).
  exact (merge_payload_keeps_both_keys services_up demo_config 1 "a" "b" (JNum 1) (JNum 2)
           (world_of {[1 := demo_new]}) demo_new [] Hab Hr Hd Hc).
Defined.

(** The payload text after the two merges of the specification's example. *)
Example merge_a_then_b_text :
  option_map Payload
    (contact_queue
       (snd (update_submission_payload services_up demo_config 1 "b" (JNum 2)
               (snd (update_submission_payload services_up demo_config 1 "a" (JNum 1)
                       (world_of {[1 := demo_new]}))))) !! 1)
  = Some (PStr (mini_json.dumps (JObj [("a", JNum 1); ("b", JNum 2)]))).
Proof. vm_compute. reflexivity. Qed.

(** C5 as stated fails: on a submission without payload the merge goes
    through, and no warning is shown. *)
Lemma merge_on_missing_payload_shows_no_warning :
  Payload demo_new = PNone
  /\ ~ merge_recovers services_up demo_config 1 "llm" (JStr "openai")
         (world_of {[1 := demo_new]}).
Proof.
  split; [reflexivity|]. intros (w' & Hrun & _ & msg & Hin).
  vm_compute in Hrun. injection Hrun as <-. simpl in Hin.
  now apply elem_of_nil in Hin.
Qed.

(** On text that is not JSON the merge raises and writes nothing. *)
Example merge_on_unreadable_payload_raises :
  update_submission_payload services_up demo_config 1 "llm" (JStr "openai")
    (world_of {[1 := demo_unreadable]})
  = (Raise JSONDecodeError, world_of {[1 := demo_unreadable]}).
Proof. vm_compute. reflexivity. Qed.

(** On any text the codec rejects, the merge raises [JSONDecodeError] to
    its caller and leaves the world as it was. *)
Lemma merge_on_unreadable_payload_raises_always E cfg id key value w r s :
  contact_queue w !! id = Some r ->
  Payload r = PStr s ->
  s <> EmptyString ->
  json_loads E s = None ->
  update_submission_payload E cfg id key value w = (Raise JSONDecodeError, w).
Proof.
  intros Hr Hp Hne Hl. unfold update_submission_payload.
  unfold bind at 1. unfold get_world. rewrite Hr, Hp, (truthy_PStr _ Hne).
  unfold bind, lift, py_json_loads. now rewrite Hl.
Qed.

(** C5, amended.  For an existing submission whose payload column is
    missing (NULL or empty), [update_submission_payload] starts from the
    empty dict, writes [{key: value}], raises nothing and shows no
    warning.  The warning with the empty dict in place of unreadable text
    is what [clicked_submit_response] does when it decodes the payload of
    the submission under review. *)
Theorem merge_on_missing_payload E cfg id key value w r :
  contact_queue w !! id = Some r ->
  truthy (Payload r) = false ->
  (exists w',
      update_submission_payload E cfg id key value w = (Ok tt, w')
      /\ contact_queue w' !! id
         = Some (with_Payload (PStr (json_dumps E (JObj [(key, value)]))) r)
      /\ screen w' = screen w)
  /\ (forall details s w0,
        Payload details = PStr s -> s <> EmptyString -> json_loads E s = None ->
        decode_payload E details w0
        = (Ok (JObj []), snd (st_warning "Invalid JSON payload. Unable to parse." w0))).
Proof.
  intros Hr Hp. split.
  - eexists. split; [|split].
    + apply (update_submission_payload_run E cfg id key value w r []); [exact Hr|].
      unfold stored_payload. now rewrite Hp.
    + apply lookup_insert_eq.
    + reflexivity.
  - intros details s w0 Hs Hne Hl. unfold decode_payload, try_json.
    rewrite Hs, (truthy_PStr _ Hne). unfold lift, py_json_loads. now rewrite Hl.
Qed.

(** A new submission, merged with the backend tag. *)
Lemma merge_on_missing_payload_witness :
  contact_queue (world_of {[1 := demo_new]}) !! 1 = Some demo_new
  /\ truthy (Payload demo_new) = false
  /\ exists w',
      update_submission_payload services_up demo_config 1 "llm" (JStr "openai")
        (world_of {[1 := demo_new]}) = (Ok tt, w')
      /\ contact_queue w' !! 1
         = Some (with_Payload
                   (PStr (json_dumps services_up (JObj [("llm", JStr "openai")]))) demo_new)
      /\ screen w' = screen (world_of {[1 := demo_new]}).
Proof.
  assert (Hr : contact_queue (world_of {[1 := demo_new]}) !! 1 = Some demo_new)
    by reflexivity.
  assert (Hp : truthy (Payload demo_new) = false) by reflexivity.
  split; [exact Hr|]. split; [exact Hp|].
  exact (proj1 (merge_on_missing_payload services_up demo_config 1 "llm" (JStr "openai")
                  (world_of {[1 := demo_new]}) demo_new Hr Hp)).
Defined.

(** ** C9: the telemetry of a review *)

Lemma set_column_total f v r :
  is_column f = true -> exists r', set_column f v r = Some r'.
Proof.
  unfold is_column, blank_row. destruct r. unfold set_column.
  repeat match goal with
         | |- context [String.eqb f ?c] => destruct (String.eqb f c)
         end; eauto; discriminate.
Qed.

Lemma with_queue_same w : with_queue (contact_queue w) w = w.
Proof. now destruct w. Qed.

Lemma update_submission_ok cfg id f v w :
  is_column f = true ->
  exists q, update_submission cfg id f v w = (Ok tt, with_queue q w).
Proof.
  intros Hc. unfold update_submission. rewrite Hc. unfold bind, get_world.
  destruct (contact_queue w !! id) as [r|].
  - destruct (set_column_total f v r Hc) as [r' ->]. eexists. reflexivity.
  - exists (contact_queue w). unfold ret. now rewrite with_queue_same.
Qed.

Lemma session_get_run k v w :
  session_state w !! k = Some v -> session_get k w = (Ok v, w).
Proof. intros H. unfold session_get, bind, get_world. now rewrite H. Qed.

Lemma decode_payload_run E details d w :
  review_payload E details = Some d ->
  exists w1, decode_payload E details w = (Ok (JObj d), w1)
             /\ session_state w1 = session_state w
             /\ telemetry w1 = telemetry w.
Proof.
  unfold review_payload, decode_payload, try_json, lift.
  destruct (truthy (Payload details)).
  - destruct (py_json_loads E (Payload details)) as [[| | | | |d']|[]]; try discriminate;
      intros [= <-]; eexists; (split; [reflexivity|]); split; reflexivity.
  - intros [= <-]. eexists. split; [reflexivity|]. split; reflexivity.
Qed.

Lemma telemetry_after_send E ev w :
  telemetry (snd ((send_telemetry E ev ;;; st_success "Response updated and email prepared.")
                    w))
  = (telemetry w ++ [ev])%list.
Proof.
  unfold send_telemetry, bind, emit_telemetry. simpl.
  destruct (baserun_accepts E ev); reflexivity.
Qed.

(** C9.  A review whose form values are in the session state, with the
    telemetry client available and a payload that is missing, unreadable
    or a JSON object [d]: [clicked_submit_response] hands exactly one
    event to the telemetry sink.  When [d] maps ["llm"] to ["openai"] it is
    the tagged event, carrying the evaluation and the stored payload (and
    so its trace id); otherwise it is the generic event, carrying the
    model name, the prompt, the response and the evaluation. *)
Theorem review_emits_one_event E cfg id details prompt w response evaluation d :
  session_state w !! ("final_" ++ pretty id) = Some response ->
  session_state w !! ("slider_" ++ pretty id) = Some evaluation ->
  initialize_baserun E cfg = true ->
  review_payload E details = Some d ->
  telemetry (snd (clicked_submit_response E cfg id details prompt w))
  = (telemetry w
     ++ [if tagged_backend d
         then BaserunTag evaluation (JObj d)
         else GenericBaserunMessage model_name prompt response evaluation])%list.
Proof.
  intros Hf Hs Hi Hd. unfold clicked_submit_response.
  destruct (decode_payload_run E details d w Hd) as (w1 & Hdec & Hss & Htel).
  rewrite (bind_ok _ _ _ _ _ Hdec).
  assert (Hg1 : session_get ("final_" ++ pretty id) w1 = (Ok response, w1)).
  { apply session_get_run. now rewrite Hss. }
  rewrite (bind_ok _ _ _ _ _ Hg1).
  destruct (update_submission_ok cfg id "Final_Response" response w1 eq_refl) as [q1 Hu1].
  rewrite (bind_ok _ _ _ _ _ Hu1).
  assert (Hg2 : session_get ("slider_" ++ pretty id) (with_queue q1 w1)
                = (Ok evaluation, with_queue q1 w1)).
  { apply session_get_run. simpl. now rewrite Hss. }
  rewrite (bind_ok _ _ _ _ _ Hg2).
  destruct (update_submission_ok cfg id "Evaluation" evaluation (with_queue q1 w1) eq_refl)
    as [q2 Hu2].
  rewrite (bind_ok _ _ _ _ _ Hu2). rewrite with_queue_twice.
  rewrite Hi. unfold bind at 1. unfold ret at 1. cbv beta iota.
  unfold bind at 1. unfold lift at 1. unfold py_contains. cbv beta iota.
  unfold tagged_backend, dict_mem.
  destruct (dict_get "llm" d) as [v|] eqn:Hllm.
  - unfold bind at 1. unfold bind at 1. unfold lift at 1, py_getitem. rewrite Hllm.
    unfold ret at 1. cbv beta iota.
    destruct (json_is_str "openai" v); rewrite telemetry_after_send; simpl; now rewrite Htel.
  - unfold bind at 1. unfold ret at 1. cbv beta iota.
    rewrite telemetry_after_send. simpl. now rewrite Htel.
Qed.

(** The review of a submission answered by the tagged backend. *)
Lemma review_emits_one_event_witness :
  session_state demo_review_world !! ("final_" ++ pretty 1)
  = Some (PStr "Your deductible is $500.")
  /\ session_state demo_review_world !! ("slider_" ++ pretty 1) = Some (PInt 4)
  /\ initialize_baserun services_up demo_config = true
  /\ review_payload services_up demo_answered
     = Some [("llm", JStr "openai"); ("trace_id", JStr "trace-1")]
  /\ telemetry (snd (clicked_submit_response services_up demo_config 1 demo_answered
                       (PStr "prompt") demo_review_world))
     = [BaserunTag (PInt 4) (JObj [("llm", JStr "openai"); ("trace_id", JStr "trace-1")])].
Proof.
  assert (H1 : session_state demo_review_world !! ("final_" ++ pretty 1)
               = Some (PStr "Your deductible is $500.")) by (vm_compute; reflexivity).
  assert (H2 : session_state demo_review_world !! ("slider_" ++ pretty 1) = Some (PInt 4))
    by (vm_compute; reflexivity).
  assert (H3 : initialize_baserun services_up demo_config = true) by reflexivity.
  assert (H4 : review_payload services_up demo_answered
               = Some [("llm", JStr "openai"); ("trace_id", JStr "trace-1")])
    by (vm_compute; reflexivity).
  repeat (split; [assumption|]).
  exact (review_emits_one_event services_up demo_config 1 demo_answered (PStr "prompt")
           demo_review_world _ _ _ H1 H2 H3 H4).
Defined.

(** Without the backend tag the generic event is sent. *)
Example review_of_untagged_submission :
  telemetry (snd (clicked_submit_response services_up demo_config 1
                    (with_Payload PNone demo_answered) (PStr "prompt") demo_review_world))
  = [GenericBaserunMessage "gemini-1.5-pro-001" (PStr "prompt")
       (PStr "Your deductible is $500.") (PInt 4)].
Proof. vm_compute. reflexivity. Qed.

(** ** C6: asking for an answer twice *)

(** C6 as stated fails: on a Processed submission that has an answer the
    callback neither raises nor leaves the record alone. *)
Lemma fetch_answer_runs_on_processed :
  Status demo_processed <> PStr "New"
  /\ ~ fetch_answer_refused services_up demo_config "corpus_config.json" "key.json" 1
         demo_processed (world_of {[1 := demo_processed]}).
Proof.
  split; [discriminate|]. intros [[e He] _]. vm_compute in He. discriminate.
Qed.

Lemma offered_get r :
  GetRagLlmResponse ∈ offered_buttons r
  <-> truthy (Final_Response r) = false /\ truthy (Contact_Response r) = false.
Proof.
  unfold offered_buttons.
  destruct (truthy (Final_Response r)), (truthy (Contact_Response r)); simpl;
    rewrite ?elem_of_cons, ?elem_of_nil; intuition discriminate.
Qed.

(** C6, amended.  [clicked_get_openai] checks no status and raises no
    state error: on an existing submission in any status, when the prompt
    is built, the generation service answers and the payload can be
    merged, it returns normally with a new response, prompt and payload
    stored and the status Processed.  What keeps it from running twice is
    the page: the fetch button is drawn exactly when the final response
    and the stored response are both empty. *)
Theorem fetch_answer_is_gated_by_the_page E cfg cp cred id w r d prompt response trace_id :
  contact_queue w !! id = Some r ->
  fst (google_rag_query.get_rag_prompt E cp cred cfg (Contact_ID r) w) = Ok prompt ->
  send_baserun_openai_query E cfg prompt = Some (response, trace_id) ->
  stored_payload E r = Some d ->
  codec_reads_back E (JObj (dict_set "llm" (JStr "openai") d)) ->
  clicked_get_openai E cfg cp cred id r w
  = st_success "OpenAI response fetched and submission updated."
      (with_queue (<[id := answered E prompt response trace_id d r]> (contact_queue w)) w)
  /\ Status (answered E prompt response trace_id d r) = PStr "Processed"
  /\ Contact_Response (answered E prompt response trace_id d r) = PStr response
  /\ (forall f w',
        load_submission_details cfg id w = (Ok (Some f), w') ->
        (GetRagLlmResponse ∈ form_buttons f
         <-> truthy (Final_Response r) = false /\ truthy (Contact_Response r) = false)).
Proof.
  intros Hr Hp Hg Hd Hc. split; [now apply clicked_get_openai_run|].
  split; [reflexivity|]. split; [reflexivity|].
  intros f w' Hl. apply load_submission_details_form in Hl as (Hd' & _ & Hb).
  rewrite Hr in Hd'. injection Hd' as Hd'. rewrite Hb, <- Hd'. apply offered_get.
Qed.

(** A Processed submission with an earlier answer, fetched again. *)
Lemma fetch_answer_is_gated_by_the_page_witness :
  contact_queue (world_of {[1 := demo_processed]}) !! 1 = Some demo_processed
  /\ fst (google_rag_query.get_rag_prompt services_up "corpus_config.json" "key.json"
            demo_config (Contact_ID demo_processed) (world_of {[1 := demo_processed]}))
     = Ok demo_prompt
  /\ send_baserun_openai_query services_up demo_config demo_prompt
     = Some ("Your deductible is $500", "trace-1")
  /\ stored_payload services_up demo_processed = Some []
  /\ codec_reads_back services_up (JObj (dict_set "llm" (JStr "openai") []))
  /\ Status demo_processed = PStr "Processed"
  /\ clicked_get_openai services_up demo_config "corpus_config.json" "key.json" 1
       demo_processed (world_of {[1 := demo_processed]})
     = st_success "OpenAI response fetched and submission updated."
         (with_queue (<[1 := answered services_up demo_prompt "Your deductible is $500"
                                       "trace-1" [] demo_processed]>
                        (contact_queue (world_of {[1 := demo_processed]})))
                     (world_of {[1 := demo_processed]})).
Proof.
  assert (H1 : contact_queue (world_of {[1 := demo_processed]}) !! 1 = Some demo_processed)
    by reflexivity.
  assert (H2 : fst (google_rag_query.get_rag_prompt services_up "corpus_config.json"
                      "key.json" demo_config (Contact_ID demo_processed)
                      (world_of {[1 := demo_processed]})) = Ok demo_prompt)
    by (vm_compute; reflexivity).
  assert (H3 : send_baserun_openai_query services_up demo_config demo_prompt
               = Some ("Your deductible is $500", "trace-1")) by reflexivity.
  assert (H4 : stored_payload services_up demo_processed = Some []) by reflexivity.
  assert (H5 : codec_reads_back services_up (JObj (dict_set "llm" (JStr "openai") []))).
  { split; [vm_compute; discriminate | vm_compute; reflexivity]. }
  repeat (split; [assumption|]). split; [reflexivity|].
  exact (proj1 (fetch_answer_is_gated_by_the_page services_up demo_config
                  "corpus_config.json" "key.json" 1 (world_of {[1 := demo_processed]})
                  demo_processed [] demo_prompt "Your deductible is $500" "trace-1"
                  H1 H2 H3 H4 H5)).
Defined.

(** ** C7 and C8: retrieval and the prompt *)

Lemma rag_fetch_run id w r :
  contact_queue w !! id = Some r ->
  google_rag_query.fetch_submission_details id w = (Ok (submission_info r), w).
Proof.
  intros H. unfold google_rag_query.fetch_submission_details, bind, get_world.
  rewrite H. reflexivity.
Qed.

Lemma get_rag_prompt_run E cp cred cfg id w r info name contexts :
  retrieval_ready E cp cred id w r info name ->
  rag_retrieval_query E name (Contact_Question r) google_rag_query.similarity_top_k
                      google_rag_query.vector_distance_threshold = Some contexts ->
  google_rag_query.get_rag_prompt E cp cred cfg id w
  = (Ok (google_rag_query.full_prompt E google_rag_query.system_list
           (google_rag_query.first_context_text contexts) info (Contact_Question r)), w).
Proof.
  intros (cc & pid & loc & Hf & Hp & Hl & Hn & Hv & Hr & Hm) Hq.
  unfold google_rag_query.get_rag_prompt.
  erewrite bind_ok; [|unfold google_rag_query.load_json_config; rewrite Hf; reflexivity].
  erewrite bind_ok; [|unfold lift; rewrite Hp; reflexivity].
  erewrite bind_ok; [|unfold lift; rewrite Hl; reflexivity].
  erewrite bind_ok;
    [|unfold google_rag_query.initialize_vertex_ai; rewrite Hv; reflexivity].
  erewrite bind_ok; [|apply rag_fetch_run; exact Hr].
  erewrite bind_ok; [|reflexivity].
  erewrite bind_ok; [|apply readonly_run; [apply readonly_get_member_data | exact Hm]].
  erewrite bind_ok; [|reflexivity].
  erewrite bind_ok;
    [|unfold google_rag_query.query_corpus;
      erewrite bind_ok; [|unfold lift; rewrite Hn; reflexivity];
      simpl; rewrite Hq; reflexivity].
  reflexivity.
Qed.

(** C7 as stated fails: [query_corpus] hands on five passages in
    ascending order of score when that is what the service answers. *)
Lemma retrieval_is_not_capped_by_the_code :
  google_rag_query.query_corpus unruly_corpus
    [("corpus_name", PStr "projects/demo/ragCorpora/1")] "key.json"
    (PStr "What is my deductible?") empty_world
  = (Ok five_passages, empty_world)
  /\ length five_passages = 5%nat
  /\ ~ ranked five_passages
  /\ ~ retrieval_capped_and_ranked unruly_corpus.
Proof.
  split; [reflexivity|]. split; [reflexivity|]. split.
  - intros H.
    specialize (H 0%nat 4%nat (mkContext "Copay: $20 per visit." (1 # 10))
                  (mkContext "Deductible: $500 per year." (9 # 10))
                  ltac:(lia) eq_refl eq_refl).
    vm_compute in H. now apply H.
  - intros H.
    destruct (H [("corpus_name", PStr "projects/demo/ragCorpora/1")] "key.json"
                (PStr "What is my deductible?") empty_world five_passages empty_world
                eq_refl) as [Hlen _].
    vm_compute in Hlen. lia.
Qed.

(** C7, amended.  [query_corpus] asks the corpus service for
    [similarity_top_k = 3] passages within distance [0.5] and hands on the
    answer of the service as it is: it returns a list of passages exactly
    when the service answered with that list, without counting, cutting or
    sorting.  Of any answer [get_rag_prompt] takes the text of the first
    passage, and when the answer is empty it does not fail: it returns the
    prompt built with the empty string as retrieved context. *)
Theorem retrieval_asks_for_top_k_and_may_be_empty E cp cred cfg id w r info name :
  retrieval_ready E cp cred id w r info name ->
  (forall cc q w0 contexts w',
      google_rag_query.query_corpus E cc cred q w0 = (Ok contexts, w')
      <-> w' = w0
          /\ exists corpus,
              py_item "corpus_name" cc = Ok corpus
              /\ rag_retrieval_query E corpus q 3 (1 # 2)%Q = Some contexts)
  /\ (forall contexts,
        rag_retrieval_query E name (Contact_Question r) 3 (1 # 2)%Q = Some contexts ->
        google_rag_query.get_rag_prompt E cp cred cfg id w
        = (Ok (google_rag_query.full_prompt E google_rag_query.system_list
                 (google_rag_query.first_context_text contexts) info (Contact_Question r)),
           w))
  /\ (rag_retrieval_query E name (Contact_Question r) 3 (1 # 2)%Q = Some [] ->
      google_rag_query.get_rag_prompt E cp cred cfg id w
      = (Ok (google_rag_query.full_prompt E google_rag_query.system_list EmptyString info
               (Contact_Question r)), w)).
Proof.
  intros Hready. split; [|split].
  - intros cc q w0 contexts w'. unfold google_rag_query.query_corpus, bind, lift.
    change google_rag_query.similarity_top_k with 3.
    change google_rag_query.vector_distance_threshold with (1 # 2)%Q.
    destruct (py_item "corpus_name" cc) as [corpus|e].
    + destruct (rag_retrieval_query E corpus q 3 (1 # 2)%Q) as [l|] eqn:Hq; simpl.
      * split.
        -- intros [= <- <-]. split; [reflexivity|]. exists corpus. auto.
        -- intros (-> & c & [= <-] & Hc). rewrite Hq in Hc. now injection Hc as <-.
      * split; [discriminate|]. intros (_ & c & [= <-] & Hc). congruence.
    + split; [discriminate|]. intros (_ & c & Hc & _). discriminate.
  - intros contexts Hq.
    exact (get_rag_prompt_run E cp cred cfg id w r info name contexts Hready Hq).
  - intros Hq. exact (get_rag_prompt_run E cp cred cfg id w r info name [] Hready Hq).
Qed.

Lemma retrieval_ready_demo :
  retrieval_ready retrieval_empty "corpus_config.json" "key.json" 1
    (world_of {[1 := demo_new]}) demo_new demo_member (PStr "projects/demo/ragCorpora/1").
Proof.
  exists [("corpus_name", PStr "projects/demo/ragCorpora/1"); ("project_id", PStr "demo");
          ("location", PStr "us-central1")], (PStr "demo"), (PStr "us-central1").
  repeat (split; [reflexivity|]). vm_compute. reflexivity.
Qed.

(** A corpus with nothing on the question of submission 1. *)
Lemma retrieval_asks_for_top_k_and_may_be_empty_witness :
  retrieval_ready retrieval_empty "corpus_config.json" "key.json" 1
    (world_of {[1 := demo_new]}) demo_new demo_member (PStr "projects/demo/ragCorpora/1")
  /\ google_rag_query.get_rag_prompt retrieval_empty "corpus_config.json" "key.json"
       demo_config 1 (world_of {[1 := demo_new]})
     = (Ok (google_rag_query.full_prompt retrieval_empty google_rag_query.system_list
              EmptyString demo_member (PStr "What is my deductible?")),
        world_of {[1 := demo_new]}).
Proof.
  pose proof retrieval_ready_demo as H.
  split; [exact H|].
  exact (proj2 (proj2 (retrieval_asks_for_top_k_and_may_be_empty retrieval_empty
                         "corpus_config.json" "key.json" demo_config 1
                         (world_of {[1 := demo_new]}) demo_new demo_member
                         (PStr "projects/demo/ragCorpora/1") H)) eq_refl).
Defined.

Lemma bind_bind_ext {A B C} (c : M A) (K : A -> M B) (h : B -> M C) (F : A -> M C) w :
  (forall a w', F a w' = bind (K a) h w') ->
  bind c F w = bind (bind c K) h w.
Proof.
  intros H. unfold bind at 1 2 3. destruct (c w) as [[a|e] w']; [apply H | reflexivity].
Qed.

Lemma get_rag_prompt_from_inputs E cp cred cfg id w :
  google_rag_query.get_rag_prompt E cp cred cfg id w
  = bind (prompt_inputs E cp cred cfg id)
         (fun i => ret (google_rag_query.full_prompt E google_rag_query.system_list
                          (fst (fst i)) (snd (fst i)) (snd i))) w.
Proof.
  unfold google_rag_query.get_rag_prompt, prompt_inputs.
  do 9 (apply bind_bind_ext; intros ? ?). reflexivity.
Qed.

Lemma fst_bind_ok {A B} (c : M A) (k : A -> M B) w a :
  fst (c w) = Ok a -> fst (bind c k w) = fst (k a (snd (c w))).
Proof. unfold bind. destruct (c w) as [[x|e] w']; simpl; [now intros [= ->]|discriminate]. Qed.

(** C8.  Two invocations of [get_rag_prompt], under any two sets of
    collaborators, paths, configurations, contact ids and worlds: when
    the steps before the f-string hand it the same retrieved context,
    member context and question (and [str()] of the member context is
    the same), both return the same prompt, the f-string of these inputs
    after the joined system instructions, which are a constant of the
    function. *)
Theorem prompt_is_a_function_of_its_inputs
        E1 E2 cp1 cp2 cred1 cred2 cfg1 cfg2 id1 id2 w1 w2 context_text member_info question :
  format_dict E1 member_info = format_dict E2 member_info ->
  fst (prompt_inputs E1 cp1 cred1 cfg1 id1 w1) = Ok (context_text, member_info, question) ->
  fst (prompt_inputs E2 cp2 cred2 cfg2 id2 w2) = Ok (context_text, member_info, question) ->
  fst (google_rag_query.get_rag_prompt E1 cp1 cred1 cfg1 id1 w1)
  = Ok (google_rag_query.full_prompt E1 google_rag_query.system_list context_text
          member_info question)
  /\ fst (google_rag_query.get_rag_prompt E2 cp2 cred2 cfg2 id2 w2)
     = fst (google_rag_query.get_rag_prompt E1 cp1 cred1 cfg1 id1 w1).
Proof.
  intros Hfmt H1 H2.
  rewrite !get_rag_prompt_from_inputs.
  rewrite (fst_bind_ok _ _ _ _ H1), (fst_bind_ok _ _ _ _ H2). simpl.
  split; [reflexivity|]. unfold google_rag_query.full_prompt. now rewrite Hfmt.
Qed.

(** The same question asked twice, in two different settings. *)
Lemma prompt_is_a_function_of_its_inputs_witness :
  format_dict services_up demo_member = format_dict other_services demo_member
  /\ fst (prompt_inputs services_up "corpus_config.json" "key.json" demo_config 1
            (world_of {[1 := demo_new]}))
     = Ok ("Deductible: $500 per year.", demo_member, PStr "What is my deductible?")
  /\ fst (prompt_inputs other_services "corpus_config.json" "other-key.json"
            (mkConfig "SG.other") 7 (world_of {[7 := other_submission]}))
     = Ok ("Deductible: $500 per year.", demo_member, PStr "What is my deductible?")
  /\ fst (google_rag_query.get_rag_prompt other_services "corpus_config.json"
            "other-key.json" (mkConfig "SG.other") 7 (world_of {[7 := other_submission]}))
     = fst (google_rag_query.get_rag_prompt services_up "corpus_config.json" "key.json"
              demo_config 1 (world_of {[1 := demo_new]})).
Proof.
  assert (H0 : format_dict services_up demo_member = format_dict other_services demo_member)
    by reflexivity.
  assert (H1 : fst (prompt_inputs services_up "corpus_config.json" "key.json" demo_config 1
                      (world_of {[1 := demo_new]}))
               = Ok ("Deductible: $500 per year.", demo_member,
                     PStr "What is my deductible?")) by (vm_compute; reflexivity).
  assert (H2 : fst (prompt_inputs other_services "corpus_config.json" "other-key.json"
                      (mkConfig "SG.other") 7 (world_of {[7 := other_submission]}))
               = Ok ("Deductible: $500 per year.", demo_member,
                     PStr "What is my deductible?")) by (vm_compute; reflexivity).
  repeat (split; [assumption|]).
  exact (proj2 (prompt_is_a_function_of_its_inputs services_up other_services
                  "corpus_config.json" "corpus_config.json" "key.json" "other-key.json"
                  demo_config (mkConfig "SG.other") 1 7 (world_of {[1 := demo_new]})
                  (world_of {[7 := other_submission]}) "Deductible: $500 per year."
                  demo_member (PStr "What is my deductible?") H0 H1 H2)).
Defined.

(** * Further properties of the code *)

(** ** google_rag_query.py: records, member lookup, prompt and reply *)

Lemma process_values_lookup names :
  NoDup names ->
  forall values i acc,
    (i + length values <= length names)%nat ->
    exists d,
      google_rag_query.process_values i values names acc = Some d
      /\ (forall j name v,
             nth_error names (i + j) = Some name -> nth_error values j = Some v ->
             dict_get name d = Some v)
      /\ (forall name,
             (forall j, (j < length values)%nat -> nth_error names (i + j) <> Some name) ->
             dict_get name d = dict_get name acc).
Proof.
  intros Hnd. induction values as [|v0 rest IH]; intros i acc Hlen; simpl.
  - exists acc. split; [reflexivity|]. split; [|reflexivity].
    intros j name v _ Hv. destruct j; discriminate.
  - simpl in Hlen. destruct (nth_error names i) as [n0|] eqn:Hn0.
    2: { apply nth_error_None in Hn0. lia. }
    destruct (IH (S i) (dict_set n0 v0 acc)) as (d & Hd & Hget & Hkeep); [lia|].
    exists d. split; [exact Hd|]. split.
    + intros j name v Hname Hv. destruct j as [|j].
      * simpl in Hv. injection Hv as <-.
        rewrite Nat.add_0_r, Hn0 in Hname. injection Hname as <-.
        rewrite Hkeep; [apply dict_get_set_eq|].
        intros j Hj Hc. rewrite <- Hn0 in Hc.
        apply (proj1 (NoDup_nth_error names) (proj1 (NoDup_ListNoDup names) Hnd)) in Hc;
          [lia|].
        apply nth_error_Some. rewrite Hc, Hn0. discriminate.
      * simpl in Hv. apply (Hget j name v); [|exact Hv].
        now replace (S i + j)%nat with (i + S j)%nat by lia.
    + intros name Hnot. rewrite Hkeep.
      * apply dict_get_set_ne. intros ->. apply (Hnot 0%nat); [lia|].
        now rewrite Nat.add_0_r.
      * intros j Hj. replace (S i + j)%nat with (i + S j)%nat by lia.
        apply Hnot. lia.
Qed.

(** [process_record] on a record with distinct column names, at least as
    many as the record has values, returns a dict that maps the name of
    every column to the value in that column. *)
Theorem process_record_maps_names_to_values names values :
  NoDup names ->
  (length values <= length names)%nat ->
  exists d,
    google_rag_query.process_record (Some values) names = Some d
    /\ forall i name v,
        nth_error names i = Some name -> nth_error values i = Some v ->
        dict_get name d = Some v.
Proof.
  intros Hnd Hlen.
  destruct (process_values_lookup names Hnd values 0 [] Hlen) as (d & Hd & Hget & _).
  exists d. split; [exact Hd|]. intros i name v. apply (Hget i).
Qed.

(** The member record of the examples. *)
Lemma process_record_maps_names_to_values_witness :
  exists d,
    google_rag_query.process_record
      (Some [PStr "ada@example.org"; PStr "Ada Lovelace"; PStr "M-17"])
      ["Email_Address"; "Member_Name"; "Brand_Member_ID"] = Some d
    /\ dict_get "Brand_Member_ID" d = Some (PStr "M-17").
Proof.
  destruct (process_record_maps_names_to_values
              ["Email_Address"; "Member_Name"; "Brand_Member_ID"]
              [PStr "ada@example.org"; PStr "Ada Lovelace"; PStr "M-17"])
    as (d & Hd & Hget).
  - repeat (constructor; [rewrite ?elem_of_cons, elem_of_nil; intuition discriminate|]).
    constructor.
  - simpl. lia.
  - exists d. split; [exact Hd|]. now apply (Hget 2%nat).
Defined.

Lemma get_member_data_run E record_dict w email fname lname :
  identifies record_dict email fname lname ->
  google_rag_query.get_member_data E record_dict w
  = (Ok match mysql_execute E
                (google_rag_query.member_statement email (PStr ((fname ++ " ") ++ lname)))
                (Member_Data w) with
        | Some (names, Some record) => record_dict_of record names
        | _ => []
        end, w).
Proof.
  intros (He & Hf & Hl & dob & Hd). unfold google_rag_query.get_member_data.
  unfold bind, lift, get_world. rewrite He, Hf. simpl. rewrite Hl. simpl. rewrite Hd.
  destruct (mysql_execute E _ _) as [[names [record|]]|]; try reflexivity.
  unfold record_dict_of. now destruct (google_rag_query.process_record _ _).
Qed.

(** [get_member_data] sends the database one statement, with the
    submitter's email and composed name put between quotes as they are,
    and makes of the answer what follows.  For a submission whose names
    are strings it raises nothing and changes nothing: a statement that
    fails and a statement that selects no row both give the empty dict,
    and a row handed back by [fetchone] gives the dict of that row under
    the cursor's column names.  Which row matches is the server's
    reading of the statement text. *)
Theorem member_lookup_follows_the_server E record_dict w email fname lname :
  identifies record_dict email fname lname ->
  (exists known_info,
      google_rag_query.get_member_data E record_dict w = (Ok known_info, w))
  /\ (mysql_execute E
        (google_rag_query.member_statement email (PStr ((fname ++ " ") ++ lname)))
        (Member_Data w) = None ->
      google_rag_query.get_member_data E record_dict w = (Ok [], w))
  /\ (forall names,
         mysql_execute E
           (google_rag_query.member_statement email (PStr ((fname ++ " ") ++ lname)))
           (Member_Data w) = Some (names, None) ->
         google_rag_query.get_member_data E record_dict w = (Ok [], w))
  /\ (forall names record,
         mysql_execute E
           (google_rag_query.member_statement email (PStr ((fname ++ " ") ++ lname)))
           (Member_Data w) = Some (names, Some record) ->
         google_rag_query.get_member_data E record_dict w
         = (Ok (record_dict_of record names), w)).
Proof.
  intros Hid. rewrite (get_member_data_run _ _ _ _ _ _ Hid).
  split; [eauto|]. split; [|split].
  - now intros ->.
  - now intros names ->.
  - now intros names record ->.
Qed.

(** The member of the examples is found for the submitter of
    [demo_new]; a statement that the apostrophe of a name breaks gives
    the empty dict. *)
Lemma member_lookup_follows_the_server_witness :
  google_rag_query.get_member_data services_up (submission_info demo_new) (world_of ∅)
  = (Ok demo_member, world_of ∅)
  /\ google_rag_query.get_member_data services_up
       (submission_info
          (new_submission 2 (PStr "Claim") (PStr "Miles") (PStr "O'Brien")
             (PStr "miles@example.org") (PStr "1990-01-01") (PStr "Where is my claim?")
             (PStr "2024-07-18 09:00:00")))
       (world_of ∅)
     = (Ok [], world_of ∅).
Proof.
  split.
  - apply (proj2 (proj2 (proj2
             (member_lookup_follows_the_server services_up (submission_info demo_new)
                (world_of ∅) (PStr "ada@example.org") "Ada" "Lovelace"
                ltac:(repeat split; eexists; reflexivity))))
             ["Email_Address"; "Member_Name"; "Brand_Member_ID"]
             [PStr "ada@example.org"; PStr "Ada Lovelace"; PStr "M-17"]).
    vm_compute. reflexivity.
  - apply (proj1 (proj2
             (member_lookup_follows_the_server services_up
                (submission_info
                   (new_submission 2 (PStr "Claim") (PStr "Miles") (PStr "O'Brien")
                      (PStr "miles@example.org") (PStr "1990-01-01")
                      (PStr "Where is my claim?") (PStr "2024-07-18 09:00:00")))
                (world_of ∅) (PStr "miles@example.org") "Miles" "O'Brien"
                ltac:(repeat split; eexists; reflexivity)))).
    vm_compute. reflexivity.
Defined.

Lemma corpus_ready_run E cp cred w {A} (k : list (string * pyval) -> M A) :
  corpus_ready E cp cred ->
  exists corpus_config,
    read_json_file E cp = Some corpus_config
    /\ (corpus_config <~ google_rag_query.load_json_config E cp ;;
        project_id <~ lift (py_item "project_id" corpus_config) ;;
        location <~ lift (py_item "location" corpus_config) ;;
        google_rag_query.initialize_vertex_ai E project_id location cred ;;;
        k corpus_config) w
       = k corpus_config w.
Proof.
  intros (cc & pid & loc & Hf & Hp & Hl & Hv). exists cc. split; [exact Hf|].
  erewrite bind_ok; [|unfold google_rag_query.load_json_config; rewrite Hf; reflexivity].
  erewrite bind_ok; [|unfold lift; rewrite Hp; reflexivity].
  erewrite bind_ok; [|unfold lift; rewrite Hl; reflexivity].
  erewrite bind_ok;
    [|unfold google_rag_query.initialize_vertex_ai; rewrite Hv; reflexivity].
  reflexivity.
Qed.

Lemma rag_fetch_missing id w :
  contact_queue w !! id = None ->
  google_rag_query.fetch_submission_details id w = (Ok [], w).
Proof.
  intros H. unfold google_rag_query.fetch_submission_details, bind, get_world.
  now rewrite H.
Qed.

(** For a contact id that has no row, [fetch_submission_details] of the
    retrieval script hands back the empty dict, and [get_rag_prompt] stops
    at its first subscript with [KeyError: 'Contact_Question'], before the
    member lookup and the corpus query; [clicked_get_openai] passes the
    error on and writes nothing.  [get_rag_response] looks the member up
    first and stops there, with [KeyError: 'Contact_Email']. *)
Theorem prompt_for_unknown_submission E cp cred cfg id w :
  corpus_ready E cp cred ->
  contact_queue w !! id = None ->
  google_rag_query.get_rag_prompt E cp cred cfg id w
  = (Raise (KeyError "Contact_Question"), w)
  /\ (forall submission_id details,
         Contact_ID details = id ->
         clicked_get_openai E cfg cp cred submission_id details w
         = (Raise (KeyError "Contact_Question"), w))
  /\ (forall gen,
         google_rag_query.get_rag_response E gen cp cred cfg id w
         = (Raise (KeyError "Contact_Email"), w)).
Proof.
  intros Hready Hnone.
  assert (Hp : google_rag_query.get_rag_prompt E cp cred cfg id w
               = (Raise (KeyError "Contact_Question"), w)).
  { unfold google_rag_query.get_rag_prompt.
    destruct (corpus_ready_run E cp cred w
                (fun corpus_config =>
                   submission_info <~ google_rag_query.fetch_submission_details id ;;
                   myquestion <~ lift (py_item "Contact_Question" submission_info) ;;
                   known_info <~ google_rag_query.get_member_data E submission_info ;;
                   query_text <~ lift (py_item "Contact_Question" submission_info) ;;
                   answer <~ google_rag_query.query_corpus E corpus_config cred query_text ;;
                   ret (google_rag_query.full_prompt E google_rag_query.system_list
                          (google_rag_query.first_context_text answer) known_info
                          myquestion))
                Hready) as (cc & _ & ->).
    now rewrite (bind_ok _ _ _ _ _ (rag_fetch_missing id w Hnone)). }
  split; [exact Hp|]. split.
  - intros sid details <-. unfold clicked_get_openai. now apply bind_raise.
  - intros gen. unfold google_rag_query.get_rag_response.
    destruct (corpus_ready_run E cp cred w
                (fun corpus_config =>
                   submission_info <~ google_rag_query.fetch_submission_details id ;;
                   known_info <~ google_rag_query.get_member_data E submission_info ;;
                   myquestion <~ lift (py_item "Contact_Question" submission_info) ;;
                   pa <~ google_rag_query.enhanced_query_corpus E gen corpus_config cred
                           known_info myquestion ;;
                   let '(prompt, answer) := pa in
                   ret (prompt, google_rag_query.candidates_loop answer EmptyString))
                Hready) as (cc & _ & ->).
    now rewrite (bind_ok _ _ _ _ _ (rag_fetch_missing id w Hnone)).
Qed.

(** Contact id 5 in a table that has no such row. *)
Lemma prompt_for_unknown_submission_witness :
  google_rag_query.get_rag_prompt services_up "corpus_config.json" "key.json" demo_config 5
    (world_of {[1 := demo_new]})
  = (Raise (KeyError "Contact_Question"), world_of {[1 := demo_new]}).
Proof.
  apply (proj1 (prompt_for_unknown_submission services_up "corpus_config.json" "key.json"
                  demo_config 5 (world_of {[1 := demo_new]})
                  ltac:(do 3 eexists; repeat split; reflexivity) ltac:(reflexivity))).
Defined.

Lemma readonly_enhanced_query_corpus E gen corpus_config cred known_info myquestion :
  readonly (google_rag_query.enhanced_query_corpus E gen corpus_config cred known_info
              myquestion).
Proof.
  unfold google_rag_query.enhanced_query_corpus.
  apply readonly_bind; [auto with callbacks | intros ?].
  apply readonly_bind; [auto with callbacks | intros ?]. auto with callbacks.
Qed.

Lemma readonly_get_rag_response E gen cp cred cfg id :
  readonly (google_rag_query.get_rag_response E gen cp cred cfg id).
Proof.
  unfold google_rag_query.get_rag_response, google_rag_query.load_json_config,
    google_rag_query.initialize_vertex_ai.
  apply readonly_bind; [auto with callbacks | intros ?].
  apply readonly_bind; [auto with callbacks | intros ?].
  apply readonly_bind; [auto with callbacks | intros ?].
  apply readonly_bind; [destruct (vertexai_init _ _ _ _); auto with callbacks | intros ?].
  apply readonly_bind; [apply readonly_rag_fetch | intros ?].
  apply readonly_bind; [apply readonly_get_member_data | intros ?].
  apply readonly_bind; [auto with callbacks | intros ?].
  apply readonly_bind; [apply readonly_enhanced_query_corpus | intros [prompt answer]].
  auto with callbacks.
Qed.

(** Neither [get_rag_prompt] nor [get_rag_response] changes anything:
    whatever they return or raise, the table, the session, the mail sent
    and the telemetry are what they were. *)
Theorem retrieval_script_only_reads E gen cp cred cfg id w :
  snd (google_rag_query.get_rag_prompt E cp cred cfg id w) = w
  /\ snd (google_rag_query.get_rag_response E gen cp cred cfg id w) = w.
Proof.
  split; [apply readonly_get_rag_prompt | apply readonly_get_rag_response].
Qed.

(** Of the passages the corpus service returns, [get_rag_prompt] puts
    the text of the first into the prompt and drops the others. *)
Theorem prompt_takes_first_passage E cp cred cfg id w r info name c others :
  retrieval_ready E cp cred id w r info name ->
  rag_retrieval_query E name (Contact_Question r) google_rag_query.similarity_top_k
                      google_rag_query.vector_distance_threshold = Some (c :: others) ->
  google_rag_query.get_rag_prompt E cp cred cfg id w
  = (Ok (google_rag_query.full_prompt E google_rag_query.system_list (text c) info
           (Contact_Question r)), w).
Proof.
  intros Hready Hq.
  exact (get_rag_prompt_run E cp cred cfg id w r info name (c :: others) Hready Hq).
Qed.

(** A corpus that returns two passages. *)
Lemma prompt_takes_first_passage_witness :
  google_rag_query.get_rag_prompt other_services "corpus_config.json" "other-key.json"
    demo_config 7 (world_of {[7 := other_submission]})
  = (Ok (google_rag_query.full_prompt other_services google_rag_query.system_list
           "Deductible: $500 per year." demo_member (PStr "What is my deductible?")),
     world_of {[7 := other_submission]}).
Proof.
  apply (prompt_takes_first_passage other_services "corpus_config.json" "other-key.json"
           demo_config 7 (world_of {[7 := other_submission]}) other_submission demo_member
           (PStr "projects/demo/ragCorpora/1")
           (mkContext "Deductible: $500 per year." (8 # 10))
           [mkContext "Copay: $20 per visit." (6 # 10)]).
  - exists [("corpus_name", PStr "projects/demo/ragCorpora/1"); ("project_id", PStr "demo");
            ("location", PStr "us-central1")], (PStr "demo"), (PStr "us-central1").
    repeat (split; [reflexivity|]). vm_compute. reflexivity.
  - reflexivity.
Defined.

Lemma get_rag_response_run E gen cp cred cfg id w r info name answer :
  retrieval_ready E cp cred id w r info name ->
  gen "gemini-1.5-pro-001" name google_rag_query.similarity_top_k
      google_rag_query.vector_distance_threshold google_rag_query.system_list
      [google_rag_query.enhanced_prompt E info (Contact_Question r)] = Some answer ->
  google_rag_query.get_rag_response E gen cp cred cfg id w
  = (Ok (String.concat " " google_rag_query.system_list
         ++ google_rag_query.enhanced_prompt E info (Contact_Question r),
         google_rag_query.candidates_loop answer EmptyString), w).
Proof.
  intros (cc & pid & loc & Hf & Hp & Hl & Hn & Hv & Hr & Hm) Hg.
  unfold google_rag_query.get_rag_response.
  erewrite bind_ok; [|unfold google_rag_query.load_json_config; rewrite Hf; reflexivity].
  erewrite bind_ok; [|unfold lift; rewrite Hp; reflexivity].
  erewrite bind_ok; [|unfold lift; rewrite Hl; reflexivity].
  erewrite bind_ok;
    [|unfold google_rag_query.initialize_vertex_ai; rewrite Hv; reflexivity].
  erewrite bind_ok; [|apply rag_fetch_run; exact Hr].
  erewrite bind_ok; [|apply readonly_run; [apply readonly_get_member_data | exact Hm]].
  erewrite bind_ok; [|reflexivity].
  erewrite bind_ok;
    [|unfold google_rag_query.enhanced_query_corpus;
      erewrite bind_ok; [|unfold lift; rewrite Hn; reflexivity];
      erewrite bind_ok; [|simpl; rewrite Hg; reflexivity];
      reflexivity].
  reflexivity.
Qed.

(** The reply of [get_rag_response] comes from the first candidate of
    the model's answer alone: it is the text of that candidate's last
    part when its role is ["model"], and the empty string when the role is
    another or the answer has no candidate.  Further candidates and
    earlier parts are dropped.  The prompt returned with it is the joined
    system list and the f-string of member data and question. *)
Theorem rag_reply_is_last_part_of_first_candidate E gen cp cred cfg id w r info name answer :
  retrieval_ready E cp cred id w r info name ->
  gen "gemini-1.5-pro-001" name google_rag_query.similarity_top_k
      google_rag_query.vector_distance_threshold google_rag_query.system_list
      [google_rag_query.enhanced_prompt E info (Contact_Question r)] = Some answer ->
  exists reply,
    google_rag_query.get_rag_response E gen cp cred cfg id w
    = (Ok (String.concat " " google_rag_query.system_list
           ++ google_rag_query.enhanced_prompt E info (Contact_Question r), reply), w)
    /\ (answer = [] -> reply = EmptyString)
    /\ (forall c others,
           answer = c :: others -> google_rag_query.candidate_role c <> "model" ->
           reply = EmptyString)
    /\ (forall parts last others,
           answer = google_rag_query.mkCandidate "model" (parts ++ [last]) :: others ->
           reply = last).
Proof.
  intros Hready Hg. eexists. split; [exact (get_rag_response_run _ _ _ _ _ _ _ _ _ _ _ Hready Hg)|].
  split; [|split].
  - now intros ->.
  - intros c others -> Hrole. simpl.
    destruct (String.eqb _ _) eqn:Heq; [|reflexivity].
    apply String.eqb_eq in Heq. contradiction.
  - intros parts last others ->. simpl. now rewrite fold_left_app.
Qed.

(** An answer with two candidates, the first in two parts. *)
Lemma rag_reply_is_last_part_of_first_candidate_witness :
  google_rag_query.get_rag_response services_up (demo_model (Some demo_candidates))
    "corpus_config.json" "key.json" demo_config 1 (world_of {[1 := demo_new]})
  = (Ok (String.concat " " google_rag_query.system_list
         ++ google_rag_query.enhanced_prompt services_up demo_member
              (PStr "What is my deductible?"), "is $500."),
     world_of {[1 := demo_new]}).
Proof.
  destruct (rag_reply_is_last_part_of_first_candidate services_up
              (demo_model (Some demo_candidates)) "corpus_config.json" "key.json"
              demo_config 1 (world_of {[1 := demo_new]}) demo_new demo_member
              (PStr "projects/demo/ragCorpora/1") demo_candidates)
    as (reply & Hrun & _ & _ & Hlast).
  - exists [("corpus_name", PStr "projects/demo/ragCorpora/1"); ("project_id", PStr "demo");
            ("location", PStr "us-central1")], (PStr "demo"), (PStr "us-central1").
    repeat (split; [reflexivity|]). vm_compute. reflexivity.
  - reflexivity.
  - rewrite Hrun.
    now rewrite (Hlast ["Your deductible"] "is $500."
                   [google_rag_query.mkCandidate "model" ["It is $750."]] eq_refl).
Defined.

(** ** contact_helpdesk.py: the database writes *)

(** Writing to a submission id that has no row: [update_submission]
    returns as if it had written and changes nothing, while
    [update_submission_payload] raises [ValueError] with the id in its
    message, and changes nothing either. *)
Theorem writes_to_unknown_submission E cfg id field_name input_value key value w :
  contact_queue w !! id = None ->
  is_column field_name = true ->
  update_submission cfg id field_name input_value w = (Ok tt, w)
  /\ update_submission_payload E cfg id key value w
     = (Raise (ValueError ("No submission found with ID: " ++ pretty id)), w).
Proof.
  intros Hnone Hcol. split.
  - unfold update_submission. rewrite Hcol. unfold bind, get_world. now rewrite Hnone.
  - unfold update_submission_payload, bind, get_world. now rewrite Hnone.
Qed.

(** Submission 9 in a table that holds submission 1 only. *)
Lemma writes_to_unknown_submission_witness :
  update_submission demo_config 9 "Status" (PStr "Closed") (world_of {[1 := demo_new]})
  = (Ok tt, world_of {[1 := demo_new]})
  /\ update_submission_payload services_up demo_config 9 "llm" (JStr "openai")
       (world_of {[1 := demo_new]})
     = (Raise (ValueError ("No submission found with ID: " ++ pretty 9)),
        world_of {[1 := demo_new]}).
Proof.
  apply (writes_to_unknown_submission services_up demo_config 9 "Status" (PStr "Closed")
           "llm" (JStr "openai") (world_of {[1 := demo_new]})); reflexivity.
Defined.

(** When [update_submission_payload] raises, it has written nothing: the
    world is the one it was given.  It raises [ValueError] exactly for an
    id without a row, and otherwise only on a payload column it cannot
    merge into: [JSONDecodeError] for text that is not JSON, [TypeError]
    for a column or a JSON value that is not an object. *)
Theorem payload_merge_fails_without_writing E cfg id key value w e w' :
  update_submission_payload E cfg id key value w = (Raise e, w') ->
  w' = w
  /\ ((contact_queue w !! id = None
       /\ e = ValueError ("No submission found with ID: " ++ pretty id))
      \/ (exists r, contact_queue w !! id = Some r /\ stored_payload E r = None
                    /\ (e = JSONDecodeError \/ e = TypeError))).
Proof.
  intros Hrun. destruct (contact_queue w !! id) as [r|] eqn:Hr.
  - destruct (stored_payload E r) as [d|] eqn:Hd.
    { rewrite (update_submission_payload_run E cfg id key value w r d Hr Hd) in Hrun.
      discriminate. }
    unfold update_submission_payload in Hrun. unfold bind at 1 in Hrun.
    unfold get_world in Hrun. rewrite Hr in Hrun.
    pose proof Hd as Hnone.
    unfold stored_payload in Hd. destruct (truthy (Payload r)); [|discriminate].
    unfold bind, lift in Hrun.
    destruct (py_json_loads E (Payload r)) as [j|e0] eqn:Hl.
    + destruct j; try discriminate Hd; simpl in Hrun; injection Hrun as <- <-;
        (split; [reflexivity|]); right; exists r; auto.
    + injection Hrun as <- <-. split; [reflexivity|]. right. exists r.
      split; [reflexivity|]. split; [exact Hnone|].
      unfold py_json_loads in Hl.
      destruct (Payload r) as [|s|z]; [injection Hl as <-; auto | | injection Hl as <-; auto].
      destruct (json_loads E s); [discriminate|]. injection Hl as <-. auto.
  - unfold update_submission_payload, bind, get_world in Hrun. rewrite Hr in Hrun.
    injection Hrun as <- <-. split; [reflexivity|]. now left.
Qed.

(** A payload column that holds a JSON array. *)
Lemma payload_merge_fails_without_writing_witness :
  update_submission_payload services_up demo_config 1 "llm" (JStr "openai")
    (world_of {[1 := with_Payload (PStr "[1, 2]") demo_new]})
  = (Raise TypeError, world_of {[1 := with_Payload (PStr "[1, 2]") demo_new]})
  /\ stored_payload services_up (with_Payload (PStr "[1, 2]") demo_new) = None.
Proof.
  assert (Hrun : update_submission_payload services_up demo_config 1 "llm" (JStr "openai")
                   (world_of {[1 := with_Payload (PStr "[1, 2]") demo_new]})
                 = (Raise TypeError, world_of {[1 := with_Payload (PStr "[1, 2]") demo_new]}))
    by (vm_compute; reflexivity).
  split; [exact Hrun|].
  destruct (payload_merge_fails_without_writing _ _ _ _ _ _ _ _ Hrun)
    as [_ [[Hnone _] | (r & Hr & Hd & _)]].
  - discriminate Hnone.
  - injection Hr as <-. exact Hd.
Defined.

(** [update_submission] on an existing row and a column of the table
    rewrites that one column of that one row: read back through the dict
    of the retrieval script, the column holds the new value and every other
    column, the key among them, holds what it held; other rows are not
    touched. *)
Theorem update_submission_writes_one_column cfg id field_name input_value w r :
  contact_queue w !! id = Some r ->
  is_column field_name = true ->
  exists r',
    update_submission cfg id field_name input_value w
    = (Ok tt, with_queue (<[id := r']> (contact_queue w)) w)
    /\ google_rag_query.column_value field_name google_rag_query.queue_field_names
         (google_rag_query.queue_record r') = Some input_value
    /\ (forall other,
           other <> field_name ->
           google_rag_query.column_value other google_rag_query.queue_field_names
             (google_rag_query.queue_record r')
           = google_rag_query.column_value other google_rag_query.queue_field_names
               (google_rag_query.queue_record r))
    /\ (forall k, k <> id -> <[id := r']> (contact_queue w) !! k = contact_queue w !! k).
Proof.
  intros Hr Hcol. destruct (set_column_total field_name input_value r Hcol) as [r' Hs].
  exists r'. split; [exact (update_submission_run _ _ _ _ _ _ _ Hr Hs)|].
  split; [|split; [|intros k Hk; now apply lookup_insert_ne]].
  - destruct r. unfold set_column in Hs.
    repeat match type of Hs with
           | context [String.eqb field_name ?c] =>
               destruct (String.eqb field_name c) eqn:Heq;
               [apply String.eqb_eq in Heq; subst field_name; injection Hs as <-;
                reflexivity|]; clear Heq
           end.
    discriminate.
  - intros other Hother. destruct r. unfold set_column in Hs.
    repeat match type of Hs with
           | context [String.eqb field_name ?c] =>
               destruct (String.eqb field_name c) eqn:Heq;
               [apply String.eqb_eq in Heq; subst field_name; injection Hs as <-;
                unfold google_rag_query.column_value, google_rag_query.queue_field_names,
                  google_rag_query.column_index;
                repeat match goal with
                       | |- context [String.eqb ?n other] =>
                           destruct (String.eqb n other) eqn:Hn;
                           [apply String.eqb_eq in Hn; subst other;
                            try congruence; reflexivity|]; clear Hn
                       end;
                reflexivity|]; clear Heq
           end.
    discriminate.
Qed.

(** The status of a new submission is set; its question stays. *)
Lemma update_submission_writes_one_column_witness :
  exists r',
    update_submission demo_config 1 "Status" (PStr "Processed") (world_of {[1 := demo_new]})
    = (Ok tt, with_queue (<[1 := r']> (contact_queue (world_of {[1 := demo_new]})))
                         (world_of {[1 := demo_new]}))
    /\ google_rag_query.column_value "Status" google_rag_query.queue_field_names
         (google_rag_query.queue_record r') = Some (PStr "Processed")
    /\ google_rag_query.column_value "Contact_Question" google_rag_query.queue_field_names
         (google_rag_query.queue_record r') = Some (PStr "What is my deductible?").
Proof.
  assert (Hr : contact_queue (world_of {[1 := demo_new]}) !! 1 = Some demo_new)
    by reflexivity.
  destruct (update_submission_writes_one_column demo_config 1 "Status" (PStr "Processed")
              (world_of {[1 := demo_new]}) demo_new Hr eq_refl)
    as (r' & Hrun & Hnew & Hold & _).
  exists r'. split; [exact Hrun|]. split; [exact Hnew|].
  rewrite (Hold "Contact_Question"); [reflexivity | discriminate].
Defined.

Lemma dict_set_twice {V} k (v1 v2 : V) (d : list (string * V)) :
  dict_set k v2 (dict_set k v1 d) = dict_set k v2 d.
Proof.
  induction d as [|[k' v'] d IH]; simpl.
  - now rewrite String.eqb_refl.
  - destruct (String.eqb k k') eqn:Heq; simpl; rewrite Heq; [reflexivity|].
    now rewrite IH.
Qed.

Lemma dict_set_length_mem {V} k (v : V) (d : list (string * V)) :
  dict_mem k d = true -> length (dict_set k v d) = length d.
Proof.
  unfold dict_mem. induction d as [|[k' v'] d IH]; simpl; [discriminate|].
  destruct (String.eqb k k'); simpl; [reflexivity|]. intros H. now rewrite IH.
Qed.

(** Merging a value under a key and then another value under the same
    key, on a payload that is empty or a JSON object [d]: both merges
    succeed, and the payload left in the row is the text of a dict in
    which the key maps to the second value, every other key maps to what
    it mapped to in [d], and which has as many entries as the dict after
    the first merge (the second merge adds none).  It is the same row that
    merging the second value alone leaves.  (The codec has to read back
    what the first merge wrote.) *)
Theorem merge_same_key_keeps_last_value E cfg id key v1 v2 w r d :
  contact_queue w !! id = Some r ->
  stored_payload E r = Some d ->
  codec_reads_back E (JObj (dict_set key v1 d)) ->
  exists w1 w2 d2,
    update_submission_payload E cfg id key v1 w = (Ok tt, w1)
    /\ update_submission_payload E cfg id key v2 w1 = (Ok tt, w2)
    /\ contact_queue w2 !! id = Some (with_Payload (PStr (json_dumps E (JObj d2))) r)
    /\ dict_get key d2 = Some v2
    /\ (forall k, k <> key -> dict_get k d2 = dict_get k d)
    /\ length d2 = length (dict_set key v1 d)
    /\ update_submission_payload E cfg id key v2 w = (Ok tt, w2).
Proof.
  intros Hr Hd Hc.
  pose proof (update_submission_payload_run E cfg id key v1 w r d Hr Hd) as H1.
  set (r1 := with_Payload (PStr (json_dumps E (JObj (dict_set key v1 d)))) r) in *.
  set (w1 := with_queue (<[id := r1]> (contact_queue w)) w) in *.
  assert (Hr1 : contact_queue w1 !! id = Some r1) by apply lookup_insert_eq.
  assert (Hd1 : stored_payload E r1 = Some (dict_set key v1 d)).
  { eapply stored_payload_written; [exact Hc | reflexivity]. }
  pose proof (update_submission_payload_run E cfg id key v2 w1 r1 _ Hr1 Hd1) as H2.
  exists w1. eexists. exists (dict_set key v2 (dict_set key v1 d)).
  split; [exact H1|]. split; [exact H2|].
  split; [apply lookup_insert_eq|]. split; [apply dict_get_set_eq|].
  split; [|split].
  - intros k Hk. rewrite !dict_get_set_ne by congruence. reflexivity.
  - apply dict_set_length_mem. unfold dict_mem. now rewrite dict_get_set_eq.
  - rewrite (update_submission_payload_run E cfg id key v2 w r d Hr Hd).
    subst w1. rewrite with_queue_twice, contact_queue_with_queue, insert_insert_eq.
    now rewrite dict_set_twice.
Qed.

(** The backend tag merged twice into the payload of a new submission. *)
Lemma merge_same_key_keeps_last_value_witness :
  exists w1 w2 d2,
    update_submission_payload services_up demo_config 1 "llm" (JStr "gemini")
      (world_of {[1 := demo_new]}) = (Ok tt, w1)
    /\ update_submission_payload services_up demo_config 1 "llm" (JStr "openai") w1
       = (Ok tt, w2)
    /\ contact_queue w2 !! 1
       = Some (with_Payload (PStr (json_dumps services_up (JObj d2))) demo_new)
    /\ dict_get "llm" d2 = Some (JStr "openai")
    /\ length d2 = 1%nat.
Proof.
  destruct (merge_same_key_keeps_last_value services_up demo_config 1 "llm" (JStr "gemini")
              (JStr "openai") (world_of {[1 := demo_new]}) demo_new [])
    as (w1 & w2 & d2 & H1 & H2 & Hrow & Hget & _ & Hlen & _).
  - reflexivity.
  - reflexivity.
  - split; [vm_compute; discriminate | vm_compute; reflexivity].
  - exists w1, w2, d2. auto.
Defined.

(** ** contact_helpdesk.py: the callbacks *)

(** When the answer has been generated but the payload column of the
    submission holds text that is not JSON, [clicked_get_openai] raises
    [JSONDecodeError] at its first payload merge, after the three column
    writes: the response, the prompt and the status Processed stay
    stored, the payload keeps its text, and no success message is shown. *)
Theorem fetch_answer_stops_at_unreadable_payload
        E cfg cp cred id details w r s prompt response trace_id :
  fst (google_rag_query.get_rag_prompt E cp cred cfg (Contact_ID details) w) = Ok prompt ->
  send_baserun_openai_query E cfg prompt = Some (response, trace_id) ->
  contact_queue w !! id = Some r ->
  Payload r = PStr s ->
  s <> EmptyString ->
  json_loads E s = None ->
  clicked_get_openai E cfg cp cred id details w
  = (Raise JSONDecodeError,
     with_queue (<[id := processed prompt response r]> (contact_queue w)) w).
Proof.
  intros Hp Hg Hr Hs Hne Hl. unfold clicked_get_openai.
  rewrite (bind_ok _ _ _ _ _ (readonly_run _ _ _ (readonly_get_rag_prompt E _ _ _ _) Hp)).
  assert (Hq : openai_query E cfg prompt w = (Ok (response, trace_id), w)).
  { unfold openai_query. now rewrite Hg. }
  rewrite (bind_ok _ _ _ _ _ Hq).
  erewrite bind_ok;
    [| eapply update_submission_run; [exact Hr | apply set_column_Contact_Response]].
  erewrite bind_ok;
    [| eapply update_submission_run;
       [rewrite contact_queue_with_queue; apply lookup_insert_eq
       | apply set_column_Final_Prompt]].
  rewrite with_queue_twice, contact_queue_with_queue, insert_insert_eq.
  erewrite bind_ok;
    [| eapply update_submission_run;
       [rewrite contact_queue_with_queue; apply lookup_insert_eq
       | apply set_column_Status]].
  rewrite with_queue_twice, contact_queue_with_queue, insert_insert_eq.
  apply bind_raise.
  apply (merge_on_unreadable_payload_raises_always E cfg id "llm" (JStr "openai") _
           (processed prompt response r) s);
    [apply lookup_insert_eq | exact Hs | exact Hne | exact Hl].
Qed.

(** A new submission whose payload column holds text that is not JSON. *)
Lemma fetch_answer_stops_at_unreadable_payload_witness :
  clicked_get_openai services_up demo_config "corpus_config.json" "key.json" 1
    demo_unreadable (world_of {[1 := demo_unreadable]})
  = (Raise JSONDecodeError,
     with_queue (<[1 := processed demo_prompt "Your deductible is $500" demo_unreadable]>
                   (contact_queue (world_of {[1 := demo_unreadable]})))
                (world_of {[1 := demo_unreadable]})).
Proof.
  apply (fetch_answer_stops_at_unreadable_payload services_up demo_config
           "corpus_config.json" "key.json" 1 demo_unreadable
           (world_of {[1 := demo_unreadable]}) demo_unreadable "{not json" demo_prompt
           "Your deductible is $500" "trace-1").
  - vm_compute. reflexivity.
  - reflexivity.
  - reflexivity.
  - reflexivity.
  - discriminate.
  - vm_compute. reflexivity.
Defined.

Lemma decode_payload_ok E details w :
  text_or_empty (Payload details) ->
  exists j w1,
    decode_payload E details w = (Ok j, w1)
    /\ contact_queue w1 = contact_queue w
    /\ session_state w1 = session_state w
    /\ telemetry w1 = telemetry w
    /\ outbox w1 = outbox w.
Proof.
  intros Ht. unfold decode_payload, try_json, lift.
  destruct (truthy (Payload details)) eqn:Htr.
  - destruct Ht as [Ht | [s Hs]]; [congruence|]. rewrite Hs. simpl.
    destruct (json_loads E s); do 2 eexists; (split; [reflexivity|]); auto.
  - do 2 eexists. split; [reflexivity|]. auto.
Qed.

Lemma keeps_queue_if {A} (b : bool) (c1 c2 : M A) :
  keeps_queue c1 -> keeps_queue c2 -> keeps_queue (if b then c1 else c2).
Proof. now destruct b. Qed.

Lemma keeps_queue_ret {A} (a : A) : keeps_queue (ret a).
Proof. now intros w. Qed.

Lemma keeps_queue_raise {A} e : keeps_queue (@raise A e).
Proof. now intros w. Qed.

(** A review whose form values are in the session state stores the
    final response and the evaluation in the row, and nothing else: the
    status and the other columns are what they were, whatever the payload
    holds and whatever the telemetry calls that follow do. *)
Theorem review_stores_response_and_evaluation
        E cfg id details prompt w r response evaluation :
  contact_queue w !! id = Some r ->
  text_or_empty (Payload details) ->
  session_state w !! ("final_" ++ pretty id) = Some response ->
  session_state w !! ("slider_" ++ pretty id) = Some evaluation ->
  contact_queue (snd (clicked_submit_response E cfg id details prompt w))
  = <[id := with_Evaluation evaluation (with_Final_Response response r)]> (contact_queue w).
Proof.
  intros Hr Ht Hf Hs. unfold clicked_submit_response.
  destruct (decode_payload_ok E details w Ht) as (j & w1 & Hdec & Hq & Hss & _).
  rewrite (bind_ok _ _ _ _ _ Hdec).
  assert (Hg1 : session_get ("final_" ++ pretty id) w1 = (Ok response, w1)).
  { apply session_get_run. now rewrite Hss. }
  rewrite (bind_ok _ _ _ _ _ Hg1).
  erewrite bind_ok;
    [| eapply update_submission_run; [rewrite Hq; exact Hr | apply set_column_Final_Response]].
  erewrite bind_ok; [| apply session_get_run; simpl; rewrite Hss; exact Hs].
  erewrite bind_ok;
    [| eapply update_submission_run;
       [rewrite contact_queue_with_queue; apply lookup_insert_eq
       | apply set_column_Evaluation]].
  rewrite with_queue_twice, contact_queue_with_queue, insert_insert_eq, Hq.
  lazymatch goal with
  | |- contact_queue (snd (?c ?w0)) = _ =>
      assert (Hk : keeps_queue c); [|now rewrite (Hk w0)]
  end.
  apply keeps_queue_bind.
  { apply keeps_queue_if; [apply keeps_queue_ret | apply keeps_queue_raise]. }
  intros _. apply keeps_queue_bind; [apply keeps_queue_lift|]. intros has_llm.
  apply keeps_queue_bind.
  { apply keeps_queue_if; [|apply keeps_queue_ret].
    apply keeps_queue_bind; [apply keeps_queue_lift|]. intros ?. apply keeps_queue_ret. }
  intros is_openai. apply keeps_queue_bind.
  { apply keeps_queue_if; apply keeps_queue_send_telemetry. }
  intros _. apply keeps_queue_st_success.
Qed.

(** The review of the processed submission of the examples. *)
Lemma review_stores_response_and_evaluation_witness :
  contact_queue (snd (clicked_submit_response services_up demo_config 1 demo_answered
                        (PStr "prompt") demo_review_world))
  = <[1 := with_Evaluation (PInt 4)
             (with_Final_Response (PStr "Your deductible is $500.") demo_answered)]>
      (contact_queue demo_review_world).
Proof.
  apply (review_stores_response_and_evaluation services_up demo_config 1 demo_answered
           (PStr "prompt") demo_review_world demo_answered).
  - reflexivity.
  - right. eexists. reflexivity.
  - vm_compute. reflexivity.
  - vm_compute. reflexivity.
Defined.

Lemma return_template_needs_names details response :
  (forall s, Contact_Fname details <> PStr s) \/ (forall s, Contact_Lname details <> PStr s) ->
  return_template details response = Raise TypeError.
Proof.
  intros H. unfold return_template, py_add.
  destruct (Contact_Fname details) as [|f|z]; try reflexivity.
  destruct (Contact_Lname details) as [|l|z]; try reflexivity.
  exfalso. destruct H as [H|H]; eapply H; reflexivity.
Qed.

(** Closing a submission whose first or last name is not a string (a
    NULL column): the status Closed is written, then the template raises
    [TypeError] on the name, the mail helper is not called and no message
    is shown.  Through the page this cannot happen: drawing the form of
    such a row, once it has a final response, raises the same error
    before the close button exists. *)
Theorem close_without_a_name E cfg id details w r :
  contact_queue w !! id = Some r ->
  (forall s, Contact_Fname details <> PStr s) \/ (forall s, Contact_Lname details <> PStr s) ->
  clicked_close_submission E cfg id details w
  = (Raise TypeError, with_queue (<[id := with_Status (PStr "Closed") r]> (contact_queue w)) w)
  /\ (r = details -> truthy (Final_Response r) = true ->
      load_submission_details cfg id w = (Raise TypeError, w)).
Proof.
  intros Hr Hname. split.
  - unfold clicked_close_submission.
    erewrite bind_ok; [|eapply update_submission_run; [exact Hr | apply set_column_Status]].
    apply bind_raise. unfold lift. now rewrite return_template_needs_names.
  - intros -> Hfr. unfold load_submission_details.
    rewrite (bind_ok _ _ _ _ _ (fetch_submission_details_run cfg id w)).
    rewrite Hr, Hfr. apply bind_raise. unfold lift.
    now rewrite return_template_needs_names.
Qed.

(** A reviewed submission without a first name. *)
Lemma close_without_a_name_witness :
  clicked_close_submission services_up demo_config 1 demo_nameless
    (world_of {[1 := demo_nameless]})
  = (Raise TypeError,
     with_queue (<[1 := with_Status (PStr "Closed") demo_nameless]>
                   (contact_queue (world_of {[1 := demo_nameless]})))
                (world_of {[1 := demo_nameless]})).
Proof.
  apply (close_without_a_name services_up demo_config 1 demo_nameless
           (world_of {[1 := demo_nameless]}) demo_nameless).
  - reflexivity.
  - left. discriminate.
Defined.

Lemma substring_here s b : substring 0 (String.length s) (s ++ b) = s.
Proof.
  induction s as [|c s IH]; simpl; [now destruct b|]. now rewrite IH.
Qed.

Lemma substring_skip a m n t :
  substring (String.length a + m) n (a ++ t) = substring m n t.
Proof. induction a as [|c a IH]; simpl; auto. Qed.

Lemma is_substring_iff s t :
  is_substring s t = true <-> exists m, substring m (String.length s) t = s.
Proof.
  unfold is_substring. split.
  - destruct (index 0 s t) as [m|] eqn:Hi; [|discriminate].
    intros _. exists m. now apply (index_correct1 0).
  - intros [m Hm]. destruct (index 0 s t) as [k|] eqn:Hi; [reflexivity|].
    exfalso. destruct (string_dec s EmptyString) as [->|Hne].
    + apply index_correct4 in Hi. lia.
    + apply (index_correct3 0 m s t Hi Hne); [lia | exact Hm].
Qed.

Lemma is_substring_head s b : is_substring s (s ++ b) = true.
Proof. apply is_substring_iff. exists 0%nat. apply substring_here. Qed.

Lemma is_substring_app_r s a t :
  is_substring s t = true -> is_substring s (a ++ t) = true.
Proof.
  rewrite !is_substring_iff. intros [m Hm]. exists (String.length a + m)%nat.
  now rewrite substring_skip.
Qed.

Lemma prefix_app a b c : String.prefix (a ++ b) (a ++ c) = String.prefix b c.
Proof.
  induction a as [|x a IH]; simpl; [reflexivity|].
  destruct (ascii_dec x x); [exact IH | contradiction].
Qed.

(** Whenever [return_template] returns a body (both names are strings),
    the body opens with the greeting to first and last name, and quotes
    the question and the response as they are formatted by the f-string. *)
Theorem closing_mail_quotes_question_and_response details response body :
  return_template details response = Ok body ->
  exists fname lname,
    Contact_Fname details = PStr fname
    /\ Contact_Lname details = PStr lname
    /\ String.prefix ("Dear " ++ ((fname ++ " ") ++ lname) ++ ",") body = true
    /\ is_substring (py_str (Contact_Question details)) body = true
    /\ is_substring (py_str response) body = true.
Proof.
  unfold return_template, py_add.
  destruct (Contact_Fname details) as [|f|z]; try discriminate.
  destruct (Contact_Lname details) as [|l|z]; try discriminate.
  intros [= <-]. exists f, l. split; [reflexivity|]. split; [reflexivity|].
  split; [|split].
  - cbn [py_str]. rewrite !prefix_app. reflexivity.
  - repeat first [apply is_substring_head | apply is_substring_app_r].
  - repeat first [apply is_substring_head | apply is_substring_app_r].
Qed.

(** The mail for the reviewed submission of the examples. *)
Lemma closing_mail_quotes_question_and_response_witness :
  exists body,
    return_template demo_reviewed (Final_Response demo_reviewed) = Ok body
    /\ String.prefix "Dear Ada Lovelace," body = true
    /\ is_substring "What is my deductible?" body = true
    /\ is_substring "Your deductible is $500." body = true.
Proof.
  eexists. split; [reflexivity|].
  destruct (closing_mail_quotes_question_and_response demo_reviewed
              (Final_Response demo_reviewed) _ eq_refl)
    as (f & l & Hf & Hl & Hp & Hq & Hr).
  injection Hf as <-. injection Hl as <-. auto.
Defined.

(** ** contact_helpdesk.py: the submission page *)

Lemma load_submission_details_review cfg id w r :
  contact_queue w !! id = Some r ->
  truthy (Final_Response r) = false ->
  text_or_empty (Final_Prompt r) ->
  exists prompt,
    load_submission_details cfg id w
    = (Ok (Some (mkForm id r prompt (truthy (Contact_Response r))
                        ((if negb (truthy (Contact_Response r))
                          then [GetRagLlmResponse] else []) ++ [SubmitResponse]))),
       review_session id r w).
Proof.
  intros Hr Hfr Hfp. unfold load_submission_details.
  rewrite (bind_ok _ _ _ _ _ (fetch_submission_details_run cfg id w)).
  rewrite Hr, Hfr.
  assert (Hprompt : exists prompt,
             (if truthy (Final_Prompt r)
              then match Final_Prompt r with
                   | PStr s => ret (PStr (escape_dollar s))
                   | _ => raise AttributeError
                   end
              else ret (Final_Prompt r)) w = (Ok prompt, w)).
  { destruct (truthy (Final_Prompt r)) eqn:Htr; [|eauto].
    destruct Hfp as [Hfp | [s Hs]]; [congruence|]. rewrite Hs. eauto. }
  destruct Hprompt as [prompt Hprompt]. exists prompt.
  rewrite (bind_ok _ _ _ _ _ Hprompt).
  unfold bind, session_set, session_get, get_world, of_option, ret. simpl.
  unfold bind. simpl. rewrite lookup_insert_eq. reflexivity.
Qed.

(** The form [load_submission_details] draws shows the row as the table
    has it and leaves the table alone.  It offers the close button
    exactly when the row has a final response and the submit button
    exactly when it has none, so never both; the evaluation slider is
    drawn exactly when there is a raw response and no final response. *)
Theorem form_offers_close_or_review cfg id w f w' :
  load_submission_details cfg id w = (Ok (Some f), w') ->
  contact_queue w !! id = Some (form_details f)
  /\ contact_queue w' = contact_queue w
  /\ (SendEmailCloseSubmission ∈ form_buttons f
      <-> truthy (Final_Response (form_details f)) = true)
  /\ (SubmitResponse ∈ form_buttons f
      <-> truthy (Final_Response (form_details f)) = false)
  /\ (form_slider f = true
      <-> truthy (Final_Response (form_details f)) = false
          /\ truthy (Contact_Response (form_details f)) = true).
Proof.
  intros Hl.
  pose proof (keeps_queue_load_submission_details cfg id w) as Hk. rewrite Hl in Hk.
  destruct (load_submission_details_form _ _ _ _ _ Hl) as (Hd & _ & Hb).
  split; [exact Hd|]. split; [exact Hk|].
  assert (Hs : form_slider f
               = negb (truthy (Final_Response (form_details f)))
                 && truthy (Contact_Response (form_details f))).
  { revert Hl. unfold load_submission_details.
    rewrite (bind_ok _ _ _ _ _ (fetch_submission_details_run cfg id w)).
    destruct (contact_queue w !! id) as [r|]; [|discriminate].
    destruct (truthy (Final_Response r)) eqn:Hfr.
    - unfold bind, lift, ret.
      destruct (return_template r (Final_Response r)); [|discriminate].
      intros [= <- _]. simpl. now rewrite Hfr.
    - unfold bind, lift, ret, session_set, session_get, get_world, of_option, raise.
      destruct (truthy (Final_Prompt r)).
      + destruct (Final_Prompt r); try discriminate.
        simpl. unfold bind. simpl. rewrite lookup_insert_eq. unfold ret.
        intros [= <- _]. simpl. now rewrite Hfr.
      + simpl. unfold bind. simpl. rewrite lookup_insert_eq. unfold ret.
        intros [= <- _]. simpl. now rewrite Hfr. }
  rewrite Hb, Hs. unfold offered_buttons.
  destruct (truthy (Final_Response (form_details f))),
    (truthy (Contact_Response (form_details f))); simpl;
    rewrite ?elem_of_cons, ?elem_of_nil; intuition discriminate.
Qed.

(** The form of a new submission: no slider, no close button. *)
Lemma form_offers_close_or_review_witness :
  exists f w',
    load_submission_details demo_config 1 (world_of {[1 := demo_new]}) = (Ok (Some f), w')
    /\ SubmitResponse ∈ form_buttons f
    /\ ~ SendEmailCloseSubmission ∈ form_buttons f
    /\ form_slider f = false.
Proof.
  destruct (load_submission_details demo_config 1 (world_of {[1 := demo_new]}))
    as [[[f|]|e] w'] eqn:Hl; try (vm_compute in Hl; discriminate).
  exists f, w'. split; [reflexivity|].
  destruct (form_offers_close_or_review demo_config 1 (world_of {[1 := demo_new]}) f w' Hl)
    as (Hd & _ & Hclose & Hsubmit & Hslider).
  assert (Hr : form_details f = demo_new).
  { assert (H : contact_queue (world_of {[1 := demo_new]}) !! 1 = Some demo_new)
      by reflexivity.
    rewrite H in Hd. now injection Hd as <-. }
  rewrite Hr in *. split; [now apply Hsubmit|]. split.
  - intros H. apply Hclose in H. discriminate.
  - destruct (form_slider f); [|reflexivity]. now destruct (proj1 Hslider eq_refl).
Defined.

Lemma session_keys_differ (id : Z) :
  "final_" ++ pretty id <> "slider_" ++ pretty id
  /\ "submitted_" ++ pretty id <> "slider_" ++ pretty id
  /\ "response_" ++ pretty id <> "slider_" ++ pretty id
  /\ "submitted_" ++ pretty id <> "final_" ++ pretty id
  /\ "response_" ++ pretty id <> "final_" ++ pretty id.
Proof. repeat split; intros H; simpl in H; discriminate H. Qed.

(** A review submitted before any answer was fetched.  For a row with
    no raw response and no final response the page draws the submit
    button without the slider; clicking it stores the text of the text
    area as final response and then raises [KeyError] on the slider's
    session key: no evaluation is stored, no telemetry event is sent,
    and the status is what it was. *)
Theorem review_before_answer_stops_at_slider E cfg id w r final_text slider :
  contact_queue w !! id = Some r ->
  truthy (Contact_Response r) = false ->
  truthy (Final_Response r) = false ->
  text_or_empty (Final_Prompt r) ->
  text_or_empty (Payload r) ->
  session_state w !! ("slider_" ++ pretty id) = None ->
  exists f w1 w2,
    load_submission_details cfg id w = (Ok (Some f), w1)
    /\ SubmitResponse ∈ form_buttons f
    /\ form_slider f = false
    /\ (submit_widgets f final_text slider ;;; on_click E cfg f SubmitResponse) w1
       = (Raise (KeyError ("slider_" ++ pretty id)), w2)
    /\ contact_queue w2 = <[id := with_Final_Response (PStr final_text) r]> (contact_queue w)
    /\ telemetry w2 = telemetry w.
Proof.
  intros Hr Hcr Hfr Hfp Hpl Hsl.
  destruct (load_submission_details_review cfg id w r Hr Hfr Hfp) as [prompt Hload].
  rewrite Hcr in Hload. simpl in Hload.
  destruct (session_keys_differ id) as (Hk1 & Hk2 & Hk3 & _).
  set (w1 := review_session id r w) in *.
  set (w1' := with_session (<["final_" ++ pretty id := PStr final_text]> (session_state w1))
                           w1).
  destruct (decode_payload_ok E r w1' Hpl) as (j & w2 & Hdec & Hq & Hss & Htel & _).
  eexists _, w1, _. split; [exact Hload|].
  split; [simpl; rewrite !elem_of_cons; auto|]. split; [reflexivity|].
  unfold submit_widgets. cbn [form_slider form_submission_id].
  unfold on_click. cbn [form_submission_id form_details form_prompt].
  assert (Hsw : (session_set ("final_" ++ pretty id) (PStr final_text) ;;; ret tt) w1
                = (Ok tt, w1')) by reflexivity.
  rewrite (bind_ok _ _ _ _ _ Hsw). unfold clicked_submit_response.
  rewrite (bind_ok _ _ _ _ _ Hdec).
  erewrite bind_ok;
    [|apply session_get_run; rewrite Hss; apply lookup_insert_eq].
  erewrite bind_ok;
    [| eapply update_submission_run; [rewrite Hq; exact Hr | apply set_column_Final_Response]].
  split; [|split].
  - apply bind_raise. unfold session_get, bind, get_world. simpl. rewrite Hss. simpl.
    rewrite !lookup_insert_ne by assumption. rewrite Hsl. reflexivity.
  - simpl. now rewrite Hq.
  - simpl. now rewrite Htel.
Qed.

(** The new submission of the examples, reviewed at once. *)
Lemma review_before_answer_stops_at_slider_witness :
  exists f w1 w2,
    load_submission_details demo_config 1 (world_of {[1 := demo_new]}) = (Ok (Some f), w1)
    /\ (submit_widgets f "Please call us." 3 ;;; on_click services_up demo_config f
                                                   SubmitResponse) w1
       = (Raise (KeyError ("slider_" ++ pretty 1)), w2)
    /\ contact_queue w2
       = <[1 := with_Final_Response (PStr "Please call us.") demo_new]>
           (contact_queue (world_of {[1 := demo_new]})).
Proof.
  destruct (review_before_answer_stops_at_slider services_up demo_config 1
              (world_of {[1 := demo_new]}) demo_new "Please call us." 3)
    as (f & w1 & w2 & Hl & _ & _ & Hrun & Hq & _).
  - reflexivity.
  - reflexivity.
  - reflexivity.
  - now left.
  - now left.
  - reflexivity.
  - exists f, w1, w2. auto.
Defined.

(** The waiting list has no button for a submission that is Closed (or
    whose status is NULL), nor for an id without a row: the page cannot
    open it, so none of its callbacks can be reached for it. *)
Theorem closed_submission_cannot_be_opened E cfg s id :
  keyed_by_id (contact_queue (ui_world s)) ->
  (forall r, contact_queue (ui_world s) !! id = Some r ->
             status_not_closed (Status r) = false) ->
  run_event E cfg (OpenSubmission id) s = None.
Proof.
  intros Hkey Hclosed. unfold run_event.
  destruct (fetch_waiting_submissions cfg (ui_world s)) as [[waiting|e] w] eqn:Hw.
  2: { unfold fetch_waiting_submissions, bind, get_world, ret in Hw. discriminate. }
  destruct (find _ waiting) as [r|] eqn:Hfind; [|reflexivity].
  exfalso.
  destruct (waiting_submission _ _ _ _ _ _ Hw Hfind) as (_ & [k Hk] & Hst).
  apply find_some in Hfind as [_ Hid]. apply Z.eqb_eq in Hid.
  rewrite (Hkey _ _ Hk) in Hid. subst k.
  rewrite (Hclosed r Hk) in Hst. discriminate.
Qed.

(** The session of the examples ends with submission 1 Closed. *)
Lemma closed_submission_cannot_be_opened_witness :
  run_event services_up demo_config (OpenSubmission 1) demo_closed = None.
Proof.
  apply closed_submission_cannot_be_opened.
  - intros id r Hr. vm_compute in Hr.
    destruct id as [|[p|p|]|]; try discriminate Hr.
    injection Hr as <-. reflexivity.
  - intros r Hr. vm_compute in Hr. injection Hr as <-. reflexivity.
Defined.

(** ** contact_helpdesk.py: what a session can and cannot do *)

Lemma next_contact_id_bound (q : gmap Z row) :
  forall k r, q !! k = Some r -> k <= map_fold (fun k _ acc => Z.max k acc) 0 q.
Proof.
  apply (map_fold_weak_ind
           (fun (b : Z) (m : gmap Z row) => forall k r, m !! k = Some r -> k <= b)).
  - intros k r Hk. now rewrite lookup_empty in Hk.
  - intros i x m b Hi IH k r. rewrite lookup_insert. case_decide as Hik.
    + subst. intros _. lia.
    + intros Hk. specialize (IH k r Hk). lia.
Qed.

Lemma next_contact_id_fresh (q : gmap Z row) : q !! next_contact_id q = None.
Proof.
  destruct (q !! next_contact_id q) as [r|] eqn:Hq; [|reflexivity].
  apply next_contact_id_bound in Hq. unfold next_contact_id in Hq. lia.
Qed.

(** [insert_submission] stores the seven values of the contact form in
    a row of their own: the key is one no row has, every row already in
    the table stays as it is, the new row is what
    [fetch_submission_details] returns for the new id, and it is on the
    waiting list. *)
Theorem insert_adds_a_row_of_its_own cfg contact_type fname lname email dob comment date w :
  exists id w',
    insert_submission cfg contact_type fname lname email dob comment date w = (Ok tt, w')
    /\ contact_queue w !! id = None
    /\ (forall k r, contact_queue w !! k = Some r -> contact_queue w' !! k = Some r)
    /\ fetch_submission_details cfg id w'
       = (Ok (Some (new_submission id contact_type fname lname email dob comment date)), w')
    /\ (forall waiting,
           fst (fetch_waiting_submissions cfg w') = Ok waiting ->
           new_submission id contact_type fname lname email dob comment date ∈ waiting).
Proof.
  pose proof (next_contact_id_fresh (contact_queue w)) as Hfresh.
  set (id := next_contact_id (contact_queue w)) in *.
  exists id, (with_queue (<[id := new_submission id contact_type fname lname email dob
                                    comment date]> (contact_queue w)) w).
  split; [reflexivity|].
  split; [exact Hfresh|]. split; [|split].
  - intros k r Hk. simpl. rewrite lookup_insert_ne; [exact Hk|]. intros <-. congruence.
  - unfold fetch_submission_details, bind, get_world, ret. simpl.
    now rewrite lookup_insert_eq.
  - intros waiting. unfold fetch_waiting_submissions, bind, get_world, ret. simpl.
    intros [= <-]. apply list_elem_of_filter. split; [reflexivity|].
    apply list_elem_of_fmap. eexists (_, _). split; [reflexivity|].
    apply elem_of_map_to_list. apply lookup_insert_eq.
Qed.

(** The contact form stores a submission exactly when contact type,
    first name, last name, email and question are all non-empty; the date
    of birth is not asked for.  Otherwise the table is left as it is.
    Either way no submission form is on screen afterwards. *)
Theorem contact_form_requires_five_fields E cfg contact_type fname lname email dob comment
        date s :
  exists s',
    run_event E cfg (SubmitContactForm contact_type fname lname email dob comment date) s
    = Some s'
    /\ (contact_queue (ui_world s') = contact_queue (ui_world s)
        <-> truthy contact_type && truthy fname && truthy lname && truthy email
            && truthy comment = false)
    /\ ui_form s' = None.
Proof.
  unfold run_event.
  destruct (truthy contact_type && truthy fname && truthy lname && truthy email
            && truthy comment); eexists; (split; [reflexivity|]); (split; [|reflexivity]).
  - split; [|discriminate]. simpl. intros Heq. exfalso.
    pose proof (next_contact_id_fresh (contact_queue (ui_world s))) as Hfresh.
    pose proof (lookup_insert_eq (contact_queue (ui_world s))
                  (next_contact_id (contact_queue (ui_world s)))
                  (new_submission (next_contact_id (contact_queue (ui_world s)))
                                  contact_type fname lname email dob comment date)) as Hnew.
    rewrite Heq, Hfresh in Hnew. discriminate.
  - split; reflexivity.
Qed.

Lemma update_literal_preserves (P : gmap Z row -> Prop) cfg id f v :
  stable_under_rewrites id P ->
  f ∈ ["Contact_Response"; "Final_Prompt"; "Final_Response"; "Evaluation"; "Status";
       "Payload"] ->
  preserves P (update_submission cfg id f v).
Proof.
  intros Hst Hf. apply update_submission_preserves. intros q r r' HP Hr Hs.
  apply (Hst q r r' HP Hr).
  repeat (apply elem_of_cons in Hf as [-> | Hf];
          [first [ rewrite set_column_Contact_Response in Hs
                 | rewrite set_column_Final_Prompt in Hs
                 | rewrite set_column_Final_Response in Hs
                 | rewrite set_column_Evaluation in Hs
                 | rewrite set_column_Status in Hs
                 | rewrite set_column_Payload in Hs ];
           injection Hs as <-; constructor|]).
  now apply elem_of_nil in Hf.
Qed.

Lemma payload_merge_preserves (P : gmap Z row -> Prop) E cfg id key value :
  stable_under_rewrites id P ->
  preserves P (update_submission_payload E cfg id key value).
Proof.
  intros Hst. apply update_submission_payload_preserves. intros q r v HP Hr.
  apply (Hst q r _ HP Hr). constructor.
Qed.

Ltac column_write Hst :=
  first [ apply update_literal_preserves;
          [exact Hst | rewrite !elem_of_cons; auto 10]
        | apply payload_merge_preserves; exact Hst ].

(** Whatever button of a form is clicked, its callback keeps every
    property of the table that single-column writes to the form's row
    keep. *)
Lemma on_click_preserves (P : gmap Z row -> Prop) E cfg f b :
  stable_under_rewrites (form_submission_id f) P ->
  preserves P (on_click E cfg f b).
Proof.
  intros Hst. destruct b; unfold on_click.
  - unfold clicked_close_submission.
    apply preserves_bind; [column_write Hst|]. intros _.
    apply keeps_queue_preserves, keeps_queue_after_close.
  - unfold clicked_get_openai.
    apply preserves_bind.
    { apply keeps_queue_preserves, readonly_keeps_queue, readonly_get_rag_prompt. }
    intros prompt. apply preserves_bind.
    { apply keeps_queue_preserves, readonly_keeps_queue, readonly_openai_query. }
    intros [response trace_id].
    repeat (apply preserves_bind; [column_write Hst | intros ?]).
    auto with callbacks.
  - unfold clicked_submit_response.
    apply preserves_bind; [apply keeps_queue_preserves, keeps_queue_decode_payload|].
    intros payload.
    apply preserves_bind; [auto with callbacks|]. intros response.
    apply preserves_bind; [column_write Hst|]. intros _.
    apply preserves_bind; [auto with callbacks|]. intros evaluation.
    apply preserves_bind; [column_write Hst|]. intros _.
    apply keeps_queue_preserves.
    apply keeps_queue_bind.
    { apply keeps_queue_if; [apply keeps_queue_ret | apply keeps_queue_raise]. }
    intros _. apply keeps_queue_bind; [apply keeps_queue_lift|]. intros has_llm.
    apply keeps_queue_bind.
    { apply keeps_queue_if; [|apply keeps_queue_ret].
      apply keeps_queue_bind; [apply keeps_queue_lift|]. intros ?. apply keeps_queue_ret. }
    intros is_openai. apply keeps_queue_bind.
    { apply keeps_queue_if; apply keeps_queue_send_telemetry. }
    intros _. apply keeps_queue_st_success.
Qed.

(** One step of a session keeps a property of the table, as soon as
    adding a row under a new key keeps it and, for the form on screen,
    single-column writes to its row keep it. *)
Lemma step_preserves (P : gmap Z row -> Prop) s s' :
  (forall q id r, P q -> q !! id = None -> P (<[id := r]> q)) ->
  (forall f, ui_form s = Some f -> stable_under_rewrites (form_submission_id f) P) ->
  step s s' ->
  P (contact_queue (ui_world s)) -> P (contact_queue (ui_world s')).
Proof.
  intros Hnew Hst [E cfg ev Hrun] HP.
  destruct ev as [ct fn ln em dob c d|id|b final slider]; unfold run_event in Hrun.
  - destruct (truthy ct && truthy fn && truthy ln && truthy em && truthy c);
      injection Hrun as <-; simpl; [|exact HP].
    apply Hnew; [exact HP | apply next_contact_id_fresh].
  - destruct (fetch_waiting_submissions cfg (ui_world s)) as [[waiting|e] w] eqn:Hw.
    2: { unfold fetch_waiting_submissions, bind, get_world, ret in Hw. discriminate. }
    destruct (find _ waiting) as [r|] eqn:Hfind; [|discriminate].
    destruct (waiting_submission _ _ _ _ _ _ Hw Hfind) as (-> & _ & _).
    pose proof (keeps_queue_load_submission_details cfg (Contact_ID r) (ui_world s)) as Hk.
    destruct (load_submission_details cfg (Contact_ID r) (ui_world s)) as [[f|e] w'];
      simpl in Hk; injection Hrun as <-; simpl; now rewrite Hk.
  - destruct (ui_form s) as [f|] eqn:Hform; [|discriminate].
    destruct (decide (b ∈ form_buttons f)); [|discriminate].
    destruct (decide (1 <= slider <= 5)); [|discriminate].
    injection Hrun as <-. simpl.
    apply (preserves_bind P); [| |exact HP].
    + apply keeps_queue_preserves, keeps_queue_submit_widgets.
    + intros _. apply on_click_preserves. now apply Hst.
Qed.

Lemma reachable_keeps_inv s0 s : ui_inv s0 -> reachable s0 s -> ui_inv s.
Proof.
  intros H0 Hreach. induction Hreach as [|s s' _ IH Hstep]; [exact H0|].
  eapply step_keeps_inv; eauto.
Qed.

(** Closed is final.  From a state in which every row is stored under
    its id and the form on screen, if any, is one the page drew, no
    session changes a row whose status is Closed: in every state reached,
    the row is what it was, in all its columns. *)
Theorem closed_submission_is_never_rewritten s0 s k r :
  ui_inv s0 ->
  reachable s0 s ->
  contact_queue (ui_world s0) !! k = Some r ->
  Status r = PStr "Closed" ->
  contact_queue (ui_world s) !! k = Some r.
Proof.
  intros H0 Hreach Hk Hc. induction Hreach as [|s s' Hreach IH Hstep]; [exact Hk|].
  pose proof (reachable_keeps_inv _ _ H0 Hreach) as [_ Hform].
  apply (step_preserves (fun q => q !! k = Some r) s s'); [| |exact Hstep|exact IH].
  - intros q id x Hq Hid. rewrite lookup_insert_ne; [exact Hq|]. intros <-. congruence.
  - intros f Hf q x x' Hq Hx _.
    destruct (Hform f Hf) as (Hd & Hopen & _).
    rewrite lookup_insert_ne; [exact Hq|]. intros Heq. rewrite Heq, IH in Hd.
    injection Hd as Hd. rewrite <- Hd, Hc in Hopen. discriminate.
Qed.

(** Further clicks after the session of the examples has closed
    submission 1. *)
Lemma closed_submission_is_never_rewritten_witness :
  exists r s,
    contact_queue (ui_world demo_closed) !! 1 = Some r
    /\ Status r = PStr "Closed"
    /\ run_events services_up demo_config
         [SubmitContactForm (PStr "Claim") (PStr "Grace") (PStr "Hopper")
            (PStr "grace@example.org") (PStr "1906-12-09") (PStr "Where is my claim?")
            (PStr "2024-07-18 09:00:00");
          OpenSubmission 2;
          ClickButton GetRagLlmResponse EmptyString 1] demo_closed = Some s
    /\ contact_queue (ui_world s) !! 1 = Some r.
Proof.
  destruct (contact_queue (ui_world demo_closed) !! 1) as [r|] eqn:Hr;
    [|vm_compute in Hr; discriminate].
  destruct (run_events services_up demo_config
              [SubmitContactForm (PStr "Claim") (PStr "Grace") (PStr "Hopper")
                 (PStr "grace@example.org") (PStr "1906-12-09") (PStr "Where is my claim?")
                 (PStr "2024-07-18 09:00:00");
               OpenSubmission 2;
               ClickButton GetRagLlmResponse EmptyString 1] demo_closed) as [s|] eqn:Hs;
    [|vm_compute in Hs; discriminate].
  exists r, s. split; [reflexivity|].
  assert (Hc : Status r = PStr "Closed").
  { vm_compute in Hr. injection Hr as <-. reflexivity. }
  split; [exact Hc|]. split; [reflexivity|].
  apply (closed_submission_is_never_rewritten demo_closed s 1 r); [| |exact Hr|exact Hc].
  - apply (reachable_keeps_inv (mkUi empty_world None)).
    + split; [|discriminate]. intros id x Hx. simpl in Hx. now rewrite lookup_empty in Hx.
    + eapply (run_events_reachable services_up demo_config demo_session);
        [apply reachable_start|]. vm_compute. reflexivity.
  - eapply run_events_reachable; [apply reachable_start | exact Hs].
Defined.

Lemma rewritten_same r r' : rewritten r r' -> same_submission r r'.
Proof. intros []; repeat split. Qed.

Lemma same_submission_trans r1 r2 r3 :
  same_submission r1 r2 -> same_submission r2 r3 -> same_submission r1 r3.
Proof. unfold same_submission. intuition congruence. Qed.

(** No session deletes a submission or rewrites who asked what: a row
    of the table is still there in every state reached, under the same
    key, with the same id, type, names, email, date of birth, question,
    creation date and processing date.  Only the response, the prompt, the
    final response, the evaluation, the status and the payload can have
    changed. *)
Theorem submission_identity_is_never_rewritten s0 s k r :
  reachable s0 s ->
  contact_queue (ui_world s0) !! k = Some r ->
  exists r', contact_queue (ui_world s) !! k = Some r' /\ same_submission r r'.
Proof.
  intros Hreach Hk. induction Hreach as [|s s' Hreach IH Hstep].
  - exists r. split; [exact Hk|]. repeat split.
  - apply (step_preserves
             (fun q => exists r', q !! k = Some r' /\ same_submission r r') s s');
      [| |exact Hstep|exact IH].
    + intros q id x (r' & Hq & Hsame) Hid. exists r'. split; [|exact Hsame].
      rewrite lookup_insert_ne; [exact Hq|]. intros <-. congruence.
    + intros f _ q x x' (r' & Hq & Hsame) Hx Hrw.
      destruct (decide (form_submission_id f = k)) as [Heq|Hne].
      * exists x'. split; [rewrite Heq; apply lookup_insert_eq|].
        rewrite Heq, Hq in Hx. injection Hx as <-.
        eapply same_submission_trans; [exact Hsame | now apply rewritten_same].
      * exists r'. split; [|exact Hsame]. now rewrite lookup_insert_ne.
Qed.

(** The session of the examples, from a table that holds submission 1. *)
Lemma submission_identity_is_never_rewritten_witness :
  exists r',
    contact_queue (ui_world demo_closed) !! 1 = Some r'
    /\ Contact_Question r' = PStr "What is my deductible?"
    /\ Processed_Date r' = PNone.
Proof.
  assert (Hmid : exists s1,
             run_events services_up demo_config [hd (OpenSubmission 1) demo_session]
               (mkUi empty_world None) = Some s1
             /\ contact_queue (ui_world s1) !! 1 = Some demo_new
             /\ run_events services_up demo_config (tl demo_session) s1 = Some demo_closed).
  { eexists. split; [reflexivity|]. split; [reflexivity|]. vm_compute. reflexivity. }
  destruct Hmid as (s1 & _ & H1 & Hrest).
  destruct (submission_identity_is_never_rewritten s1 demo_closed 1 demo_new)
    as (r' & Hr' & Hsame).
  - eapply run_events_reachable; [apply reachable_start | exact Hrest].
  - exact H1.
  - exists r'. split; [exact Hr'|].
    destruct Hsame as (_ & _ & _ & _ & _ & _ & Hq & _ & Hp). rewrite Hq, Hp.
    split; reflexivity.
Defined.

Lemma keeps_bind {A B C} (proj : world -> C) (c : M A) (k : A -> M B) :
  keeps proj c -> (forall a, keeps proj (k a)) -> keeps proj (bind c k).
Proof.
  intros Hc Hk w. unfold bind. specialize (Hc w).
  destruct (c w) as [[a|e] w1]; simpl in *; auto. now rewrite Hk.
Qed.

Lemma readonly_keeps {A C} (proj : world -> C) (c : M A) : readonly c -> keeps proj c.
Proof. intros H w. now rewrite H. Qed.

Lemma keeps_if {A C} (proj : world -> C) (b : bool) (c1 c2 : M A) :
  keeps proj c1 -> keeps proj c2 -> keeps proj (if b then c1 else c2).
Proof. now destruct b. Qed.

Lemma framed_outbox : framed outbox.
Proof. repeat split. Qed.

Lemma framed_telemetry : framed telemetry.
Proof. repeat split. Qed.

Section Framed.
Context {C : Type} (proj : world -> C) (Hframe : framed proj).

Lemma keeps_update_submission cfg id f v : keeps proj (update_submission cfg id f v).
Proof.
  destruct Hframe as (Hq & _ & _). intros w. unfold update_submission.
  destruct (is_column f); [|reflexivity]. unfold bind, get_world.
  destruct (contact_queue w !! id) as [r|]; [|reflexivity].
  destruct (set_column f v r); [apply Hq | reflexivity].
Qed.

Lemma keeps_update_submission_payload E cfg id key value :
  keeps proj (update_submission_payload E cfg id key value).
Proof.
  destruct Hframe as (Hq & _ & _). intros w. unfold update_submission_payload.
  unfold bind at 1. unfold get_world.
  destruct (contact_queue w !! id) as [r|]; [|reflexivity].
  unfold bind, lift, ret. destruct (truthy (Payload r)).
  - destruct (py_json_loads E (Payload r)) as [j|]; [|reflexivity].
    destruct (py_setitem key value j); [|reflexivity].
    rewrite set_column_Payload. apply Hq.
  - simpl. rewrite set_column_Payload. apply Hq.
Qed.

Lemma keeps_session_set k v : keeps proj (session_set k v).
Proof. destruct Hframe as (_ & Hs & _). intros w. apply Hs. Qed.

Lemma keeps_st_success msg : keeps proj (st_success msg).
Proof. destruct Hframe as (_ & _ & Hm). intros w. apply Hm. Qed.

Lemma keeps_st_warning msg : keeps proj (st_warning msg).
Proof. destruct Hframe as (_ & _ & Hm). intros w. apply Hm. Qed.

Lemma keeps_decode_payload E d : keeps proj (decode_payload E d).
Proof.
  intros w. unfold decode_payload, try_json.
  destruct (truthy (Payload d)); [|reflexivity].
  unfold lift. destruct (py_json_loads E (Payload d)) as [j|[]]; try reflexivity.
  apply keeps_st_warning.
Qed.

Lemma keeps_insert_submission cfg ct fn ln em dob c d :
  keeps proj (insert_submission cfg ct fn ln em dob c d).
Proof. destruct Hframe as (Hq & _ & _). intros w. apply Hq. Qed.

Lemma keeps_submit_widgets f final_text slider :
  keeps proj (submit_widgets f final_text slider).
Proof.
  unfold submit_widgets. apply keeps_bind; [apply keeps_session_set|]. intros _.
  apply keeps_if; [apply keeps_session_set | now intros w].
Qed.

Lemma keeps_load_submission_details cfg id : keeps proj (load_submission_details cfg id).
Proof.
  unfold load_submission_details.
  apply keeps_bind; [now intros w|]. intros [d|]; [|now intros w].
  destruct (truthy (Final_Response d)).
  - apply keeps_bind; [now intros w|]. intros ?. now intros w.
  - apply keeps_bind.
    { destruct (truthy (Final_Prompt d)); [destruct (Final_Prompt d)|]; now intros w. }
    intros ?. apply keeps_bind; [apply keeps_session_set|]. intros ?.
    apply keeps_bind.
    { apply readonly_keeps. unfold session_get. apply readonly_get_world. intros w.
      apply readonly_of_option. }
    intros ?. apply keeps_bind; [|intros ?; now intros w].
    simpl. apply keeps_bind; [apply keeps_session_set|]. intros ?. now intros w.
Qed.

Lemma keeps_clicked_get_openai E cfg cp cred id details :
  keeps proj (clicked_get_openai E cfg cp cred id details).
Proof.
  unfold clicked_get_openai.
  apply keeps_bind; [apply readonly_keeps, readonly_get_rag_prompt|]. intros prompt.
  apply keeps_bind; [apply readonly_keeps, readonly_openai_query|].
  intros [response trace_id].
  repeat (apply keeps_bind;
          [first [apply keeps_update_submission | apply keeps_update_submission_payload]
          | intros ?]).
  apply keeps_st_success.
Qed.

End Framed.

Lemma keeps_telemetry_close E cfg id details :
  keeps telemetry (clicked_close_submission E cfg id details).
Proof.
  unfold clicked_close_submission.
  apply keeps_bind; [apply keeps_update_submission, framed_telemetry|]. intros _.
  apply keeps_bind; [now intros w|]. intros body.
  apply keeps_bind; [|intros _; apply keeps_st_success, framed_telemetry].
  unfold send_email. apply keeps_bind; [now intros w|]. intros _.
  destruct (send_email_via_sendgrid _ _ _); now intros w.
Qed.

Lemma keeps_outbox_review E cfg id details prompt :
  keeps outbox (clicked_submit_response E cfg id details prompt).
Proof.
  pose proof framed_outbox as Hf. unfold clicked_submit_response.
  apply keeps_bind; [now apply keeps_decode_payload|]. intros payload.
  assert (Hget : forall k, keeps outbox (session_get k)).
  { intros k. apply readonly_keeps. unfold session_get. apply readonly_get_world.
    intros w. apply readonly_of_option. }
  apply keeps_bind; [apply Hget|]. intros response.
  apply keeps_bind; [now apply keeps_update_submission|]. intros _.
  apply keeps_bind; [apply Hget|]. intros evaluation.
  apply keeps_bind; [now apply keeps_update_submission|]. intros _.
  apply keeps_bind; [apply keeps_if; now intros w|]. intros _.
  apply keeps_bind; [now intros w|]. intros has_llm.
  apply keeps_bind.
  { apply keeps_if; [|now intros w].
    apply keeps_bind; [now intros w|]. intros ?. now intros w. }
  intros is_openai.
  assert (Hsend : forall ev, keeps outbox (send_telemetry E ev)).
  { intros ev. unfold send_telemetry. apply keeps_bind; [now intros w|]. intros _.
    destruct (baserun_accepts E ev); now intros w. }
  apply keeps_bind; [apply keeps_if; apply Hsend|]. intros _.
  now apply keeps_st_success.
Qed.

(** Mail and telemetry have one source each.  A step of the session
    that is not a click on the close button sends no mail, and a click on
    it hands the mail helper the closure mail of the form on screen and
    nothing else; a step that is not a click on the submit button sends
    no telemetry.  Intake, opening a submission and fetching an answer
    do neither, whether they succeed or raise. *)
Theorem mail_and_telemetry_have_one_source_each E cfg ev s s' :
  run_event E cfg ev s = Some s' ->
  ((forall final_text slider,
       ev <> ClickButton SendEmailCloseSubmission final_text slider) ->
   outbox (ui_world s') = outbox (ui_world s))
  /\ ((forall final_text slider, ev <> ClickButton SubmitResponse final_text slider) ->
      telemetry (ui_world s') = telemetry (ui_world s))
  /\ (forall final_text slider f,
         ev = ClickButton SendEmailCloseSubmission final_text slider ->
         ui_form s = Some f ->
         outbox (ui_world s')
         = (outbox (ui_world s) ++ closure_mail (form_details f))%list).
Proof.
  intros Hrun.
  assert (Hboth : forall (C : Type) (proj : world -> C),
             framed proj ->
             (forall f final_text slider b,
                 ev = ClickButton b final_text slider -> ui_form s = Some f ->
                 keeps proj (on_click E cfg f b)) ->
             proj (ui_world s') = proj (ui_world s)).
  { intros C proj Hframe Hclick.
    destruct ev as [ct fn ln em dob c d|id|b final slider]; unfold run_event in Hrun.
    - destruct (truthy ct && truthy fn && truthy ln && truthy em && truthy c);
        injection Hrun as <-; [|reflexivity].
      exact (keeps_insert_submission proj Hframe cfg ct fn ln em dob c d (ui_world s)).
    - destruct (fetch_waiting_submissions cfg (ui_world s)) as [[waiting|e] w] eqn:Hw.
      2: { unfold fetch_waiting_submissions, bind, get_world, ret in Hw. discriminate. }
      destruct (find _ waiting) as [r|] eqn:Hfind; [|discriminate].
      destruct (waiting_submission _ _ _ _ _ _ Hw Hfind) as (-> & _ & _).
      pose proof (keeps_load_submission_details proj Hframe cfg (Contact_ID r) (ui_world s))
        as Hk.
      destruct (load_submission_details cfg (Contact_ID r) (ui_world s)) as [[f|e] w'];
        simpl in Hk; injection Hrun as <-; exact Hk.
    - destruct (ui_form s) as [f|] eqn:Hform; [|discriminate].
      destruct (decide (b ∈ form_buttons f)); [|discriminate].
      destruct (decide (1 <= slider <= 5)); [|discriminate].
      injection Hrun as <-. simpl.
      apply (keeps_bind proj); [now apply keeps_submit_widgets|]. intros _.
      now apply (Hclick f final slider b). }
  split; [|split].
  - intros Hev. apply (Hboth _ outbox framed_outbox).
    intros f final slider b -> _. destruct b; simpl.
    + now destruct (Hev final slider).
    + apply keeps_clicked_get_openai, framed_outbox.
    + apply keeps_outbox_review.
  - intros Hev. apply (Hboth _ telemetry framed_telemetry).
    intros f final slider b -> _. destruct b; simpl.
    + apply keeps_telemetry_close.
    + apply keeps_clicked_get_openai, framed_telemetry.
    + now destruct (Hev final slider).
  - intros final slider f -> Hform. unfold run_event in Hrun. rewrite Hform in Hrun.
    destruct (decide (_ ∈ form_buttons f)); [|discriminate].
    destruct (decide (1 <= slider <= 5)); [|discriminate].
    injection Hrun as <-. simpl. unfold bind.
    pose proof (keeps_submit_widgets outbox framed_outbox f final slider (ui_world s)) as Hk.
    destruct (submit_widgets f final slider (ui_world s)) as [[[]|err] w1] eqn:Hsw.
    + simpl in Hk. rewrite <- Hk. apply clicked_close_submission_outbox.
    + exfalso. revert Hsw. unfold submit_widgets, bind, session_set.
      destruct (form_slider f); discriminate.
Qed.

(** Fetching an answer for the open submission of the examples. *)
Lemma mail_and_telemetry_have_one_source_each_witness :
  exists s',
    run_event services_up demo_config (ClickButton GetRagLlmResponse EmptyString 1)
      demo_opened = Some s'
    /\ outbox (ui_world s') = outbox (ui_world demo_opened)
    /\ telemetry (ui_world s') = telemetry (ui_world demo_opened).
Proof.
  destruct (run_event services_up demo_config (ClickButton GetRagLlmResponse EmptyString 1)
              demo_opened) as [s'|] eqn:Hrun; [|vm_compute in Hrun; discriminate].
  exists s'. split; [reflexivity|].
  destruct (mail_and_telemetry_have_one_source_each _ _ _ _ _ Hrun) as (Hmail & Htel & _).
  split; [apply Hmail | apply Htel]; discriminate.
Defined.

(** ** contact_helpdesk.py: the callback of the Gemini backend *)

(** [clicked_get_rag] stores the reply, the prompt and the status
    Processed, and binds the text [JSON_INSERT(...)] to the payload column
    as a value: the column then holds that text, which is not JSON.  On
    the row it leaves, every payload merge raises [JSONDecodeError], and
    the review callback shows its warning and goes on with the empty
    dict. *)
Theorem gemini_callback_leaves_unparsed_payload E gen cfg cp cred id w r info name answer :
  retrieval_ready E cp cred id w r info name ->
  gen "gemini-1.5-pro-001" name google_rag_query.similarity_top_k
      google_rag_query.vector_distance_threshold google_rag_query.system_list
      [google_rag_query.enhanced_prompt E info (Contact_Question r)] = Some answer ->
  json_loads E json_insert_text = None ->
  exists w' r',
    clicked_get_rag E gen cfg cp cred id w = (Ok tt, w')
    /\ contact_queue w' !! id = Some r'
    /\ r' = with_Payload (PStr json_insert_text)
              (processed (String.concat " " google_rag_query.system_list
                          ++ google_rag_query.enhanced_prompt E info (Contact_Question r))
                         (google_rag_query.candidates_loop answer EmptyString) r)
    /\ (forall key value,
           update_submission_payload E cfg id key value w' = (Raise JSONDecodeError, w'))
    /\ (forall w0,
           decode_payload E r' w0
           = (Ok (JObj []), snd (st_warning "Invalid JSON payload. Unable to parse." w0))).
Proof.
  intros Hready Hgen Hjson.
  pose proof (get_rag_response_run E gen cp cred cfg id w r info name answer Hready Hgen)
    as Hrun.
  destruct Hready as (_ & _ & _ & _ & _ & _ & _ & _ & Hr & _).
  eexists. eexists. split; [|split; [|split; [reflexivity|split]]].
  - unfold clicked_get_rag. rewrite (bind_ok _ _ _ _ _ Hrun).
    erewrite bind_ok;
      [| eapply update_submission_run; [exact Hr | apply set_column_Contact_Response]].
    erewrite bind_ok;
      [| eapply update_submission_run;
         [rewrite contact_queue_with_queue; apply lookup_insert_eq
         | apply set_column_Final_Prompt]].
    rewrite with_queue_twice, contact_queue_with_queue, insert_insert_eq.
    erewrite bind_ok;
      [| eapply update_submission_run;
         [rewrite contact_queue_with_queue; apply lookup_insert_eq
         | apply set_column_Status]].
    rewrite with_queue_twice, contact_queue_with_queue, insert_insert_eq.
    erewrite bind_ok;
      [| eapply update_submission_run;
         [rewrite contact_queue_with_queue; apply lookup_insert_eq
         | apply set_column_Payload]].
    rewrite with_queue_twice, contact_queue_with_queue, insert_insert_eq.
    reflexivity.
  - simpl. apply lookup_insert_eq.
  - intros key value.
    eapply (merge_on_unreadable_payload_raises_always E cfg id key value);
      [simpl; apply lookup_insert_eq | reflexivity | discriminate | exact Hjson].
  - intros w0. unfold decode_payload, try_json, lift. simpl. now rewrite Hjson.
Qed.

(** The new submission of the examples, answered by the Gemini backend. *)
Lemma gemini_callback_leaves_unparsed_payload_witness :
  exists w' r',
    clicked_get_rag services_up (demo_model (Some demo_candidates)) demo_config
      "corpus_config.json" "key.json" 1 (world_of {[1 := demo_new]}) = (Ok tt, w')
    /\ contact_queue w' !! 1 = Some r'
    /\ Contact_Response r' = PStr "is $500."
    /\ Payload r' = PStr "JSON_INSERT(@`Payload`, '$.llm', 'gemini-1.5-pro-001')"
    /\ update_submission_payload services_up demo_config 1 "trace_id" (JStr "trace-1") w'
       = (Raise JSONDecodeError, w').
Proof.
  destruct (gemini_callback_leaves_unparsed_payload services_up
              (demo_model (Some demo_candidates)) demo_config "corpus_config.json"
              "key.json" 1 (world_of {[1 := demo_new]}) demo_new demo_member
              (PStr "projects/demo/ragCorpora/1") demo_candidates)
    as (w' & r' & Hrun & Hr' & Heq & Hmerge & _).
  - exists [("corpus_name", PStr "projects/demo/ragCorpora/1"); ("project_id", PStr "demo");
            ("location", PStr "us-central1")], (PStr "demo"), (PStr "us-central1").
    repeat (split; [reflexivity|]). vm_compute. reflexivity.
  - reflexivity.
  - vm_compute. reflexivity.
  - exists w', r'. split; [exact Hrun|]. split; [exact Hr'|].
    rewrite Heq. split; [reflexivity|]. split; [reflexivity|]. apply Hmerge.
Defined.

(** ** create_google_rag.py *)

(** [main] of the corpus script never gets as far as the bucket: for
    every argument and whatever the cloud services do, it raises, at the
    latest when [upload_files_to_gcs] looks up [service_account], a name
    the script neither imports nor defines.  Up to there it has at most
    exported the credentials path and initialised Vertex AI: no file is
    uploaded, no corpus is created, no corpus configuration is written. *)
Theorem corpus_script_stops_before_the_upload
        vertexai_init listdir isfile upload_from_filename create_corpus import_files
        can_write project_id display_name gcs_source_uri location credentials_path
        source_dir embedding_model tr :
  exists e acts,
    create_google_rag.main vertexai_init listdir isfile upload_from_filename create_corpus
      import_files can_write project_id display_name gcs_source_uri location
      credentials_path source_dir embedding_model tr
    = (create_google_rag.Failed e, (tr ++ acts)%list)
    /\ forallb setup_action acts = true
    /\ (e = create_google_rag.IndexError
        \/ e = create_google_rag.CloudError "vertexai.init"
        \/ e = create_google_rag.NameError "service_account").
Proof.
  unfold create_google_rag.main, create_google_rag.then_, create_google_rag.expect.
  destruct (nth_error (create_google_rag.split "//" gcs_source_uri) 1) as [after|].
  2: { exists create_google_rag.IndexError, []. rewrite app_nil_r.
       split; [reflexivity|]. split; [reflexivity|]. auto. }
  change (create_google_rag.done after tr) with (create_google_rag.Done after, tr).
  cbv beta iota.
  destruct (nth_error (create_google_rag.split "/" after) 0) as [bucket_name|].
  2: { exists create_google_rag.IndexError, []. rewrite app_nil_r.
       split; [reflexivity|]. split; [reflexivity|]. auto. }
  unfold create_google_rag.done, create_google_rag.initialize_vertex_ai,
    create_google_rag.then_, create_google_rag.guard, create_google_rag.perform,
    create_google_rag.done, create_google_rag.fail.
  destruct (negb (String.eqb credentials_path EmptyString));
    destruct (vertexai_init project_id location); simpl.
  - exists (create_google_rag.NameError "service_account"),
      [create_google_rag.SetCredentials credentials_path;
       create_google_rag.VertexInit project_id location].
    split; [now rewrite <- app_assoc|]. split; [reflexivity|]. auto.
  - exists (create_google_rag.CloudError "vertexai.init"),
      [create_google_rag.SetCredentials credentials_path].
    split; [reflexivity|]. split; [reflexivity|]. auto.
  - exists (create_google_rag.NameError "service_account"),
      [create_google_rag.VertexInit project_id location].
    split; [reflexivity|]. split; [reflexivity|]. auto.
  - exists (create_google_rag.CloudError "vertexai.init"), []. rewrite app_nil_r.
    split; [reflexivity|]. split; [reflexivity|]. auto.
Qed.

(** The configuration [create_corpus_config] writes is one
    [get_rag_prompt] can work with: the file is named after the project,
    and its dict has the three keys the prompt builder subscripts.  Read
    back under the path the helpdesk is given, Vertex AI is initialised
    with the project and location written, the corpus queried is the one
    written, and no [KeyError] arises from the configuration. *)
Theorem corpus_config_has_the_keys_the_prompt_reads
        can_write corpus_name project_id location tr tr' E cp cred cfg id w r info contexts :
  create_google_rag.create_corpus_config can_write corpus_name project_id location tr
  = (create_google_rag.Done tt, tr') ->
  exists content,
    tr' = (tr ++ [create_google_rag.WriteJson (project_id ++ "_corpus_config.json")
                    content])%list
    /\ (read_json_file E cp = Some content ->
        vertexai_init E (PStr project_id) (PStr location) cred = true ->
        contact_queue w !! id = Some r ->
        fst (google_rag_query.get_member_data E (submission_info r) w) = Ok info ->
        rag_retrieval_query E (PStr corpus_name) (Contact_Question r)
          google_rag_query.similarity_top_k google_rag_query.vector_distance_threshold
        = Some contexts ->
        google_rag_query.get_rag_prompt E cp cred cfg id w
        = (Ok (google_rag_query.full_prompt E google_rag_query.system_list
                 (google_rag_query.first_context_text contexts) info (Contact_Question r)),
           w)).
Proof.
  unfold create_google_rag.create_corpus_config, create_google_rag.then_,
    create_google_rag.guard, create_google_rag.perform.
  destruct (can_write _); [|discriminate]. simpl. intros [= <-].
  eexists. split; [reflexivity|]. intros Hread Hinit Hr Hinfo Hq.
  apply (get_rag_prompt_run E cp cred cfg id w r info (PStr corpus_name) contexts);
    [|exact Hq].
  exists (create_google_rag.corpus_config corpus_name project_id location),
    (PStr project_id), (PStr location).
  repeat (split; [first [exact Hread | exact Hinit | exact Hr | reflexivity]|]).
  exact Hinfo.
Qed.

(** The configuration of the examples, written for project [demo] and
    read by the helpdesk as [corpus_config.json]. *)
Lemma corpus_config_has_the_keys_the_prompt_reads_witness :
  create_google_rag.create_corpus_config (fun _ => true) "projects/demo/ragCorpora/1" "demo"
    "us-central1" []
  = (create_google_rag.Done tt,
     [create_google_rag.WriteJson "demo_corpus_config.json"
        [("corpus_name", PStr "projects/demo/ragCorpora/1"); ("project_id", PStr "demo");
         ("location", PStr "us-central1")]])
  /\ google_rag_query.get_rag_prompt services_up "corpus_config.json" "key.json" demo_config
       1 (world_of {[1 := demo_new]})
     = (Ok demo_prompt, world_of {[1 := demo_new]}).
Proof.
  split; [reflexivity|].
  destruct (corpus_config_has_the_keys_the_prompt_reads (fun _ => true)
              "projects/demo/ragCorpora/1" "demo" "us-central1" [] _
              services_up "corpus_config.json" "key.json" demo_config 1
              (world_of {[1 := demo_new]}) demo_new demo_member
              [mkContext "Deductible: $500 per year." (9 # 10)] eq_refl)
    as (content & Htr & Hprompt).
  injection Htr as <-.
  apply Hprompt; first [reflexivity | vm_compute; reflexivity].
Defined.
